(** * AQI Notify: a shallow embedding of [src/index.ts]

    The worker polls the AQICN feed, classifies the air-quality index into a
    severity tier, renders a Telegram message and posts it.  This file embeds
    the worker's functions as Rocq definitions and proves the properties the
    specification states about them.

    Conventions.
    - A JavaScript [number] is an IEEE double.  Only its order matters here,
      so it is modelled by [number]: NaN, the two infinities and the finite
      values, the latter as rationals (every finite double is one).
    - A JavaScript string is modelled by the bytes of its UTF-8 encoding
      ([string]); concatenation, equality and emptiness agree with the
      source on every well-formed string.
    - Whatever [response.json()] yields is an untyped [value]: the cast
      [as AQICNResponse] is erased at run time.  Interpolating such a value
      into a template literal can throw, so the formatters return an
      [outcome].
    - Effects (HTTP calls, console output, thrown errors) are explicit: a
      computation maps the trace of events so far to an outcome and the
      extended trace. *)

From Stdlib Require Import String Ascii List Bool ZArith QArith Lia Lqa.
From Stdlib Require Import DecimalString.
Import ListNotations.

Set Warnings "-register-all".

Open Scope string_scope.

(* ================================================================= *)
(** ** Strings *)

(** The line feed, ['\n']. *)
Definition LF : ascii := Ascii.ascii_of_nat 10.
Definition nl : string := String LF EmptyString.

(** [Array.prototype.join] on an array of strings. *)
Definition join (sep : string) (parts : list string) : string :=
  String.concat sep parts.

(** A string is truthy when it is not empty. *)
Definition truthy_string (s : string) : bool :=
  match s with
  | EmptyString => false
  | String _ _ => true
  end.

(* ================================================================= *)
(** ** Numbers *)

Inductive number : Type :=
| NaN
| NegInf
| Fin (q : Q)
| PosInf.

Definition int (z : Z) : number := Fin (inject_Z z).

(** [a < b] *)
Definition num_lt (a b : number) : bool :=
  match a, b with
  | NaN, _ | _, NaN => false
  | NegInf, NegInf => false
  | NegInf, _ => true
  | Fin _, NegInf => false
  | Fin x, Fin y => negb (Qle_bool y x)
  | Fin _, PosInf => true
  | PosInf, _ => false
  end.

(** [a <= b] *)
Definition num_le (a b : number) : bool :=
  match a, b with
  | NaN, _ | _, NaN => false
  | NegInf, _ => true
  | Fin _, NegInf => false
  | Fin x, Fin y => Qle_bool x y
  | Fin _, PosInf => true
  | PosInf, PosInf => true
  | PosInf, _ => false
  end.

(** [a > b] *)
Definition num_gt (a b : number) : bool := num_lt b a.

(** [a >= b] *)
Definition num_ge (a b : number) : bool := num_le b a.

(* ================================================================= *)
(** ** Configuration and the tier table *)

Record Cron : Type := {
  HOURLY : string;
  DAILY_SUMMARY : string
}.

Record Config : Type := {
  ALERT_THRESHOLD : number;
  CITY : string;
  CRON : Cron
}.

(** The module-level constant of the source.  The handlers below take the
    configuration as an argument so that statements can range over
    configurations; the deployed worker runs them at [CONFIG]. *)
Definition CONFIG : Config := {|
  ALERT_THRESHOLD := int 100;
  CITY := "bangkok";
  CRON := {| HOURLY := "0 * * * *"; DAILY_SUMMARY := "0 1 * * *" |}
|}.

Record Tier : Type := {
  max : number;
  level : string;
  emoji : string;
  advisory : string
}.

Definition tier_good : Tier := {|
  max := int 50;
  level := "Good";
  emoji := "🟢";
  advisory := "Air quality is satisfactory with little or no risk."
|}.

Definition tier_moderate : Tier := {|
  max := int 100;
  level := "Moderate";
  emoji := "🟡";
  advisory := "Air quality is acceptable. However, there may be moderate health concern for very sensitive people."
|}.

Definition tier_sensitive : Tier := {|
  max := int 150;
  level := "Unhealthy for Sensitive Groups";
  emoji := "🟠";
  advisory := "Members of sensitive groups may experience health effects. General public is less likely to be affected."
|}.

Definition tier_unhealthy : Tier := {|
  max := int 200;
  level := "Unhealthy";
  emoji := "🔴";
  advisory := "Everyone may begin to experience health effects. Sensitive groups may experience more serious effects. Consider wearing a mask outdoors."
|}.

Definition tier_very_unhealthy : Tier := {|
  max := int 300;
  level := "Very Unhealthy";
  emoji := "🟣";
  advisory := "Health alert: everyone may experience more serious health effects. Avoid outdoor activities."
|}.

Definition tier_hazardous : Tier := {|
  max := PosInf;
  level := "Hazardous";
  emoji := "🟤";
  advisory := "Health warning of emergency conditions. Everyone is more likely to be affected. Stay indoors."
|}.

Definition AQI_LEVELS : list Tier :=
  [ tier_good; tier_moderate; tier_sensitive;
    tier_unhealthy; tier_very_unhealthy; tier_hazardous ].

(** [AQI_LEVELS.find((level) => aqi <= level.max)] *)
Definition find_level (aqi : number) : option Tier :=
  find (fun level => num_le aqi (max level)) AQI_LEVELS.

(** [AQI_LEVELS[AQI_LEVELS.length - 1]].  The table is a six-element
    constant, so the index is in range and the default of [nth] is never
    used (lemma [last_level_in_range]). *)
Definition last_level : Tier :=
  nth (length AQI_LEVELS - 1) AQI_LEVELS tier_hazardous.

(** [find] yields a tier object (truthy) or [undefined]; [||] takes the
    right operand exactly in the second case. *)
Definition getAQILevel (aqi : number) : Tier :=
  match find_level aqi with
  | Some level => level
  | None => last_level
  end.

(* ================================================================= *)
(** ** Values parsed from JSON *)

(** [undefined] and the values of JSON.  An object lists its own properties
    in insertion order, each key once. *)
Inductive value : Type :=
| VUndefined
| VNull
| VBool (b : bool)
| VNum (n : number)
| VStr (s : string)
| VArr (elems : list value)
| VObj (fields : list (string * value)).

Definition is_undefined (v : value) : bool :=
  match v with VUndefined => true | _ => false end.

(** [v == null], the test behind [?.] *)
Definition is_nullish (v : value) : bool :=
  match v with VUndefined | VNull => true | _ => false end.

(** ToBoolean *)
Definition truthy (v : value) : bool :=
  match v with
  | VUndefined | VNull => false
  | VBool b => b
  | VNum (Fin q) => negb (Qeq_bool q 0)
  | VNum NaN => false
  | VNum _ => true
  | VStr s => truthy_string s
  | VArr _ | VObj _ => true
  end.

(** [v === 'literal'] *)
Definition strict_eq_string (v : value) (literal : string) : bool :=
  match v with
  | VStr s => String.eqb s literal
  | _ => false
  end.

(** Own-property lookup in an object, first binding of the key. *)
Fixpoint lookup {A : Type} (key : string) (fields : list (string * A)) : option A :=
  match fields with
  | [] => None
  | (k, x) :: rest => if String.eqb k key then Some x else lookup key rest
  end.

(* ================================================================= *)
(** ** Errors and effects *)

(** The source throws plain [Error] objects that differ by their message
    only.  [site] records which statement threw: the six [throw]s of the
    source, named as the specification names them, and [RuntimeError] for
    the errors the platform raises (a rejected [fetch], an unparseable body,
    a property read on [undefined] or [null]). *)
Inductive ErrorSite : Type :=
| FetchError
| ApiStatusError
| SchemaError
| InvalidIndexError
| EmptyMessageError
| DeliveryError
| RuntimeError.

Record Error : Type := {
  site : ErrorSite;
  message : string
}.

Inductive outcome (A : Type) : Type :=
| Returned (a : A)
| Thrown (e : Error).
Arguments Returned {A} a.
Arguments Thrown {A} e.

(** Property read [v.key].  It throws on [undefined] and [null]; on an
    object it yields the own property or [undefined]; on the other values
    it yields [undefined].  The worker reads only the names [status],
    [data], [city], [name], [aqi], [dominentpol], [iaqi], [time], [s], [v]
    and the nine [iaqi] codes, none of which is inherited from a
    prototype. *)
Definition get (v : value) (key : string) : outcome value :=
  match v with
  | VUndefined =>
      Thrown {| site := RuntimeError;
                message := "Cannot read properties of undefined (reading '" ++ key ++ "')" |}
  | VNull =>
      Thrown {| site := RuntimeError;
                message := "Cannot read properties of null (reading '" ++ key ++ "')" |}
  | VObj fields =>
      Returned (match lookup key fields with Some x => x | None => VUndefined end)
  | _ => Returned VUndefined
  end.

(** [v?.key] *)
Definition get_opt (v : value) (key : string) : outcome value :=
  if is_nullish v then Returned VUndefined else get v key.

(** The body sent to Telegram, before [JSON.stringify]. *)
Record TelegramBody : Type := {
  chat_id : string;
  text : string;
  parse_mode : string;
  message_thread_id : option number
}.

Inductive event : Type :=
| HttpGet (url : string)
| HttpPost (url : string) (body : TelegramBody)
| ConsoleLog (line : string)
| ConsoleError (line : string).

(** A computation extends the trace of events and returns or throws. *)
Definition M (A : Type) : Type := list event -> outcome A * list event.

Definition ret {A : Type} (a : A) : M A := fun tr => (Returned a, tr).

Definition throw {A : Type} (s : ErrorSite) (msg : string) : M A :=
  fun tr => (Thrown {| site := s; message := msg |}, tr).

Definition bind {A B : Type} (m : M A) (k : A -> M B) : M B :=
  fun tr =>
    match m tr with
    | (Returned a, tr') => k a tr'
    | (Thrown e, tr') => (Thrown e, tr')
    end.

Definition lift {A : Type} (o : outcome A) : M A := fun tr => (o, tr).

Definition emit (ev : event) : M unit := fun tr => (Returned tt, (tr ++ [ev])%list).

(** [try { body } catch (error) { handler }] *)
Definition try_catch {A : Type} (body : M A) (handler : Error -> M A) : M A :=
  fun tr =>
    match body tr with
    | (Returned a, tr') => (Returned a, tr')
    | (Thrown e, tr') => handler e tr'
    end.

Declare Scope js_scope.
Delimit Scope js_scope with js.
Notation "x <- m ;; k" := (bind m (fun x => k))
  (at level 61, m at next level, right associativity) : js_scope.
Notation "m ;; k" := (bind m (fun _ => k))
  (at level 61, right associativity) : js_scope.

(** Every value thrown in this program is an [Error], so the
    [String(error)] branch is not taken. *)
Definition getErrorMessage (error : Error) : string := message error.

(* ================================================================= *)
(** ** The platform *)

(** A promise of the platform, once settled: fulfilled with a value or
    rejected with an error of the platform's, of which the worker reads the
    message only. *)
Inductive settled (A : Type) : Type :=
| Fulfilled (a : A)
| RejectedWith (reason : string).
Arguments Fulfilled {A} a.
Arguments RejectedWith {A} reason.

(** [await promise] *)
Definition await {A : Type} (promise : settled A) : M A :=
  match promise with
  | Fulfilled a => ret a
  | RejectedWith reason => throw RuntimeError reason
  end.

Record HttpResponse : Type := {
  status : Z;
  statusText : string;
  body_json : settled value;      (* [response.json()] *)
  body_text : settled string      (* [response.text()] *)
}.

(** [response.ok] *)
Definition ok (r : HttpResponse) : bool :=
  ((200 <=? status r) && (status r <=? 299))%Z.

(** The promise [fetch] returns. *)
Definition FetchResult : Type := settled HttpResponse.

(** What the worker takes from its runtime and from the world: the
    rendering of numbers in template literals, the text that
    [Function.prototype.toString] gives for the built-in function found
    under a property name of [Object.prototype], [parseInt(_, 10)], the two
    providers' answers and the clock. *)
Record Platform : Type := {
  Number_toString : number -> string;
  Function_toString : string -> string;
  parseInt : string -> number;
  http_get : string -> FetchResult;
  http_post : string -> TelegramBody -> FetchResult;
  now_toISOString : string
}.

Record Env : Type := {
  AQICN_TOKEN : string;
  TELEGRAM_BOT_TOKEN : string;
  TELEGRAM_CHAT_ID : string;
  TELEGRAM_THREAD_ID : option string
}.

(** The normalized reading.  The interface declares strings and numbers,
    but only [aqi] is checked before the record is built; the other fields
    hold whatever the provider sent, [VUndefined] when absent. *)
Record Pollutants : Type := {
  pm25 : value; pm10 : value; o3 : value;
  no2 : value; so2 : value; co : value
}.

Record Weather : Type := {
  temperature : value;
  humidity : value;
  wind : value
}.

Record AQIData : Type := {
  aqi : number;
  city : value;
  dominantPollutant : value;
  pollutants : Pollutants;
  weather : Weather;
  time : value
}.

(* ================================================================= *)
(** ** [String.prototype.trim] *)

Definition bytes (codes : list nat) : list ascii := map Ascii.ascii_of_nat codes.

(** The UTF-8 encodings of the code points [trim] removes: the white space
    and line terminator characters U+0009..U+000D, U+0020, U+00A0, U+1680,
    U+2000..U+200A, U+2028, U+2029, U+202F, U+205F, U+3000 and U+FEFF. *)
Definition WHITESPACE : list (list ascii) :=
  map bytes
    [ [9]; [10]; [11]; [12]; [13]; [32];
      [194; 160];
      [225; 154; 128];
      [226; 128; 128]; [226; 128; 129]; [226; 128; 130]; [226; 128; 131];
      [226; 128; 132]; [226; 128; 133]; [226; 128; 134]; [226; 128; 135];
      [226; 128; 136]; [226; 128; 137]; [226; 128; 138];
      [226; 128; 168]; [226; 128; 169]; [226; 128; 175];
      [226; 129; 159];
      [227; 128; 128];
      [239; 187; 191] ]%nat.

(** [strip_prefix p l] is the rest of [l] after its prefix [p], if any. *)
Fixpoint strip_prefix (p l : list ascii) : option (list ascii) :=
  match p, l with
  | [], _ => Some l
  | a :: p', b :: l' => if Ascii.eqb a b then strip_prefix p' l' else None
  | _ :: _, [] => None
  end.

Fixpoint strip_first (seqs : list (list ascii)) (l : list ascii)
  : option (list ascii) :=
  match seqs with
  | [] => None
  | p :: rest =>
      match strip_prefix p l with
      | Some r => Some r
      | None => strip_first rest l
      end
  end.

(** Removes leading sequences of [seqs] while there is one, at most [fuel]
    times; [length l] rounds are enough ([strip_all_done]). *)
Fixpoint strip_all (seqs : list (list ascii)) (fuel : nat) (l : list ascii)
  : list ascii :=
  match fuel with
  | O => l
  | S n =>
      match strip_first seqs l with
      | Some r => strip_all seqs n r
      | None => l
      end
  end.

Definition trimStart_bytes (l : list ascii) : list ascii :=
  strip_all WHITESPACE (length l) l.

Definition trimEnd_bytes (l : list ascii) : list ascii :=
  rev (strip_all (map (@rev ascii) WHITESPACE) (length l) (rev l)).

Definition trim (s : string) : string :=
  string_of_list_ascii (trimEnd_bytes (trimStart_bytes (list_ascii_of_string s))).

(* ================================================================= *)
(** ** Vocabulary of the statements: substrings and lines *)

(** [s.startsWith(sub)] *)
Fixpoint startsWith (s sub : string) {struct sub} : bool :=
  match sub, s with
  | EmptyString, _ => true
  | String a sub', String b s' => Ascii.eqb a b && startsWith s' sub'
  | String _ _, EmptyString => false
  end.

(** [s.includes(sub)] *)
Fixpoint includes (s sub : string) : bool :=
  if startsWith s sub then true
  else match s with
       | EmptyString => false
       | String _ s' => includes s' sub
       end.

(** The lines of a text, as separated by ['\n']. *)
Fixpoint lines (s : string) : list string :=
  match s with
  | EmptyString => [EmptyString]
  | String c s' =>
      if Ascii.eqb c LF then EmptyString :: lines s'
      else match lines s' with
           | [] => [String c EmptyString]
           | l :: ls => String c l :: ls
           end
  end.

Definition final_line (s : string) : string := last (lines s) EmptyString.

(** The texts of the messages posted to Telegram, in order. *)
Fixpoint sent (tr : list event) : list string :=
  match tr with
  | [] => []
  | HttpPost _ body :: rest => text body :: sent rest
  | _ :: rest => sent rest
  end.

(* ================================================================= *)
(** ** The worker *)

Inductive Body : Type :=
| Text (s : string)
| Json (data : AQIData).

(** [new Response(body, { status })] *)
Record Response : Type := {
  body : Body;
  status_code : Z
}.

(** Of the request only the path of its URL is read.  The URL of an incoming
    request is absolute, so [new URL(req.url)] does not throw. *)
Record Request : Type := {
  pathname : string
}.

Record ScheduledController : Type := {
  cron : string
}.

Record MessageOptions : Type := {
  title : string;
  titleEmoji : string;
  aqiLabel : string;
  footer : option string
}.

Definition POLLUTANT_LABELS : list (string * string) :=
  [ ("pm25", "PM2.5");
    ("pm10", "PM10");
    ("o3", "O₃");
    ("no2", "NO₂");
    ("so2", "SO₂");
    ("co", "CO") ].

(** The function-valued properties that every plain object inherits from
    [Object.prototype].  The remaining inherited name, [__proto__], is an
    accessor that yields [Object.prototype] itself. *)
Definition Object_prototype_functions : list string :=
  [ "constructor"; "__defineGetter__"; "__defineSetter__"; "hasOwnProperty";
    "__lookupGetter__"; "__lookupSetter__"; "isPrototypeOf";
    "propertyIsEnumerable"; "toString"; "valueOf"; "toLocaleString" ].


(** [Object.entries(pollutants)]: the keys in the order in which [fetchAQI]
    writes them.  A key that is missing and a key that holds [undefined]
    are both [VUndefined] here; the filter of [formatPollutants] drops
    either. *)
Definition Object_entries (p : Pollutants) : list (string * value) :=
  [ ("pm25", pm25 p); ("pm10", pm10 p); ("o3", o3 p);
    ("no2", no2 p); ("so2", so2 p); ("co", co p) ].

(** [parts.push(...items)] *)
Definition push {A : Type} (parts : list A) (items : list A) : list A :=
  (parts ++ items)%list.

Definition and_then {A B : Type} (o : outcome A) (k : A -> outcome B)
  : outcome B :=
  match o with
  | Returned a => k a
  | Thrown e => Thrown e
  end.

(** [array.map(f)] with a callback that may throw: the first throw ends
    the traversal. *)
Fixpoint map_outcome {A B : Type} (f : A -> outcome B) (l : list A)
  : outcome (list B) :=
  match l with
  | [] => Returned []
  | a :: rest =>
      and_then (f a) (fun b =>
      and_then (map_outcome f rest) (fun bs =>
      Returned (b :: bs)))
  end.

(** The [TypeError] of a conversion to a string that finds no usable
    [toString] or [valueOf]. *)
Definition cannot_convert : Error := {|
  site := RuntimeError;
  message := "Cannot convert object to primitive value"
|}.

(** [data.iaqi.<code>?.v] *)
Definition iaqi_v (data : value) (code : string) : outcome value :=
  and_then (get data "iaqi") (fun iaqi =>
  and_then (get iaqi code) (fun entry =>
  get_opt entry "v")).

Section Worker.

Variable P : Platform.

Open Scope js_scope.

(** The string a value becomes in a template literal.  An object parsed
    from JSON has no callable property of its own, so the conversion works
    exactly when [toString] is still the inherited one: an own [toString]
    key hides it, the inherited [valueOf] returns the object itself, and
    the conversion throws.  An array is joined with commas, [null] and
    [undefined] elements giving the empty string; a throw inside an element
    is a throw of the whole. *)
Fixpoint ToString (v : value) : outcome string :=
  match v with
  | VUndefined => Returned "undefined"
  | VNull => Returned "null"
  | VBool true => Returned "true"
  | VBool false => Returned "false"
  | VNum n => Returned (Number_toString P n)
  | VStr s => Returned s
  | VArr elems =>
      (fix join_elems (l : list value) : outcome string :=
         match l with
         | [] => Returned EmptyString
         | e :: rest =>
             and_then (if is_nullish e then Returned EmptyString
                       else ToString e) (fun s =>
             match rest with
             | [] => Returned s
             | _ :: _ =>
                 and_then (join_elems rest) (fun r =>
                 Returned (s ++ "," ++ r))
             end)
         end) elems
  | VObj fields =>
      match lookup "toString" fields with
      | Some _ => Thrown cannot_convert
      | None => Returned "[object Object]"
      end
  end.

(** The string that [POLLUTANT_LABELS[key] || key] becomes in the template
    of a bullet line.  The read goes through the prototype chain: for a
    name of [Object.prototype] it finds a built-in function, or
    [Object.prototype] itself under [__proto__], which is truthy and is
    what gets interpolated. *)
Definition pollutantLabel (key : string) : string :=
  match lookup key POLLUTANT_LABELS with
  | Some label => if truthy_string label then label else key
  | None =>
      if String.eqb key "__proto__" then "[object Object]"
      else if existsb (String.eqb key) Object_prototype_functions
           then Function_toString P key
           else key
  end.

(** [await fetch(url)] *)
Definition fetch_get (url : string) : M HttpResponse :=
  emit (HttpGet url) ;;
  await (http_get P url).

(** [await fetch(url, { method: 'POST', ..., body: JSON.stringify(body) })] *)
Definition fetch_post (url : string) (payload : TelegramBody) : M HttpResponse :=
  emit (HttpPost url payload) ;;
  await (http_post P url payload).

Definition console_log (line : string) : M unit := emit (ConsoleLog line).
Definition console_error (line : string) : M unit := emit (ConsoleError line).

(** The address of the feed,
    [`https://api.waqi.info/feed/${CONFIG.CITY}/?token=${env.AQICN_TOKEN}`]. *)
Definition feed_url (cfg : Config) (env : Env) : string :=
  "https://api.waqi.info/feed/" ++ CITY cfg ++ "/?token=" ++ AQICN_TOKEN env.

Definition fetchAQI (cfg : Config) (env : Env) : M AQIData :=
  response <- fetch_get (feed_url cfg env) ;;
  if negb (ok response) then
    throw FetchError ("AQICN API error: "
                      ++ Number_toString P (int (status response))
                      ++ " " ++ statusText response)
  else
  json <- await (body_json response) ;;
  json_status <- lift (get json "status") ;;
  if negb (strict_eq_string json_status "ok") then
    shown_status <- lift (ToString json_status) ;;
    throw ApiStatusError ("AQICN API returned error status: " ++ shown_status)
  else
  data <- lift (get json "data") ;;
  (* !data || !data.city || !data.city.name *)
  incomplete <-
    (if negb (truthy data) then ret true else
     data_city <- lift (get data "city") ;;
     if negb (truthy data_city) then ret true else
     data_city_name <- lift (get data_city "name") ;;
     ret (negb (truthy data_city_name))) ;;
  if (incomplete : bool) then
    throw SchemaError "Incomplete data structure in API response"
  else
  data_aqi <- lift (get data "aqi") ;;
  (* typeof data.aqi !== 'number' || data.aqi < 0 *)
  match data_aqi with
  | VNum n =>
      if num_lt n (int 0) then
        shown_aqi <- lift (ToString data_aqi) ;;
        throw InvalidIndexError ("Invalid AQI value received: " ++ shown_aqi)
      else
      v_city <- lift (and_then (get data "city") (fun c => get c "name")) ;;
      v_dominentpol <- lift (get data "dominentpol") ;;
      v_pm25 <- lift (iaqi_v data "pm25") ;;
      v_pm10 <- lift (iaqi_v data "pm10") ;;
      v_o3 <- lift (iaqi_v data "o3") ;;
      v_no2 <- lift (iaqi_v data "no2") ;;
      v_so2 <- lift (iaqi_v data "so2") ;;
      v_co <- lift (iaqi_v data "co") ;;
      v_t <- lift (iaqi_v data "t") ;;
      v_h <- lift (iaqi_v data "h") ;;
      v_w <- lift (iaqi_v data "w") ;;
      v_time <- lift (and_then (get data "time") (fun t => get t "s")) ;;
      ret {| aqi := n;
             city := v_city;
             dominantPollutant := v_dominentpol;
             pollutants := {| pm25 := v_pm25; pm10 := v_pm10; o3 := v_o3;
                              no2 := v_no2; so2 := v_so2; co := v_co |};
             weather := {| temperature := v_t; humidity := v_h; wind := v_w |};
             time := v_time |}
  | _ =>
      shown_aqi <- lift (ToString data_aqi) ;;
      throw InvalidIndexError ("Invalid AQI value received: " ++ shown_aqi)
  end.

Definition sendTelegram (env : Env) (message : string) : M unit :=
  if negb (truthy_string (trim message)) then
    throw EmptyMessageError "Cannot send empty message to Telegram"
  else
  let url := "https://api.telegram.org/bot" ++ TELEGRAM_BOT_TOKEN env
             ++ "/sendMessage" in
  let payload := {|
    chat_id := TELEGRAM_CHAT_ID env;
    text := message;
    parse_mode := "HTML";
    message_thread_id :=
      match TELEGRAM_THREAD_ID env with
      | Some id => if truthy_string id then Some (parseInt P id) else None
      | None => None
      end
  |} in
  response <- fetch_post url payload ;;
  if negb (ok response) then
    error <- await (body_text response) ;;
    throw DeliveryError ("Telegram API error: "
                         ++ Number_toString P (int (status response))
                         ++ " - " ++ error)
  else ret tt.

Definition formatPollutants (p : Pollutants) : outcome string :=
  and_then
    (map_outcome
       (fun '(key, value) =>
          and_then (ToString value) (fun shown_value =>
          Returned ("• " ++ pollutantLabel key ++ ": " ++ shown_value)))
       (filter (fun '(_, value) => negb (is_undefined value))
               (Object_entries p)))
    (fun lines =>
       Returned (if (0 <? length lines)%nat then join nl lines
                 else "No pollutant data available")).

Definition formatWeather (w : Weather) : outcome string :=
  let parts := [] in
  and_then
    (if negb (is_undefined (temperature w))
     then and_then (ToString (temperature w)) (fun t =>
          Returned (push parts [t ++ "°C"]))
     else Returned parts) (fun parts =>
  and_then
    (if negb (is_undefined (humidity w))
     then and_then (ToString (humidity w)) (fun h =>
          Returned (push parts [h ++ "% humidity"]))
     else Returned parts) (fun parts =>
  and_then
    (if negb (is_undefined (wind w))
     then and_then (ToString (wind w)) (fun wd =>
          Returned (push parts ["Wind: " ++ wd ++ " m/s"]))
     else Returned parts) (fun parts =>
  Returned (if (0 <? length parts)%nat then join " | " parts
            else EmptyString)))).

(** The array literal that [formatMessage] starts from, given the text of
    the pollutant section. *)
Definition initial_parts (data : AQIData) (options : MessageOptions)
  (pollutant_section : string) : list string :=
  let lvl := getAQILevel (aqi data) in
  [ titleEmoji options ++ " <b>" ++ title options ++ "</b>";
    EmptyString;
    "<b>" ++ aqiLabel options ++ ": " ++ Number_toString P (aqi data)
      ++ "</b> - " ++ level lvl ++ " " ++ emoji lvl;
    EmptyString;
    "📊 <b>Pollutants:</b>";
    pollutant_section;
    EmptyString;
    "🏥 <b>Health Advisory:</b>";
    advisory lvl ].

(** The array [parts] of [formatMessage], just before it is joined.  The
    weather line is computed first, then the array literal with the
    pollutant section, then the pushes; the time stamp is interpolated
    last. *)
Definition formatMessage_parts (data : AQIData) (options : MessageOptions)
  : outcome (list string) :=
  and_then (formatWeather (weather data)) (fun weatherInfo =>
  and_then (formatPollutants (pollutants data)) (fun pollutant_section =>
  let parts := initial_parts data options pollutant_section in
  let parts :=
    if truthy_string weatherInfo
    then push parts [EmptyString; "🌡️ " ++ weatherInfo] else parts in
  let parts :=
    match footer options with
    | Some f => if truthy_string f then push parts [EmptyString; f] else parts
    | None => parts
    end in
  and_then (ToString (time data)) (fun shown_time =>
  Returned (push parts [EmptyString; "⏰ " ++ shown_time])))).

Definition formatMessage (data : AQIData) (options : MessageOptions)
  : outcome string :=
  and_then (formatMessage_parts data options) (fun parts =>
  Returned (join nl parts)).

Definition alert_options : MessageOptions := {|
  title := "Bangkok Air Quality Alert";
  titleEmoji := "⚠️";
  aqiLabel := "AQI";
  footer := None
|}.

Definition summary_options : MessageOptions := {|
  title := "Bangkok Daily Air Quality Summary";
  titleEmoji := "📋";
  aqiLabel := "Current AQI";
  footer := Some "Have a good day! 🌅"
|}.

Definition formatAlertMessage (data : AQIData) : outcome string :=
  formatMessage data alert_options.

Definition formatDailySummary (data : AQIData) : outcome string :=
  formatMessage data summary_options.

Definition handleWithError (operation : M Response) (errorStatus : Z)
  : M Response :=
  try_catch operation
    (fun error =>
       ret {| body := Text ("Error: " ++ getErrorMessage error);
              status_code := errorStatus |}).

Definition usage (cfg : Config) : string :=
  "AQI Notify - Bangkok Air Quality Monitor" ++ nl
  ++ nl
  ++ "Endpoints:" ++ nl
  ++ "- /check - Get current AQI data (JSON)" ++ nl
  ++ "- /test-alert - Send a test alert notification" ++ nl
  ++ "- /test-summary - Send a test daily summary" ++ nl
  ++ nl
  ++ "Scheduled tasks:" ++ nl
  ++ "- Hourly check: Sends alert if AQI > "
  ++ Number_toString P (ALERT_THRESHOLD cfg) ++ nl
  ++ "- Daily summary: Sent at 8:00 AM Bangkok time" ++ nl.

(** The three operations that the [fetch] handler wraps. *)
Definition test_alert_operation (cfg : Config) (env : Env) : M Response :=
  data <- fetchAQI cfg env ;;
  message <- lift (formatAlertMessage data) ;;
  sendTelegram env message ;;
  ret {| body := Text ("Alert sent! AQI: " ++ Number_toString P (aqi data));
         status_code := 200 |}.

Definition test_summary_operation (cfg : Config) (env : Env) : M Response :=
  data <- fetchAQI cfg env ;;
  message <- lift (formatDailySummary data) ;;
  sendTelegram env message ;;
  ret {| body := Text ("Summary sent! AQI: " ++ Number_toString P (aqi data));
         status_code := 200 |}.

Definition check_operation (cfg : Config) (env : Env) : M Response :=
  data <- fetchAQI cfg env ;;
  ret {| body := Json data; status_code := 200 |}.

(** The [fetch] handler of the worker; [handleWithError] is called with its
    default [errorStatus = 500]. *)
Definition fetch (cfg : Config) (req : Request) (env : Env) : M Response :=
  if String.eqb (pathname req) "/test-alert" then
    handleWithError (test_alert_operation cfg env) 500
  else if String.eqb (pathname req) "/test-summary" then
    handleWithError (test_summary_operation cfg env) 500
  else if String.eqb (pathname req) "/check" then
    handleWithError (check_operation cfg env) 500
  else
    ret {| body := Text (usage cfg); status_code := 200 |}.

(** The [try] block of the [scheduled] handler. *)
Definition scheduled_try (cfg : Config) (isDailySummary : bool) (env : Env)
  : M unit :=
  data <- fetchAQI cfg env ;;
  console_log ("AQI check at " ++ now_toISOString P ++ ": AQI = "
               ++ Number_toString P (aqi data)) ;;
  if isDailySummary then
    message <- lift (formatDailySummary data) ;;
    sendTelegram env message ;;
    console_log "Daily summary sent"
  else
  if num_gt (aqi data) (ALERT_THRESHOLD cfg) then
    message <- lift (formatAlertMessage data) ;;
    sendTelegram env message ;;
    console_log ("Alert sent: AQI " ++ Number_toString P (aqi data)
                 ++ " exceeds threshold "
                 ++ Number_toString P (ALERT_THRESHOLD cfg))
  else ret tt.

(** Its [catch] block. *)
Definition scheduled_catch (error : Error) : M unit :=
  console_error ("AQI check failed: " ++ getErrorMessage error).

(** The [scheduled] handler of the worker. *)
Definition scheduled (cfg : Config) (controller : ScheduledController)
  (env : Env) : M unit :=
  let cronPattern := cron controller in
  let isDailySummary := String.eqb cronPattern (DAILY_SUMMARY (CRON cfg)) in
  try_catch (scheduled_try cfg isDailySummary env) scheduled_catch.

End Worker.

(* ================================================================= *)
(** ** A sample platform and sample data, for the examples *)

(** Renders integers as JavaScript does (below 1e21); a value that is not
    an integer is shown as a fraction, which JavaScript would not do.  The
    examples use integers only. *)
Definition sample_Number_toString (n : number) : string :=
  match n with
  | NaN => "NaN"
  | NegInf => "-Infinity"
  | PosInf => "Infinity"
  | Fin q =>
      if (Qden q =? 1)%positive
      then DecimalString.NilZero.string_of_int (Z.to_int (Qnum q))
      else DecimalString.NilZero.string_of_int (Z.to_int (Qnum q)) ++ "/"
           ++ DecimalString.NilZero.string_of_int (Z.to_int (Z.pos (Qden q)))
  end.

(** The text V8 gives for the built-in functions of [Object.prototype]. *)
Definition sample_Function_toString (name : string) : string :=
  "function "
  ++ (if String.eqb name "constructor" then "Object" else name)
  ++ "() { [native code] }".

(** A platform whose two providers give the same answer to every request.
    [parseInt] is not exercised: the sample environment has no thread id. *)
Definition sample_platform (feed telegram : FetchResult) : Platform := {|
  Number_toString := sample_Number_toString;
  Function_toString := sample_Function_toString;
  parseInt := fun _ => NaN;
  http_get := fun _ => feed;
  http_post := fun _ _ => telegram;
  now_toISOString := "2024-01-15T07:00:00.000Z"
|}.

Definition reply (code : Z) (json : value) : FetchResult :=
  Fulfilled {| status := code;
               statusText := "OK";
               body_json := Fulfilled json;
               body_text := Fulfilled "{}" |}.

Definition sample_data (index : value) : value :=
  VObj [ ("aqi", index);
         ("idx", VNum (int 1845));
         ("city", VObj [ ("name", VStr "Bangkok") ]);
         ("dominentpol", VStr "pm25");
         ("iaqi", VObj [ ("pm25", VObj [ ("v", VNum (int 89)) ]);
                         ("t", VObj [ ("v", VNum (int 28)) ]) ]);
         ("time", VObj [ ("s", VStr "2024-01-15 14:00:00") ]) ].

Definition sample_json (index : value) : value :=
  VObj [ ("status", VStr "ok"); ("data", sample_data index) ].

Definition sample_env : Env := {|
  AQICN_TOKEN := "token";
  TELEGRAM_BOT_TOKEN := "bot";
  TELEGRAM_CHAT_ID := "42";
  TELEGRAM_THREAD_ID := None
|}.

Definition sample_reading (index : number) : AQIData := {|
  aqi := index;
  city := VStr "Bangkok";
  dominantPollutant := VStr "pm25";
  pollutants := {| pm25 := VNum (int 89); pm10 := VUndefined; o3 := VUndefined;
                   no2 := VUndefined; so2 := VUndefined; co := VUndefined |};
  weather := {| temperature := VNum (int 28); humidity := VUndefined;
                wind := VUndefined |};
  time := VStr "2024-01-15 14:00:00"
|}.

(** The reading behind the sample notification of the README. *)
Definition readme_reading : AQIData := {|
  aqi := int 156;
  city := VStr "Bangkok";
  dominantPollutant := VStr "pm25";
  pollutants := {| pm25 := VNum (int 89); pm10 := VNum (int 45);
                   o3 := VNum (int 32); no2 := VUndefined;
                   so2 := VUndefined; co := VUndefined |};
  weather := {| temperature := VNum (int 28); humidity := VNum (int 65);
                wind := VNum (int 2) |};
  time := VStr "2024-01-15 14:00:00"
|}.


(** A reading whose time stamp runs over two lines. *)
Definition two_line_reading : AQIData := {|
  aqi := int 42;
  city := VStr "Bangkok";
  dominantPollutant := VStr "pm25";
  pollutants := {| pm25 := VNum (int 12); pm10 := VUndefined; o3 := VUndefined;
                   no2 := VUndefined; so2 := VUndefined; co := VUndefined |};
  weather := {| temperature := VUndefined; humidity := VUndefined;
                wind := VUndefined |};
  time := VStr ("2024-01-15" ++ nl ++ "14:00:00")
|}.

(** The provider's answer when the token is not accepted. *)
Definition error_json : value :=
  VObj [ ("status", VStr "error"); ("data", VStr "Invalid key") ].

(** A platform on which the feed reports the given index and Telegram
    accepts every message. *)
Definition platform_with_index (index : Z) : Platform :=
  sample_platform (reply 200 (sample_json (VNum (int index))))
                  (reply 200 (VObj [ ("ok", VBool true) ])).

Definition hourly_tick : ScheduledController := {| cron := "0 * * * *" |}.
Definition daily_tick : ScheduledController := {| cron := "0 1 * * *" |}.

(** A platform that answers no request. *)
Definition offline_platform : Platform :=
  sample_platform (RejectedWith "offline") (RejectedWith "offline").

(* ================================================================= *)
(** ** The specification's reading of the message *)

(** A value that a template literal can interpolate, and the string it
    gives; the empty string stands in where the conversion throws. *)
Definition printable (P : Platform) (v : value) : bool :=
  match ToString P v with
  | Returned _ => true
  | Thrown _ => false
  end.

Definition shown (P : Platform) (v : value) : string :=
  match ToString P v with
  | Returned s => s
  | Thrown _ => EmptyString
  end.

Definition pollutants_printable (P : Platform) (p : Pollutants) : bool :=
  forallb (fun kv => printable P (snd kv)) (Object_entries p).

Definition weather_printable (P : Platform) (w : Weather) : bool :=
  printable P (temperature w) && printable P (humidity w)
  && printable P (wind w).

(** A reading all of whose displayed values can be interpolated: the six
    concentrations, the three weather fields and the time stamp. *)
Definition formattable (P : Platform) (data : AQIData) : bool :=
  pollutants_printable P (pollutants data)
  && weather_printable P (weather data)
  && printable P (time data).

(** The weather fields that are present, each with its unit, in the order
    temperature, humidity, wind. *)
Definition present_weather (P : Platform) (w : Weather) : list string :=
  let t := if is_undefined (temperature w) then []
           else [shown P (temperature w) ++ "°C"] in
  let h := if is_undefined (humidity w) then []
           else [shown P (humidity w) ++ "% humidity"] in
  let wd := if is_undefined (wind w) then []
            else ["Wind: " ++ shown P (wind w) ++ " m/s"] in
  (t ++ h ++ wd)%list.

Definition weather_absent (w : Weather) : bool :=
  is_undefined (temperature w) && is_undefined (humidity w)
  && is_undefined (wind w).

(** The bullet line of one pollutant: none when it has no value. *)
Definition bullet (P : Platform) (label : string) (v : value) : list string :=
  if is_undefined v then [] else ["• " ++ label ++ ": " ++ shown P v].

Definition bullets (P : Platform) (p : Pollutants) : list string :=
  (bullet P "PM2.5" (pm25 p) ++ bullet P "PM10" (pm10 p)
   ++ bullet P "O₃" (o3 p) ++ bullet P "NO₂" (no2 p)
   ++ bullet P "SO₂" (so2 p) ++ bullet P "CO" (co p))%list.

Definition pollutants_absent (p : Pollutants) : bool :=
  is_undefined (pm25 p) && is_undefined (pm10 p) && is_undefined (o3 p)
  && is_undefined (no2 p) && is_undefined (so2 p) && is_undefined (co p).

(** The weather section: a blank line and one line that joins the present
    fields, or nothing when no field is present. *)
Definition weather_parts (P : Platform) (w : Weather) : list string :=
  match present_weather P w with
  | [] => []
  | fields => [EmptyString; "🌡️ " ++ join " | " fields]
  end.

(** A byte that occurs in none of the sequences [trim] removes. *)
Definition ws_free (c : ascii) : bool :=
  forallb (fun p => negb (existsb (Ascii.eqb c) p)) WHITESPACE.

(** The footer section: a blank line and the footer, when one is given. *)
Definition footer_parts (options : MessageOptions) : list string :=
  match footer options with
  | Some f => if truthy_string f then [EmptyString; f] else []
  | None => []
  end.

(** The closing section: a blank line and the time stamp line. *)
Definition time_line (P : Platform) (data : AQIData) : string :=
  "⏰ " ++ shown P (time data).

Definition time_parts (P : Platform) (data : AQIData) : list string :=
  [EmptyString; time_line P data].

(** A text without a line feed. *)
Fixpoint single_line (s : string) : bool :=
  match s with
  | EmptyString => true
  | String c s' => negb (Ascii.eqb c LF) && single_line s'
  end.

(** A field of a reading as the interface types it: a number, or absent. *)
Definition number_or_absent (v : value) : bool :=
  match v with
  | VUndefined | VNum _ => true
  | _ => false
  end.

Definition weather_typed (w : Weather) : bool :=
  number_or_absent (temperature w) && number_or_absent (humidity w)
  && number_or_absent (wind w).

Definition pollutants_typed (p : Pollutants) : bool :=
  number_or_absent (pm25 p) && number_or_absent (pm10 p)
  && number_or_absent (o3 p) && number_or_absent (no2 p)
  && number_or_absent (so2 p) && number_or_absent (co p).

(** The text of the pollutant section. *)
Definition pollutant_section (P : Platform) (p : Pollutants) : string :=
  if pollutants_absent p then "No pollutant data available"
  else join nl (bullets P p).

(** The sections of the message, in order: the nine opening entries, the
    weather section, the footer section, a blank line and the time stamp. *)
Definition message_parts (P : Platform) (data : AQIData)
  (options : MessageOptions) : list string :=
  (initial_parts P data options (pollutant_section P (pollutants data))
   ++ weather_parts P (weather data)
   ++ footer_parts options
   ++ time_parts P data)%list.

(** The texts that a formatting followed by a send posts: the formatted
    text, or none when the formatter throws. *)
Definition sent_text (o : outcome string) : list string :=
  match o with
  | Returned message => [message]
  | Thrown _ => []
  end.

(** The text a formatter returned; the empty string if it threw. *)
Definition returned_text (o : outcome string) : string :=
  match o with
  | Returned s => s
  | Thrown _ => EmptyString
  end.

(** An object that cannot be interpolated: its own [toString] key hides
    the inherited function. *)
Definition unprintable : value := VObj [ ("toString", VNum (int 1)) ].

(** A reading that [fetchAQI] can return and that cannot be formatted: its
    time stamp is an object with a [toString] key. *)
Definition unformattable_data : value :=
  VObj [ ("aqi", VNum (int 156));
         ("city", VObj [ ("name", VStr "Bangkok") ]);
         ("dominentpol", VStr "pm25");
         ("iaqi", VObj [ ("pm25", VObj [ ("v", VNum (int 89)) ]) ]);
         ("time", VObj [ ("s", unprintable) ]) ].

Definition unformattable_reading : AQIData := {|
  aqi := int 156;
  city := VStr "Bangkok";
  dominantPollutant := VStr "pm25";
  pollutants := {| pm25 := VNum (int 89); pm10 := VUndefined; o3 := VUndefined;
                   no2 := VUndefined; so2 := VUndefined; co := VUndefined |};
  weather := {| temperature := VUndefined; humidity := VUndefined;
                wind := VUndefined |};
  time := unprintable
|}.


(** A platform on which the feed reports the reading whose time stamp
    cannot be interpolated and Telegram accepts every message. *)
Definition unformattable_platform : Platform :=
  sample_platform
    (reply 200 (VObj [ ("status", VStr "ok"); ("data", unformattable_data) ]))
    (reply 200 (VObj [ ("ok", VBool true) ])).

(** ** The specification's reading of the handlers *)

(** A computation fails at the given [throw]. *)
Definition fails_with {A : Type} (r : outcome A * list event) (s : ErrorSite)
  : Prop :=
  exists e, fst r = Thrown e /\ site e = s.

(** A computation that leaves the trace as it is. *)
Definition silent {A : Type} (m : M A) : Prop := forall tr, snd (m tr) = tr.

(** The provider answers the feed request with an HTTP status in 200..299
    and a body that parses to [json]. *)
Definition answers (P : Platform) (cfg : Config) (env : Env) (code : Z)
  (json : value) : Prop :=
  exists response,
    http_get P (feed_url cfg env) = Fulfilled response
    /\ status response = code
    /\ ok response = true
    /\ body_json response = Fulfilled json.

(** The answer passes the checks made before the index is looked at: the
    status is ['ok'] and [data], [data.city] and [data.city.name] are
    truthy. *)
Definition schema_ok (json data : value) : Prop :=
  get json "status" = Returned (VStr "ok")
  /\ get json "data" = Returned data
  /\ truthy data = true
  /\ exists c name,
       get data "city" = Returned c /\ truthy c = true
       /\ get c "name" = Returned name /\ truthy name = true.

(** The answer has the [iaqi] and [time] objects that the response type
    declares. *)
Definition has_measurements (data : value) : Prop :=
  exists i t,
    get data "iaqi" = Returned i /\ is_nullish i = false
    /\ get data "time" = Returned t /\ is_nullish t = false.

(** A value that is neither an object nor an array. *)
Definition primitive (v : value) : bool :=
  match v with
  | VArr _ | VObj _ => false
  | _ => true
  end.

(** An answer whose status is an object that cannot be interpolated. *)
Definition unprintable_status_json : value :=
  VObj [ ("status", unprintable); ("data", VNull) ].

(** A platform on which the feed reports that status, and one on which it
    reports an index that cannot be interpolated. *)
Definition unprintable_status_platform : Platform :=
  sample_platform (reply 200 unprintable_status_json) (reply 200 VNull).

Definition unprintable_index_platform : Platform :=
  sample_platform (reply 200 (sample_json unprintable)) (reply 200 VNull).

(** The index is not a number, or is a negative one. *)
Definition invalid_index (v : value) : bool :=
  match v with
  | VNum n => num_lt n (int 0)
  | _ => true
  end.

(** The configuration with another alert threshold. *)
Definition with_threshold (cfg : Config) (threshold : number) : Config := {|
  ALERT_THRESHOLD := threshold;
  CITY := CITY cfg;
  CRON := CRON cfg
|}.

(** The operation behind a core path of the diagnostic surface. *)
Definition core_operation (P : Platform) (cfg : Config) (env : Env)
  (path : string) : option (M Response) :=
  if String.eqb path "/test-alert" then Some (test_alert_operation P cfg env)
  else if String.eqb path "/test-summary" then Some (test_summary_operation P cfg env)
  else if String.eqb path "/check" then Some (check_operation P cfg env)
  else None.

(* ================================================================= *)
(** ** Further vocabulary *)

(** The ASCII white space: tab, line feed, vertical tab, form feed,
    carriage return and space. *)
Definition ascii_space (c : ascii) : bool :=
  existsb (Ascii.eqb c) (bytes [9; 10; 11; 12; 13; 32]%nat).

(** A text made of ASCII white space only, the empty text included. *)
Definition blank (s : string) : bool :=
  forallb ascii_space (list_ascii_of_string s).

(** The HTTP requests of a trace, in order. *)
Definition is_request (ev : event) : bool :=
  match ev with
  | HttpGet _ | HttpPost _ _ => true
  | _ => false
  end.

Definition requests (tr : list event) : list event := filter is_request tr.

(** The field of a reading that receives the measurement of an [iaqi]
    code.  The nine codes below are the only ones that are read. *)
Definition reading_field (r : AQIData) (code : string) : option value :=
  if String.eqb code "pm25" then Some (pm25 (pollutants r))
  else if String.eqb code "pm10" then Some (pm10 (pollutants r))
  else if String.eqb code "o3" then Some (o3 (pollutants r))
  else if String.eqb code "no2" then Some (no2 (pollutants r))
  else if String.eqb code "so2" then Some (so2 (pollutants r))
  else if String.eqb code "co" then Some (co (pollutants r))
  else if String.eqb code "t" then Some (temperature (weather r))
  else if String.eqb code "h" then Some (humidity (weather r))
  else if String.eqb code "w" then Some (wind (weather r))
  else None.

(** What an [iaqi] object, given by its properties, holds for a code: the
    [v] of the entry, or [undefined] when there is no entry, when the entry
    is [null] or when it has no [v]. *)
Definition measurement (fields : list (string * value)) (code : string)
  : value :=
  match lookup code fields with
  | Some (VObj entry) =>
      match lookup "v" entry with
      | Some x => x
      | None => VUndefined
      end
  | _ => VUndefined
  end.

(** [parseInt(s, 10)] on a string of decimal digits with an optional sign,
    as in a configured thread id; other strings are not exercised. *)
Definition sample_parseInt (s : string) : number :=
  match DecimalString.NilZero.int_of_string s with
  | Some d => int (Z.of_int d)
  | None => NaN
  end.

(** A platform that parses thread ids, on which the feed reports index 42
    and Telegram answers with the given HTTP status and body. *)
Definition telegram_platform (code : Z) (answer : string) : Platform := {|
  Number_toString := sample_Number_toString;
  Function_toString := sample_Function_toString;
  parseInt := sample_parseInt;
  http_get := fun _ => reply 200 (sample_json (VNum (int 42)));
  http_post := fun _ _ =>
    Fulfilled {| status := code; statusText := "";
                 body_json := RejectedWith "not read";
                 body_text := Fulfilled answer |};
  now_toISOString := "2024-01-15T07:00:00.000Z"
|}.

Definition threaded_env (id : string) : Env := {|
  AQICN_TOKEN := "token";
  TELEGRAM_BOT_TOKEN := "bot";
  TELEGRAM_CHAT_ID := "42";
  TELEGRAM_THREAD_ID := Some id
|}.

(** The strings of a message template hold no line feed. *)
Definition options_single_line (o : MessageOptions) : bool :=
  single_line (titleEmoji o) && single_line (title o)
  && single_line (aqiLabel o)
  && match footer o with
     | Some f => single_line f
     | None => true
     end.

(** The lines of the pollutant section. *)
Definition pollutant_lines (P : Platform) (p : Pollutants) : list string :=
  if pollutants_absent p then ["No pollutant data available"]
  else bullets P p.

(** The message line by line: the title, the index line and the pollutant
    header with the blank lines between them, the pollutant lines, the
    advisory with its header, and the weather, footer and time sections. *)
Definition message_lines (P : Platform) (data : AQIData)
  (options : MessageOptions) : list string :=
  (firstn 5 (initial_parts P data options EmptyString)
   ++ pollutant_lines P (pollutants data)
   ++ skipn 6 (initial_parts P data options EmptyString)
   ++ weather_parts P (weather data)
   ++ footer_parts options
   ++ time_parts P data)%list.

(** The configuration with another hourly expression. *)
Definition with_hourly (cfg : Config) (expression : string) : Config := {|
  ALERT_THRESHOLD := ALERT_THRESHOLD cfg;
  CITY := CITY cfg;
  CRON := {| HOURLY := expression;
             DAILY_SUMMARY := DAILY_SUMMARY (CRON cfg) |}
|}.

(** The tiers above Moderate. *)
Definition alerting_tiers : list Tier :=
  [ tier_sensitive; tier_unhealthy; tier_very_unhealthy; tier_hazardous ].

(** A computation that adds no request to the trace. *)
Definition quiet {A : Type} (m : M A) : Prop :=
  forall tr, requests (snd (m tr)) = requests tr.

(* ================================================================= *)
(** * Properties *)

(** ** Examples *)

Example readme_notification :
  formatAlertMessage offline_platform readme_reading
  = Returned (join nl
      [ "⚠️ <b>Bangkok Air Quality Alert</b>";
        EmptyString;
        "<b>AQI: 156</b> - Unhealthy 🔴";
        EmptyString;
        "📊 <b>Pollutants:</b>";
        "• PM2.5: 89";
        "• PM10: 45";
        "• O₃: 32";
        EmptyString;
        "🏥 <b>Health Advisory:</b>";
        "Everyone may begin to experience health effects. Sensitive groups may experience more serious effects. Consider wearing a mask outdoors.";
        EmptyString;
        "🌡️ 28°C | 65% humidity | Wind: 2 m/s";
        EmptyString;
        "⏰ 2024-01-15 14:00:00" ]).
Proof. reflexivity. Qed.

Example unprintable_time :
  formatAlertMessage offline_platform unformattable_reading
  = Thrown cannot_convert.
Proof. reflexivity. Qed.

Example printable_values :
  map (ToString offline_platform)
    [ VNum (int 28); VStr "x"; VNull;
      VArr [VNum (int 1); VNull; VArr [VStr "a"; VStr "b"]];
      VObj [ ("valueOf", VNum (int 1)) ];
      VObj [ ("toString", VStr "x") ];
      VArr [VNum (int 1); VObj [ ("toString", VNull) ]] ]
  = [ Returned "28"; Returned "x"; Returned "null"; Returned "1,,a,b";
      Returned "[object Object]";
      Thrown cannot_convert; Thrown cannot_convert ].
Proof. reflexivity. Qed.

Example inherited_labels :
  map (pollutantLabel offline_platform)
    [ "pm25"; "pm1"; "constructor"; "toString"; "__proto__" ]
  = [ "PM2.5"; "pm1"; "function Object() { [native code] }";
      "function toString() { [native code] }"; "[object Object]" ].
Proof. reflexivity. Qed.

Example trim_example : trim ("  hello world " ++ nl) = "hello world".
Proof. reflexivity. Qed.

Example trim_blank : trim (" " ++ nl ++ "  ") = EmptyString.
Proof. reflexivity. Qed.

Example lines_example :
  lines ("a" ++ nl ++ nl ++ "b") = ["a"; EmptyString; "b"].
Proof. reflexivity. Qed.

Example hourly_run_above_threshold :
  scheduled (platform_with_index 101) CONFIG hourly_tick sample_env []
  = (Returned tt,
     [ HttpGet "https://api.waqi.info/feed/bangkok/?token=token";
       ConsoleLog "AQI check at 2024-01-15T07:00:00.000Z: AQI = 101";
       HttpPost "https://api.telegram.org/botbot/sendMessage"
         {| chat_id := "42";
            text := returned_text
                      (formatAlertMessage (platform_with_index 101)
                         (sample_reading (int 101)));
            parse_mode := "HTML";
            message_thread_id := None |};
       ConsoleLog "Alert sent: AQI 101 exceeds threshold 100" ]).
Proof. reflexivity. Qed.

Example hourly_run_at_threshold :
  scheduled (platform_with_index 100) CONFIG hourly_tick sample_env []
  = (Returned tt,
     [ HttpGet "https://api.waqi.info/feed/bangkok/?token=token";
       ConsoleLog "AQI check at 2024-01-15T07:00:00.000Z: AQI = 100" ]).
Proof. reflexivity. Qed.

(** ** Numbers *)

Lemma num_le_PosInf (v : number) : v <> NaN -> num_le v PosInf = true.
Proof. destruct v; simpl; congruence. Qed.

Lemma num_le_not_NaN (a b : number) : num_le a b = true -> a <> NaN /\ b <> NaN.
Proof. destruct a, b; simpl; intros H; split; congruence. Qed.

Lemma num_lt_not_NaN (a b : number) : num_lt a b = true -> a <> NaN /\ b <> NaN.
Proof. destruct a, b; simpl; intros H; split; congruence. Qed.

(** Away from NaN the order is total: [a <= b] fails exactly when [b < a]. *)
Lemma num_le_false_lt (a b : number) :
  a <> NaN -> b <> NaN -> num_le a b = false -> num_lt b a = true.
Proof.
  destruct a, b; simpl; intros Ha Hb H; try congruence.
  now rewrite H.
Qed.

Lemma num_lt_le_trans_int (v : number) (a b : Z) :
  (a <= b)%Z -> num_lt v (int a) = true -> num_le v (int b) = true.
Proof.
  intros Hab. destruct v as [| |q|]; simpl; intros H; try congruence.
  apply negb_true_iff in H.
  apply Qle_bool_iff.
  destruct (Qlt_le_dec q (inject_Z a)) as [Hlt|Hge].
  - apply Qlt_le_weak. eapply Qlt_le_trans; [exact Hlt|].
    rewrite <- Zle_Qle. exact Hab.
  - apply Qle_bool_iff in Hge. congruence.
Qed.

(** ** The classifier *)

Lemma find_first_match {A : Type} (f : A -> bool) (l : list A) (x : A) :
  find f l = Some x ->
  exists pre post,
    l = (pre ++ x :: post)%list /\ f x = true /\ Forall (fun y => f y = false) pre.
Proof.
  induction l as [|a l IH]; simpl; [discriminate|].
  destruct (f a) eqn:Ha; intros H.
  - injection H as <-. exists [], l. auto.
  - destruct (IH H) as (pre & post & -> & Hx & Hpre).
    exists (a :: pre), post. auto.
Qed.

Lemma last_level_in_range :
  nth_error AQI_LEVELS (length AQI_LEVELS - 1) = Some last_level.
Proof. reflexivity. Qed.

Lemma last_level_hazardous : last_level = tier_hazardous.
Proof. reflexivity. Qed.

Lemma find_level_found (v : number) :
  v <> NaN -> exists t, find_level v = Some t.
Proof.
  intros Hv. destruct (find_level v) as [t|] eqn:E; [eauto|].
  pose proof (find_none _ _ E tier_hazardous) as H.
  simpl in H. rewrite num_le_PosInf in H by assumption.
  discriminate H. tauto.
Qed.

Lemma find_level_NaN : find_level NaN = None.
Proof. reflexivity. Qed.

Lemma getAQILevel_negative (v : number) :
  num_lt v (int 0) = true -> getAQILevel v = tier_good.
Proof.
  intros H. unfold getAQILevel, find_level, AQI_LEVELS. cbn [find].
  change (max tier_good) with (int 50).
  now rewrite (num_lt_le_trans_int v 0 50) by (lia || assumption).
Qed.

(** C1.  The tier table has six entries with ascending bounds 50, 100, 150,
    200, 300 and +infinity.  For every index [v >= 0], [getAQILevel v] is an
    entry of the table whose bound is [>= v], and no entry before it has a
    bound [>= v] (each of them has a bound strictly below [v]).  At the
    boundary values 0, 50, 51, ..., 301, 100000 the labels are as listed. *)
Theorem getAQILevel_first_match :
  (forall v : number,
     num_ge v (int 0) = true ->
     exists pre post,
       AQI_LEVELS = (pre ++ getAQILevel v :: post)%list
       /\ num_ge (max (getAQILevel v)) v = true
       /\ Forall (fun t => num_ge (max t) v = false) pre
       /\ Forall (fun t => num_lt (max t) v = true) pre)
  /\ map max AQI_LEVELS
     = [int 50; int 100; int 150; int 200; int 300; PosInf]
  /\ map (fun v => level (getAQILevel (int v)))
         [0; 50; 51; 100; 101; 150; 151; 200; 201; 300; 301; 100000]%Z
     = [ "Good"; "Good"; "Moderate"; "Moderate";
         "Unhealthy for Sensitive Groups"; "Unhealthy for Sensitive Groups";
         "Unhealthy"; "Unhealthy"; "Very Unhealthy"; "Very Unhealthy";
         "Hazardous"; "Hazardous" ].
Proof.
  split; [|split; reflexivity].
  intros v Hv.
  destruct (num_le_not_NaN _ _ Hv) as [_ Hnan].
  destruct (find_level_found v Hnan) as [t Ht].
  unfold getAQILevel. rewrite Ht.
  destruct (find_first_match _ _ _ Ht) as (pre & post & Heq & Hle & Hpre).
  exists pre, post. repeat split; try assumption.
  rewrite Forall_forall in *. intros u Hu.
  apply num_le_false_lt; auto.
  assert (Hin : In u AQI_LEVELS) by (rewrite Heq; apply in_or_app; auto).
  simpl in Hin.
  repeat (destruct Hin as [<-|Hin]; [simpl; unfold int; congruence|]).
  contradiction.
Qed.

Lemma getAQILevel_first_match_witness :
  num_ge (int 75) (int 0) = true
  /\ exists pre post,
       AQI_LEVELS = (pre ++ getAQILevel (int 75) :: post)%list
       /\ num_ge (max (getAQILevel (int 75))) (int 75) = true
       /\ Forall (fun t => num_ge (max t) (int 75) = false) pre
       /\ Forall (fun t => num_lt (max t) (int 75) = true) pre.
Proof.
  split; [reflexivity|].
  apply (proj1 getAQILevel_first_match (int 75)). reflexivity.
Defined.

(** C10, as amended.  [getAQILevel] returns an entry of the table for every
    number.  The scan finds an entry for every input except NaN; for NaN,
    which compares false with every bound, the fallback returns the last
    entry, Hazardous.  Every negative index, minus infinity included, is
    classified Good. *)
Theorem getAQILevel_total (v : number) :
  In (getAQILevel v) AQI_LEVELS
  /\ (find_level v = None <-> v = NaN)
  /\ (v = NaN -> getAQILevel v = tier_hazardous)
  /\ (num_lt v (int 0) = true ->
      getAQILevel v = tier_good /\ level (getAQILevel v) = "Good").
Proof.
  split; [|split; [|split]].
  - unfold getAQILevel. destruct (find_level v) as [t|] eqn:E.
    + apply (find_some _ _ E).
    + rewrite last_level_hazardous. simpl. tauto.
  - split.
    + intros E. destruct v; try reflexivity;
        match goal with
        | |- ?x = NaN =>
            destruct (find_level_found x) as [t Ht];
            [discriminate | rewrite E in Ht; discriminate]
        end.
    + intros ->. reflexivity.
  - intros ->. reflexivity.
  - intros H. rewrite (getAQILevel_negative v H). split; reflexivity.
Qed.

Lemma getAQILevel_total_witness :
  num_lt (int (-5)) (int 0) = true
  /\ getAQILevel (int (-5)) = tier_good
  /\ level (getAQILevel (int (-5))) = "Good"
  /\ getAQILevel NegInf = tier_good
  /\ find_level NaN = None
  /\ getAQILevel NaN = tier_hazardous.
Proof.
  destruct (getAQILevel_total (int (-5))) as (_ & _ & _ & Hneg).
  destruct (getAQILevel_total NegInf) as (_ & _ & _ & Hinf).
  destruct (getAQILevel_total NaN) as (_ & Hfind & Hnan & _).
  split; [reflexivity|]. split; [exact (proj1 (Hneg eq_refl))|].
  split; [exact (proj2 (Hneg eq_refl))|].
  split; [exact (proj1 (Hinf eq_refl))|].
  split; [exact (proj2 Hfind eq_refl) | exact (Hnan eq_refl)].
Defined.

(** The scan does not find an entry for every number: for NaN the fallback
    is reached. *)
Lemma getAQILevel_fallback_reached :
  find_level NaN = None
  /\ getAQILevel NaN = last_level
  /\ ~ (forall v : number, exists t, find_level v = Some t).
Proof.
  split; [reflexivity|split; [reflexivity|]].
  intros H. destruct (H NaN) as [t Ht]. discriminate Ht.
Qed.

(** ** Strings *)

Lemma append_assoc (a b c : string) : (a ++ b) ++ c = a ++ (b ++ c).
Proof. induction a as [|x a IH]; simpl; [reflexivity | now rewrite IH]. Qed.

Lemma bytes_app (a b : string) :
  list_ascii_of_string (a ++ b)
  = (list_ascii_of_string a ++ list_ascii_of_string b)%list.
Proof. induction a as [|x a IH]; simpl; [reflexivity | now rewrite IH]. Qed.

Lemma truthy_app_l (a b : string) :
  truthy_string a = true -> truthy_string (a ++ b) = true.
Proof. destruct a; simpl; intros H; [discriminate | reflexivity]. Qed.

Lemma truthy_app_r (a b : string) :
  truthy_string b = true -> truthy_string (a ++ b) = true.
Proof. destruct a; simpl; auto. Qed.

Lemma startsWith_app (s t : string) : startsWith (s ++ t) s = true.
Proof.
  induction s as [|c s IH]; simpl; [reflexivity|].
  now rewrite Ascii.eqb_refl.
Qed.

Lemma startsWith_split (sub s : string) :
  startsWith s sub = true -> exists rest, s = sub ++ rest.
Proof.
  revert s. induction sub as [|c sub IH]; intros s H; simpl in *.
  - now exists s.
  - destruct s as [|d s]; [discriminate|].
    apply andb_true_iff in H as [Hc H].
    apply Ascii.eqb_eq in Hc as ->.
    destruct (IH s H) as [rest ->]. now exists rest.
Qed.

Lemma includes_split (s sub : string) :
  includes s sub = true -> exists a b, s = a ++ sub ++ b.
Proof.
  induction s as [|c s IH]; simpl.
  - destruct (startsWith EmptyString sub) eqn:E; [|discriminate].
    intros _. destruct (startsWith_split _ _ E) as [rest ->].
    now exists EmptyString, rest.
  - destruct (startsWith (String c s) sub) eqn:E.
    + intros _. destruct (startsWith_split _ _ E) as [rest Hrest].
      exists EmptyString, rest. exact Hrest.
    + intros H. destruct (IH H) as (a & b & ->).
      now exists (String c a), b.
Qed.

Lemma includes_here (sub b : string) : includes (sub ++ b) sub = true.
Proof.
  destruct (sub ++ b) eqn:E; simpl; rewrite <- E, startsWith_app; reflexivity.
Qed.

Lemma includes_app (a sub b : string) : includes (a ++ sub ++ b) sub = true.
Proof.
  induction a as [|c a IH]; simpl.
  - apply includes_here.
  - rewrite IH. now destruct (startsWith (String c (a ++ sub ++ b)) sub).
Qed.

Lemma append_nil_r (s : string) : s ++ EmptyString = s.
Proof. induction s as [|c s IH]; simpl; [reflexivity | now rewrite IH]. Qed.

Lemma join_cons (sep x y : string) (l : list string) :
  join sep (x :: y :: l) = x ++ sep ++ join sep (y :: l).
Proof. reflexivity. Qed.

Lemma join_snoc (sep x : string) (l : list string) :
  l <> [] -> join sep (l ++ [x]) = join sep l ++ sep ++ x.
Proof.
  induction l as [|a l IH]; [congruence|]. intros _.
  destruct l as [|b l]; [reflexivity|].
  change (join sep ((a :: b :: l) ++ [x]))
    with (a ++ sep ++ join sep ((b :: l) ++ [x])).
  rewrite IH by discriminate.
  rewrite join_cons. now rewrite !append_assoc.
Qed.

Lemma join_includes (sep x : string) (parts : list string) :
  In x parts -> includes (join sep parts) x = true.
Proof.
  induction parts as [|a l IH]; [contradiction|].
  destruct l as [|b l].
  - intros [->|[]]. simpl.
    rewrite <- (append_nil_r x) at 1. apply includes_here.
  - intros [->|Hin]; rewrite join_cons.
    + apply includes_here.
    + destruct (includes_split _ _ (IH Hin)) as (u & v & ->).
      rewrite <- !append_assoc. rewrite append_assoc. apply includes_app.
Qed.

Lemma lines_not_nil (s : string) : lines s <> [].
Proof.
  induction s as [|c s IH]; simpl; [discriminate|].
  destruct (Ascii.eqb c LF); [discriminate|].
  destruct (lines s); discriminate.
Qed.

Lemma lines_app_LF (a b : string) :
  lines (a ++ String LF b) = (lines a ++ lines b)%list.
Proof.
  induction a as [|c a IH]; simpl.
  - reflexivity.
  - destruct (Ascii.eqb c LF).
    + now rewrite IH.
    + rewrite IH. pose proof (lines_not_nil a).
      destruct (lines a); [congruence | reflexivity].
Qed.

Lemma lines_app (a b : string) :
  lines (a ++ nl ++ b) = (lines a ++ lines b)%list.
Proof. exact (lines_app_LF a b). Qed.

Lemma lines_single (s : string) : single_line s = true -> lines s = [s].
Proof.
  induction s as [|c s IH]; simpl; [reflexivity|].
  destruct (Ascii.eqb c LF); simpl; [discriminate|].
  intros H. now rewrite (IH H).
Qed.

Lemma final_line_app (a b : string) :
  single_line b = true -> final_line (a ++ nl ++ b) = b.
Proof.
  intros H. unfold final_line.
  rewrite lines_app, (lines_single b H). apply last_last.
Qed.

(** ** [trim] *)

Lemma strip_prefix_app (p l r : list ascii) :
  strip_prefix p l = Some r -> l = (p ++ r)%list.
Proof.
  revert l. induction p as [|a p IH]; intros l; simpl.
  - now intros [= ->].
  - destruct l as [|b l]; [discriminate|].
    destruct (Ascii.eqb a b) eqn:E; [|discriminate].
    apply Ascii.eqb_eq in E as ->. intros H. now rewrite (IH l H).
Qed.

Lemma strip_first_app (seqs : list (list ascii)) (l r : list ascii) :
  strip_first seqs l = Some r -> exists p, In p seqs /\ l = (p ++ r)%list.
Proof.
  induction seqs as [|p seqs IH]; simpl; [discriminate|].
  destruct (strip_prefix p l) as [r'|] eqn:E.
  - intros [= ->]. exists p. split; [now left | now apply strip_prefix_app].
  - intros H. destruct (IH H) as (q & Hq & ->). exists q. auto.
Qed.

(** A byte outside the stripped sequences survives the stripping. *)
Lemma strip_all_keeps (c : ascii) (seqs : list (list ascii)) :
  (forall p, In p seqs -> ~ In c p) ->
  forall n l, In c l -> In c (strip_all seqs n l).
Proof.
  intros Hfree. induction n as [|n IH]; intros l Hc; simpl; [assumption|].
  destruct (strip_first seqs l) as [r|] eqn:E; [|assumption].
  destruct (strip_first_app _ _ _ E) as (p & Hp & ->).
  apply IH. apply in_app_or in Hc as [Hc|Hc]; [|assumption].
  now destruct (Hfree p Hp).
Qed.

(** [length l] rounds strip every leading sequence. *)
Lemma strip_all_done (seqs : list (list ascii)) :
  (forall p, In p seqs -> p <> []) ->
  forall n l, (length l <= n)%nat -> strip_first seqs (strip_all seqs n l) = None.
Proof.
  intros Hne. induction n as [|n IH]; intros l Hl; simpl.
  - destruct l; [|simpl in Hl; lia].
    clear Hl. induction seqs as [|p seqs IHs]; simpl; [reflexivity|].
    destruct p as [|a p]; [now destruct (Hne [] (or_introl eq_refl))|].
    simpl. apply IHs. intros q Hq. apply Hne. now right.
  - destruct (strip_first seqs l) as [r|] eqn:E; [|assumption].
    destruct (strip_first_app _ _ _ E) as (p & Hp & ->).
    apply IH. rewrite length_app in Hl.
    specialize (Hne p Hp). destruct p; [congruence | simpl in Hl; lia].
Qed.

Lemma trimStart_bytes_done (l : list ascii) :
  strip_first WHITESPACE (trimStart_bytes l) = None.
Proof.
  apply strip_all_done; [|lia].
  intros p Hp. simpl in Hp.
  repeat (destruct Hp as [<-|Hp]; [discriminate|]). contradiction.
Qed.

Lemma ws_free_spec (c : ascii) :
  ws_free c = true ->
  (forall p, In p WHITESPACE -> ~ In c p)
  /\ (forall p, In p (map (@rev ascii) WHITESPACE) -> ~ In c p).
Proof.
  unfold ws_free. rewrite forallb_forall. intros H.
  assert (H1 : forall p, In p WHITESPACE -> ~ In c p).
  { intros p Hp Hc. specialize (H p Hp). apply negb_true_iff in H.
    assert (existsb (Ascii.eqb c) p = true) as E.
    { apply existsb_exists. exists c. split; [assumption | apply Ascii.eqb_refl]. }
    congruence. }
  split; [exact H1|].
  intros p Hp Hc. apply in_map_iff in Hp as (q & <- & Hq).
  apply (H1 q Hq). now apply in_rev.
Qed.

(** A text that holds a byte outside every white-space sequence does not
    trim to the empty string. *)
Lemma trim_keeps (c : ascii) (s : string) :
  ws_free c = true -> In c (list_ascii_of_string s) ->
  truthy_string (trim s) = true.
Proof.
  intros Hfree Hc. destruct (ws_free_spec c Hfree) as [H1 H2].
  assert (Hin : In c (trimEnd_bytes (trimStart_bytes (list_ascii_of_string s)))).
  { unfold trimEnd_bytes. apply -> in_rev. apply strip_all_keeps; [exact H2|].
    apply -> in_rev. unfold trimStart_bytes. now apply strip_all_keeps. }
  unfold trim.
  destruct (trimEnd_bytes (trimStart_bytes (list_ascii_of_string s)));
    [contradiction | reflexivity].
Qed.

(** ** The formatter *)

Section Formatter.

Variable P : Platform.

(** *** Interpolating a value *)

(** The elements of an array are joined with commas, a null or undefined
    element giving the empty string. *)
Lemma ToString_array_cons (x : value) (rest : list value) :
  ToString P (VArr (x :: rest))
  = and_then (if is_nullish x then Returned EmptyString else ToString P x)
      (fun s =>
         match rest with
         | [] => Returned s
         | _ :: _ =>
             and_then (ToString P (VArr rest))
               (fun r => Returned (s ++ "," ++ r))
         end).
Proof. reflexivity. Qed.

(** The only error of an interpolation is the conversion [TypeError]. *)
Lemma ToString_thrown (v : value) (e : Error) :
  ToString P v = Thrown e -> e = cannot_convert.
Proof.
  revert v e. fix IH 1.
  intros [ | |b|n|s|elems|fields] e.
  - discriminate.
  - discriminate.
  - destruct b; discriminate.
  - discriminate.
  - discriminate.
  - induction elems as [|x rest IHl]; [discriminate|].
    rewrite ToString_array_cons.
    destruct (is_nullish x); cbn [and_then].
    + destruct rest as [|y rest']; [discriminate|].
      destruct (ToString P (VArr (y :: rest'))); [discriminate|].
      cbn [and_then]. intros [= <-]. now apply IHl.
    + destruct (ToString P x) as [sx|e'] eqn:Ex; cbn [and_then].
      * destruct rest as [|y rest']; [discriminate|].
        destruct (ToString P (VArr (y :: rest'))); [discriminate|].
        cbn [and_then]. intros [= <-]. now apply IHl.
      * intros [= <-]. exact (IH x e' Ex).
  - simpl. destruct (lookup "toString" fields); [now intros [= <-] | discriminate].
Qed.

Lemma printable_true (v : value) :
  printable P v = true -> ToString P v = Returned (shown P v).
Proof.
  unfold printable, shown. destruct (ToString P v); [reflexivity | discriminate].
Qed.

Lemma printable_false (v : value) :
  printable P v = false -> ToString P v = Thrown cannot_convert.
Proof.
  unfold printable. destruct (ToString P v) as [s|e] eqn:E; [discriminate|].
  intros _. now rewrite (ToString_thrown v e E).
Qed.

Lemma ToString_returned (v : value) (s : string) :
  ToString P v = Returned s -> printable P v = true /\ shown P v = s.
Proof. unfold printable, shown. now intros ->. Qed.

Lemma number_or_absent_printable (v : value) :
  number_or_absent v = true -> printable P v = true.
Proof. destruct v; simpl; try discriminate; reflexivity. Qed.

(** An object is printable exactly when it has no [toString] key. *)
Lemma printable_object (fields : list (string * value)) :
  printable P (VObj fields)
  = match lookup "toString" fields with Some _ => false | None => true end.
Proof. unfold printable. simpl. now destruct (lookup "toString" fields). Qed.

(** The three cases of a field of a reading. *)
Lemma field_cases (v : value) :
  (v = VUndefined)
  \/ (is_undefined v = false /\ printable P v = true
      /\ ToString P v = Returned (shown P v))
  \/ (is_undefined v = false /\ printable P v = false
      /\ ToString P v = Thrown cannot_convert).
Proof.
  destruct (is_undefined v) eqn:Eu.
  - left. destruct v; try discriminate. reflexivity.
  - right. destruct (printable P v) eqn:Ep.
    + left. auto using printable_true.
    + right. auto using printable_false.
Qed.

(** *** The weather line *)

Lemma truthy_join_cons (sep x : string) (l : list string) :
  truthy_string x = true -> truthy_string (join sep (x :: l)) = true.
Proof.
  intros H. destruct l; [exact H|]. rewrite join_cons. now apply truthy_app_l.
Qed.

Lemma formatWeather_outcome (w : Weather) :
  formatWeather P w
  = if weather_printable P w
    then Returned (join " | " (present_weather P w))
    else Thrown cannot_convert.
Proof.
  unfold formatWeather, present_weather, weather_printable, push.
  destruct (field_cases (temperature w)) as [E1|[(U1 & P1 & T1)|(U1 & P1 & T1)]];
    [rewrite E1 | rewrite U1, P1, T1 | rewrite U1, P1, T1];
  (destruct (field_cases (humidity w)) as [E2|[(U2 & P2 & T2)|(U2 & P2 & T2)]];
    [rewrite E2 | rewrite U2, P2, T2 | rewrite U2, P2, T2]);
  (destruct (field_cases (wind w)) as [E3|[(U3 & P3 & T3)|(U3 & P3 & T3)]];
    [rewrite E3 | rewrite U3, P3, T3 | rewrite U3, P3, T3]);
  reflexivity.
Qed.

Lemma present_weather_nil (w : Weather) :
  present_weather P w = [] <-> weather_absent w = true.
Proof.
  unfold present_weather, weather_absent.
  destruct (is_undefined (temperature w)), (is_undefined (humidity w)),
    (is_undefined (wind w)); simpl; split; congruence.
Qed.

Lemma present_weather_truthy (w : Weather) :
  truthy_string (join " | " (present_weather P w)) = negb (weather_absent w).
Proof.
  unfold present_weather, weather_absent.
  destruct (is_undefined (temperature w)), (is_undefined (humidity w)),
    (is_undefined (wind w)); cbn [app negb andb]; try reflexivity;
    apply truthy_join_cons;
    first [reflexivity | apply truthy_app_r; reflexivity].
Qed.

(** *** The pollutant section *)

(** The lines of a list of entries: the printable present ones give their
    bullets, and one that is not printable makes the whole throw. *)
Lemma entries_outcome (entries : list (string * value)) :
  map_outcome
    (fun '(key, value) =>
       and_then (ToString P value) (fun shown_value =>
       Returned ("• " ++ pollutantLabel P key ++ ": " ++ shown_value)))
    (filter (fun '(_, value) => negb (is_undefined value)) entries)
  = if forallb (fun kv => printable P (snd kv)) entries
    then Returned (flat_map (fun kv => bullet P (pollutantLabel P (fst kv))
                                         (snd kv)) entries)
    else Thrown cannot_convert.
Proof.
  induction entries as [|[key v] rest IH]; [reflexivity|].
  cbn [filter forallb flat_map fst snd]. unfold bullet at 1.
  destruct (field_cases v) as [E|[(U & Pv & T)|(U & Pv & T)]].
  - subst v. cbn [is_undefined negb app]. rewrite IH.
    change (printable P VUndefined) with true. reflexivity.
  - rewrite U, Pv. cbn [negb map_outcome andb]. rewrite T, IH. cbn [and_then].
    now destruct (forallb _ rest).
  - rewrite U, Pv. cbn [negb map_outcome andb]. now rewrite T.
Qed.

Lemma bullets_nil (p : Pollutants) :
  bullets P p = [] <-> pollutants_absent p = true.
Proof.
  unfold bullets, bullet, pollutants_absent.
  destruct (is_undefined (pm25 p)), (is_undefined (pm10 p)),
    (is_undefined (o3 p)), (is_undefined (no2 p)),
    (is_undefined (so2 p)), (is_undefined (co p));
    simpl; split; congruence.
Qed.

Lemma formatPollutants_outcome (p : Pollutants) :
  formatPollutants P p
  = if pollutants_printable P p
    then Returned (pollutant_section P p)
    else Thrown cannot_convert.
Proof.
  unfold formatPollutants, pollutants_printable. rewrite entries_outcome.
  destruct (forallb _ (Object_entries p)); [|reflexivity].
  cbn [and_then]. f_equal.
  match goal with
  | |- context [flat_map ?f ?l] =>
      assert (Eb : flat_map f l = bullets P p)
        by (unfold Object_entries, bullets; cbn [flat_map fst snd];
            rewrite app_nil_r; reflexivity);
      rewrite Eb; clear Eb
  end.
  unfold pollutant_section.
  destruct (pollutants_absent p) eqn:E.
  - now rewrite (proj2 (bullets_nil p) E).
  - destruct (bullets P p) eqn:Eb; [|reflexivity].
    apply bullets_nil in Eb. congruence.
Qed.

(** *** The message *)

(** The formatter returns the sections of [message_parts] when every
    displayed value can be interpolated, and throws the conversion error
    otherwise. *)
Lemma formatMessage_parts_outcome (data : AQIData) (options : MessageOptions) :
  formatMessage_parts P data options
  = if formattable P data
    then Returned (message_parts P data options)
    else Thrown cannot_convert.
Proof.
  unfold formatMessage_parts, formattable, message_parts, push.
  rewrite formatWeather_outcome, formatPollutants_outcome.
  destruct (weather_printable P (weather data));
    [|now destruct (pollutants_printable P (pollutants data))].
  destruct (pollutants_printable P (pollutants data)); [|reflexivity].
  cbn [and_then andb]. rewrite present_weather_truthy.
  destruct (printable P (time data)) eqn:Et.
  - rewrite (printable_true _ Et). cbn [and_then]. f_equal.
    unfold weather_parts, footer_parts, time_parts, time_line.
    destruct (weather_absent (weather data)) eqn:E; cbn [negb].
    + apply present_weather_nil in E. rewrite E. cbn [app].
      destruct (footer options) as [f|]; [destruct (truthy_string f)|];
        now rewrite <- ?app_assoc.
    + destruct (present_weather P (weather data)) as [|x xs] eqn:E'.
      * apply present_weather_nil in E'. congruence.
      * destruct (footer options) as [f|]; [destruct (truthy_string f)|];
          now rewrite <- ?app_assoc.
  - now rewrite (printable_false _ Et).
Qed.

Lemma formatMessage_outcome (data : AQIData) (options : MessageOptions) :
  formatMessage P data options
  = if formattable P data
    then Returned (join nl (message_parts P data options))
    else Thrown cannot_convert.
Proof.
  unfold formatMessage. rewrite formatMessage_parts_outcome.
  now destruct (formattable P data).
Qed.

Lemma formatMessage_returned (data : AQIData) (options : MessageOptions)
  (text : string) :
  formatMessage P data options = Returned text ->
  formattable P data = true /\ text = join nl (message_parts P data options).
Proof.
  rewrite formatMessage_outcome.
  destruct (formattable P data); [|discriminate].
  now intros [= <-].
Qed.

Lemma formatMessage_thrown (data : AQIData) (options : MessageOptions)
  (e : Error) :
  formatMessage P data options = Thrown e ->
  formattable P data = false /\ e = cannot_convert.
Proof.
  rewrite formatMessage_outcome.
  destruct (formattable P data); [discriminate|].
  now intros [= <-].
Qed.


Lemma message_parts_header_in (data : AQIData) (options : MessageOptions)
  (x : string) :
  In x [ "📊 <b>Pollutants:</b>"; "🏥 <b>Health Advisory:</b>" ] ->
  In x (message_parts P data options).
Proof.
  intros Hx. unfold message_parts. apply in_or_app. left.
  unfold initial_parts. simpl in Hx |- *. intuition.
Qed.

(** The text ends with a line feed, the clock sign and the time stamp. *)
Lemma message_ends (data : AQIData) (options : MessageOptions) :
  exists before,
    join nl (message_parts P data options) = before ++ nl ++ time_line P data.
Proof.
  unfold message_parts, time_parts.
  exists (join nl (initial_parts P data options
                     (pollutant_section P (pollutants data))
                   ++ weather_parts P (weather data)
                   ++ footer_parts options ++ [EmptyString])%list).
  rewrite <- join_snoc.
  - f_equal. now rewrite <- !app_assoc.
  - unfold initial_parts. discriminate.
Qed.

(** The text holds a byte that [trim] keeps. *)
Lemma message_truthy (data : AQIData) (options : MessageOptions) :
  truthy_string (trim (join nl (message_parts P data options))) = true.
Proof.
  assert (H : includes (join nl (message_parts P data options))
                "📊 <b>Pollutants:</b>" = true).
  { apply join_includes, message_parts_header_in. simpl. auto. }
  destruct (includes_split _ _ H) as (a & b & E).
  apply (trim_keeps "<"%char); [reflexivity|].
  rewrite E, !bytes_app. apply in_or_app. right. apply in_or_app. left.
  simpl. tauto.
Qed.

Lemma formatMessage_truthy (data : AQIData) (options : MessageOptions)
  (text : string) :
  formatMessage P data options = Returned text ->
  truthy_string (trim text) = true.
Proof.
  intros H. destruct (formatMessage_returned _ _ _ H) as [_ ->].
  apply message_truthy.
Qed.

End Formatter.

(** The rendering of a value depends on the platform through the rendering
    of numbers only. *)
Lemma ToString_ext (P1 P2 : Platform) :
  (forall n, Number_toString P1 n = Number_toString P2 n) ->
  forall v, ToString P1 v = ToString P2 v.
Proof.
  intros H. fix IH 1. intros [ | |b|n|s|elems|fields]; try reflexivity.
  - simpl. f_equal. apply H.
  - induction elems as [|x rest IHl]; [reflexivity|].
    rewrite !ToString_array_cons, (IH x).
    destruct rest as [|y rest']; [reflexivity|]. now rewrite IHl.
Qed.

Lemma printable_ext (P1 P2 : Platform) :
  (forall n, Number_toString P1 n = Number_toString P2 n) ->
  forall v, printable P1 v = printable P2 v.
Proof. intros H v. unfold printable. now rewrite (ToString_ext P1 P2 H). Qed.

Lemma shown_ext (P1 P2 : Platform) :
  (forall n, Number_toString P1 n = Number_toString P2 n) ->
  forall v, shown P1 v = shown P2 v.
Proof. intros H v. unfold shown. now rewrite (ToString_ext P1 P2 H). Qed.

Lemma formatMessage_ext (P1 P2 : Platform) (data : AQIData)
  (options : MessageOptions) :
  (forall n, Number_toString P1 n = Number_toString P2 n) ->
  formatMessage P1 data options = formatMessage P2 data options.
Proof.
  intros H.
  pose proof (printable_ext P1 P2 H) as Hp.
  pose proof (shown_ext P1 P2 H) as Hs.
  rewrite !formatMessage_outcome.
  unfold formattable, pollutants_printable, weather_printable, Object_entries,
    message_parts, initial_parts, pollutant_section, bullets, bullet,
    weather_parts, present_weather, time_parts, time_line.
  cbn [forallb snd]. now rewrite H, !Hp, !Hs.
Qed.

Lemma single_line_app (a b : string) :
  single_line (a ++ b) = single_line a && single_line b.
Proof.
  induction a as [|c a IH]; simpl; [reflexivity|].
  now rewrite IH, andb_assoc.
Qed.

Lemma single_line_join (sep : string) (l : list string) :
  single_line sep = true ->
  Forall (fun s => single_line s = true) l ->
  single_line (join sep l) = true.
Proof.
  intros Hsep. induction l as [|a l IH]; [reflexivity|].
  intros H. inversion H as [|? ? Ha Hl]; subst.
  destruct l as [|b l]; [exact Ha|].
  rewrite join_cons, !single_line_app, Ha, Hsep. now apply IH.
Qed.

(** The line of a typed field is a single line when numbers render so. *)
Lemma field_single_line (P : Platform) (line : string -> string) (v : value) :
  (forall n, single_line (Number_toString P n) = true) ->
  (forall s, single_line s = true -> single_line (line s) = true) ->
  number_or_absent v = true ->
  Forall (fun s => single_line s = true)
    (if is_undefined v then [] else [line (shown P v)]).
Proof.
  intros Hn Hl Hv. destruct v; try discriminate Hv; simpl.
  - constructor.
  - constructor; [|constructor]. apply Hl, Hn.
Qed.

Ltac single_line_context :=
  let s := fresh "s" in
  let H := fresh "H" in
  intros s H; rewrite ?single_line_app, H; reflexivity.

Lemma present_weather_single_line (P : Platform) (w : Weather) :
  (forall n, single_line (Number_toString P n) = true) ->
  weather_typed w = true ->
  Forall (fun s => single_line s = true) (present_weather P w).
Proof.
  intros Hn Hw. unfold weather_typed in Hw.
  apply andb_true_iff in Hw as [Hw H3]. apply andb_true_iff in Hw as [H1 H2].
  unfold present_weather. cbv zeta.
  apply Forall_app; split; [|apply Forall_app; split].
  - apply (field_single_line P (fun s => s ++ "°C") _ Hn); [|exact H1].
    single_line_context.
  - apply (field_single_line P (fun s => s ++ "% humidity") _ Hn); [|exact H2].
    single_line_context.
  - apply (field_single_line P (fun s => "Wind: " ++ s ++ " m/s") _ Hn);
      [|exact H3].
    single_line_context.
Qed.

Lemma bullet_single_line (P : Platform) (label : string) (v : value) :
  (forall n, single_line (Number_toString P n) = true) ->
  single_line label = true ->
  number_or_absent v = true ->
  Forall (fun s => single_line s = true) (bullet P label v).
Proof.
  intros Hn Hl Hv. unfold bullet.
  apply (field_single_line P (fun s => "• " ++ label ++ ": " ++ s) _ Hn);
    [|exact Hv].
  intros s H. now rewrite !single_line_app, Hl, H.
Qed.

Lemma bullets_single_line (P : Platform) (p : Pollutants) :
  (forall n, single_line (Number_toString P n) = true) ->
  pollutants_typed p = true ->
  Forall (fun s => single_line s = true) (bullets P p).
Proof.
  intros Hn Hp. unfold pollutants_typed in Hp.
  repeat (apply andb_true_iff in Hp as [Hp ?]).
  unfold bullets.
  repeat (apply Forall_app; split; [now apply bullet_single_line|]).
  now apply bullet_single_line.
Qed.

Lemma pollutants_typed_printable (P : Platform) (p : Pollutants) :
  pollutants_typed p = true -> pollutants_printable P p = true.
Proof.
  unfold pollutants_typed, pollutants_printable, Object_entries.
  intros Hp. cbn [forallb snd].
  repeat (apply andb_true_iff in Hp as [Hp ?]).
  repeat (rewrite number_or_absent_printable by assumption).
  reflexivity.
Qed.


Lemma lines_join (l : list string) :
  l <> [] -> Forall (fun s => single_line s = true) l ->
  lines (join nl l) = l.
Proof.
  induction l as [|a l IH]; [congruence|]. intros _ H.
  inversion H as [|? ? Ha Hl]; subst.
  destruct l as [|b l]; [now apply lines_single|].
  rewrite join_cons, lines_app, (lines_single a Ha), IH by (discriminate || assumption).
  reflexivity.
Qed.

Lemma string_of_uint_single_line (d : Decimal.uint) :
  single_line (DecimalString.NilEmpty.string_of_uint d) = true.
Proof. induction d; simpl; auto. Qed.

Lemma string_of_int_single_line (d : Decimal.int) :
  single_line (DecimalString.NilZero.string_of_int d) = true.
Proof.
  destruct d as [u|u]; simpl; destruct u; simpl;
    auto using string_of_uint_single_line.
Qed.

Lemma sample_Number_toString_single_line (n : number) :
  single_line (sample_Number_toString n) = true.
Proof.
  destruct n as [| |q|]; try reflexivity. unfold sample_Number_toString.
  destruct (Qden q =? 1)%positive;
    rewrite ?single_line_app, !string_of_int_single_line; reflexivity.
Qed.



(** C6, as amended.  [formatMessage] reads neither the network nor the
    clock: on two platforms that render numbers alike, identical inputs give
    the identical outcome.  It returns a text exactly when every displayed
    value can be interpolated, and throws the conversion [TypeError]
    otherwise.  A returned text ends with a line feed, the clock sign and
    the observed time stamp; when the time stamp holds no line feed, that
    is the final line of the text, and it contains the time stamp. *)
Theorem formatMessage_pure_timestamp (P : Platform) (data : AQIData)
  (options : MessageOptions) :
  (forall (P' : Platform) (data' : AQIData) (options' : MessageOptions),
     (forall n, Number_toString P' n = Number_toString P n) ->
     data' = data -> options' = options ->
     formatMessage P' data' options' = formatMessage P data options)
  /\ (formattable P data = true ->
      exists text, formatMessage P data options = Returned text)
  /\ (formattable P data = false ->
      formatMessage P data options = Thrown cannot_convert)
  /\ (forall text,
        formatMessage P data options = Returned text ->
        exists stamp,
          ToString P (time data) = Returned stamp
          /\ (exists before, text = before ++ nl ++ "⏰ " ++ stamp)
          /\ (single_line stamp = true ->
              final_line text = "⏰ " ++ stamp
              /\ includes (final_line text) stamp = true)).
Proof.
  split; [|split; [|split]].
  - intros P' data' options' H -> ->. now apply formatMessage_ext.
  - intros H. rewrite formatMessage_outcome, H. eauto.
  - intros H. now rewrite formatMessage_outcome, H.
  - intros text H. destruct (formatMessage_returned _ _ _ _ H) as [Hf ->].
    unfold formattable in Hf. apply andb_true_iff in Hf as [_ Ht].
    exists (shown P (time data)). split; [now apply printable_true|].
    destruct (message_ends P data options) as [before E].
    unfold time_line in E. split; [now exists before|].
    intros Hs. rewrite E.
    assert (F : final_line (before ++ nl ++ "⏰ " ++ shown P (time data))
                = "⏰ " ++ shown P (time data)).
    { apply final_line_app. rewrite single_line_app, Hs. reflexivity. }
    rewrite F. split; [reflexivity|].
    rewrite <- (append_nil_r (shown P (time data))) at 1.
    apply includes_app.
Qed.

Lemma formatMessage_pure_timestamp_witness :
  let P := offline_platform in
  let data := sample_reading (int 156) in
  formattable P data = true
  /\ (exists text,
        formatMessage P data alert_options = Returned text
        /\ final_line text = "⏰ 2024-01-15 14:00:00")
  /\ formattable P unformattable_reading = false
  /\ formatMessage P unformattable_reading alert_options = Thrown cannot_convert
  /\ formatMessage (sample_platform (reply 200 VNull) (reply 200 VNull))
       data alert_options
     = formatMessage P data alert_options.
Proof.
  intros P data.
  pose proof (formatMessage_pure_timestamp P data alert_options)
    as (Hpure & Hret & _ & Hlast).
  pose proof (formatMessage_pure_timestamp P unformattable_reading alert_options)
    as (_ & _ & Hthrow & _).
  split; [reflexivity|]. split; [|split; [reflexivity|split]].
  - destruct (Hret eq_refl) as [text Ht]. exists text. split; [exact Ht|].
    destruct (Hlast text Ht) as (stamp & Hs & _ & Hfinal).
    injection Hs as <-. exact (proj1 (Hfinal eq_refl)).
  - exact (Hthrow eq_refl).
  - apply Hpure; reflexivity.
Defined.

(** The final line of the returned text does not contain the time stamp
    when the time stamp itself runs over two lines. *)
Lemma formatMessage_final_line_counterexample :
  time two_line_reading = VStr ("2024-01-15" ++ nl ++ "14:00:00")
  /\ exists text,
       formatMessage offline_platform two_line_reading alert_options
       = Returned text
       /\ final_line text = "14:00:00"
       /\ includes (final_line text) ("2024-01-15" ++ nl ++ "14:00:00") = false.
Proof.
  split; [reflexivity|]. eexists. split; [vm_compute; reflexivity|].
  split; vm_compute; reflexivity.
Qed.





(** ** Effects *)

Lemma sent_app (a b : list event) : sent (a ++ b) = (sent a ++ sent b)%list.
Proof.
  induction a as [|ev a IH]; simpl; [reflexivity|].
  destruct ev; simpl; now rewrite IH.
Qed.

Lemma silent_ret {A : Type} (a : A) : silent (ret a).
Proof. intros tr. reflexivity. Qed.

Lemma silent_throw {A : Type} (s : ErrorSite) (msg : string) :
  silent (@throw A s msg).
Proof. intros tr. reflexivity. Qed.

Lemma silent_lift {A : Type} (o : outcome A) : silent (lift o).
Proof. intros tr. reflexivity. Qed.

Lemma silent_await {A : Type} (p : settled A) : silent (await p).
Proof. intros tr. destruct p; reflexivity. Qed.

Lemma silent_bind {A B : Type} (m : M A) (k : A -> M B) :
  silent m -> (forall a, silent (k a)) -> silent (bind m k).
Proof.
  intros Hm Hk tr. unfold bind. specialize (Hm tr).
  destruct (m tr) as [[a|e] tr']; simpl in *; subst tr'.
  - apply Hk.
  - reflexivity.
Qed.

Ltac silent_steps :=
  repeat first
    [ apply silent_ret | apply silent_throw | apply silent_lift
    | apply silent_await
    | apply silent_bind; [|intros ?]
    | match goal with
      | |- silent (if ?b then _ else _) => destruct b
      | |- silent (match ?x with _ => _ end) => destruct x
      end ].

Lemma bind_returned {A B : Type} (m : M A) (k : A -> M B) (a : A)
  (tr tr' : list event) :
  m tr = (Returned a, tr') -> bind m k tr = k a tr'.
Proof. intros H. unfold bind. now rewrite H. Qed.

Lemma bind_thrown {A B : Type} (m : M A) (k : A -> M B) (e : Error)
  (tr tr' : list event) :
  m tr = (Thrown e, tr') -> bind m k tr = (Thrown e, tr').
Proof. intros H. unfold bind. now rewrite H. Qed.

Section Effects.

Variable P : Platform.

(** [fetchAQI] issues the feed request and nothing else. *)
Lemma fetchAQI_trace (cfg : Config) (env : Env) (tr : list event) :
  snd (fetchAQI P cfg env tr) = (tr ++ [HttpGet (feed_url cfg env)])%list.
Proof.
  unfold fetchAQI, fetch_get.
  set (rest := fun response : HttpResponse => _).
  assert (Hrest : forall response, silent (rest response)).
  { intros response. unfold rest. silent_steps. }
  unfold bind at 1. unfold bind at 1. unfold emit at 1.
  pose proof (silent_await (http_get P (feed_url cfg env))
                (tr ++ [HttpGet (feed_url cfg env)])%list) as Ha.
  destruct (await (http_get P (feed_url cfg env)) _) as [[r|e] tr'];
    simpl in Ha; subst tr'; [apply Hrest | reflexivity].
Qed.

Lemma fetchAQI_sent (cfg : Config) (env : Env) (tr : list event) :
  sent (snd (fetchAQI P cfg env tr)) = sent tr.
Proof. rewrite fetchAQI_trace, sent_app. simpl. apply app_nil_r. Qed.

(** A message that does not trim to the empty string is posted, once; the
    call returns or fails at the delivery check or inside the platform. *)
Lemma sendTelegram_posts (env : Env) (message : string) (tr : list event) :
  truthy_string (trim message) = true ->
  exists url payload,
    text payload = message
    /\ snd (sendTelegram P env message tr) = (tr ++ [HttpPost url payload])%list
    /\ (fst (sendTelegram P env message tr) = Returned tt
        \/ exists e, fst (sendTelegram P env message tr) = Thrown e
                     /\ (site e = DeliveryError \/ site e = RuntimeError)).
Proof.
  intros H. unfold sendTelegram. rewrite H. cbn [negb]. cbv zeta.
  match goal with
  | |- context [fetch_post P ?u ?b] => exists u, b
  end.
  split; [reflexivity|].
  unfold fetch_post, bind, emit, await, ret, throw.
  destruct (http_post P _ _) as [r|reason]; simpl.
  - destruct (ok r); simpl.
    + split; [reflexivity | now left].
    + destruct (body_text r) as [t|reason]; simpl;
        (split; [reflexivity | right; eexists; split; [reflexivity|]; simpl; auto]).
  - split; [reflexivity | right; eexists; split; [reflexivity|]; simpl; auto].
Qed.

Lemma sendTelegram_sent (env : Env) (message : string) (tr : list event) :
  truthy_string (trim message) = true ->
  sent (snd (sendTelegram P env message tr)) = (sent tr ++ [message])%list.
Proof.
  intros H. destruct (sendTelegram_posts env message tr H)
    as (url & payload & <- & -> & _).
  now rewrite sent_app.
Qed.

(** An empty or blank message is refused before any request is made. *)
Lemma sendTelegram_blank (env : Env) (message : string) (tr : list event) :
  truthy_string (trim message) = false ->
  sendTelegram P env message tr
  = (Thrown {| site := EmptyMessageError;
               message := "Cannot send empty message to Telegram" |}, tr).
Proof. intros H. unfold sendTelegram. now rewrite H. Qed.

End Effects.

(** C9.  Whenever [formatMessage], and so [formatAlertMessage] or
    [formatDailySummary], returns a text, that text is not empty and does
    not trim to the empty string; it contains the pollutant and the health
    advisory headers.  Given such a text [sendTelegram] posts it: it never
    fails with the empty-message error.  The formatter returns whenever
    every displayed value can be interpolated, and its only error is the
    conversion [TypeError]. *)
Theorem formatMessage_never_blank (P : Platform) (data : AQIData)
  (options : MessageOptions) :
  (formattable P data = true ->
   exists text, formatMessage P data options = Returned text)
  /\ (forall e, formatMessage P data options = Thrown e -> e = cannot_convert)
  /\ (forall text,
        formatMessage P data options = Returned text ->
        text <> EmptyString
        /\ truthy_string (trim text) = true
        /\ includes text "📊 <b>Pollutants:</b>" = true
        /\ includes text "🏥 <b>Health Advisory:</b>" = true
        /\ (forall env tr,
              sent (snd (sendTelegram P env text tr)) = (sent tr ++ [text])%list
              /\ ~ fails_with (sendTelegram P env text tr) EmptyMessageError))
  /\ (forall text,
        formatAlertMessage P data = Returned text ->
        truthy_string (trim text) = true)
  /\ (forall text,
        formatDailySummary P data = Returned text ->
        truthy_string (trim text) = true).
Proof.
  split; [|split; [|split; [|split]]].
  - intros H. rewrite formatMessage_outcome, H. eauto.
  - intros e H. now destruct (formatMessage_thrown _ _ _ _ H).
  - intros text H. pose proof (formatMessage_truthy _ _ _ _ H) as Ht.
    destruct (formatMessage_returned _ _ _ _ H) as [_ E].
    split; [|split; [exact Ht|split; [|split]]].
    + intros E'. rewrite E' in Ht. discriminate Ht.
    + rewrite E. apply join_includes, message_parts_header_in. simpl. auto.
    + rewrite E. apply join_includes, message_parts_header_in. simpl. auto.
    + intros env tr. split; [now apply sendTelegram_sent|].
      intros (e & He & Hsite).
      destruct (sendTelegram_posts P env _ tr Ht)
        as (_ & _ & _ & _ & [Hr|(e' & He' & Hs)]).
      * congruence.
      * rewrite He in He'. injection He' as <-.
        destruct Hs as [Hs|Hs]; congruence.
  - intros text. apply formatMessage_truthy.
  - intros text. apply formatMessage_truthy.
Qed.

Lemma formatMessage_never_blank_witness :
  let P := platform_with_index 156 in
  formattable P readme_reading = true
  /\ exists message,
       formatAlertMessage P readme_reading = Returned message
       /\ truthy_string (trim message) = true
       /\ sent (snd (sendTelegram P sample_env message [])) = [message]
       /\ fst (sendTelegram P sample_env message []) = Returned tt.
Proof.
  intros P. split; [reflexivity|].
  destruct (formatMessage_never_blank P readme_reading alert_options)
    as (Hret & _ & Htext & _).
  destruct (Hret eq_refl) as [message Hm]. exists message.
  split; [exact Hm|].
  destruct (Htext message Hm) as (_ & Ht & _ & _ & Hsend).
  split; [exact Ht|]. split; [exact (proj1 (Hsend sample_env []))|].
  injection Hm as <-. reflexivity.
Defined.
(** ** The fetcher *)

Lemma get_total (v : value) (key : string) :
  is_nullish v = false -> exists x, get v key = Returned x.
Proof. destruct v; simpl; try discriminate; eauto. Qed.

Lemma truthy_not_nullish (v : value) : truthy v = true -> is_nullish v = false.
Proof. destruct v; simpl; congruence. Qed.

Lemma iaqi_v_returns (data i : value) (code : string) :
  get data "iaqi" = Returned i -> is_nullish i = false ->
  exists v, iaqi_v data code = Returned v.
Proof.
  intros Hi Hn. unfold iaqi_v. rewrite Hi. cbn [and_then].
  destruct (get_total i code Hn) as [entry ->]. cbn [and_then].
  unfold get_opt. destruct (is_nullish entry) eqn:E; [eauto|].
  apply get_total, E.
Qed.

Section Fetcher.

Variable P : Platform.
Variables (cfg : Config) (env : Env) (tr : list event).

Ltac run_fetch :=
  unfold fetchAQI, fetch_get, bind, emit, await, lift, ret, throw.

(** A status other than ['ok'] is reported, whatever the HTTP status,
    unless interpolating it into the message throws. *)
Lemma fetchAQI_status (code : Z) (json st : value) :
  answers P cfg env code json ->
  get json "status" = Returned st ->
  st <> VStr "ok" ->
  fetchAQI P cfg env tr
  = (match ToString P st with
     | Returned shown_status =>
         Thrown {| site := ApiStatusError;
                   message := "AQICN API returned error status: "
                              ++ shown_status |}
     | Thrown e => Thrown e
     end,
     (tr ++ [HttpGet (feed_url cfg env)])%list).
Proof.
  intros (response & Hget & _ & Hok & Hjson) Hst Hne.
  assert (E : strict_eq_string st "ok" = false).
  { destruct st; try reflexivity. simpl.
    apply String.eqb_neq. congruence. }
  run_fetch. rewrite Hget, Hok. cbn [negb]. rewrite Hjson, Hst, E.
  cbn [negb]. now destruct (ToString P st).
Qed.

(** An index that is not a number, or is negative, is reported, unless
    interpolating it into the message throws. *)
Lemma fetchAQI_index (code : Z) (json data a : value) :
  answers P cfg env code json ->
  schema_ok json data ->
  get data "aqi" = Returned a ->
  invalid_index a = true ->
  fetchAQI P cfg env tr
  = (match ToString P a with
     | Returned shown_aqi =>
         Thrown {| site := InvalidIndexError;
                   message := "Invalid AQI value received: " ++ shown_aqi |}
     | Thrown e => Thrown e
     end,
     (tr ++ [HttpGet (feed_url cfg env)])%list).
Proof.
  intros (response & Hget & _ & Hok & Hjson)
         (Hst & Hdata & Htd & c & nm & Hc & Htc & Hn & Htn) Ha Hinv.
  run_fetch. rewrite Hget, Hok. cbn [negb]. rewrite Hjson, Hst.
  cbn [strict_eq_string String.eqb Ascii.eqb Bool.eqb negb andb].
  rewrite Hdata, Htd. cbn [negb]. rewrite Hc, Htc. cbn [negb].
  rewrite Hn, Htn. cbn [negb]. rewrite Ha.
  destruct a; try (now destruct (ToString P _)).
  simpl in Hinv. rewrite Hinv. reflexivity.
Qed.

(** A number that is not negative passes: the reading is built. *)
Lemma fetchAQI_success (code : Z) (json data : value) (n : number) :
  answers P cfg env code json ->
  schema_ok json data ->
  get data "aqi" = Returned (VNum n) ->
  num_lt n (int 0) = false ->
  has_measurements data ->
  exists reading,
    fetchAQI P cfg env tr
    = (Returned reading, (tr ++ [HttpGet (feed_url cfg env)])%list)
    /\ aqi reading = n.
Proof.
  intros (response & Hget & _ & Hok & Hjson)
         (Hst & Hdata & Htd & c & nm & Hc & Htc & Hn & Htn) Ha Hpos
         (i & t & Hi & Hni & Ht & Hnt).
  destruct (get_total data "dominentpol" (truthy_not_nullish _ Htd)) as [d Hd].
  destruct (iaqi_v_returns data i "pm25" Hi Hni) as [x1 H1].
  destruct (iaqi_v_returns data i "pm10" Hi Hni) as [x2 H2].
  destruct (iaqi_v_returns data i "o3" Hi Hni) as [x3 H3].
  destruct (iaqi_v_returns data i "no2" Hi Hni) as [x4 H4].
  destruct (iaqi_v_returns data i "so2" Hi Hni) as [x5 H5].
  destruct (iaqi_v_returns data i "co" Hi Hni) as [x6 H6].
  destruct (iaqi_v_returns data i "t" Hi Hni) as [x7 H7].
  destruct (iaqi_v_returns data i "h" Hi Hni) as [x8 H8].
  destruct (iaqi_v_returns data i "w" Hi Hni) as [x9 H9].
  destruct (get_total t "s" Hnt) as [s Hs].
  eexists. split.
  - run_fetch. rewrite Hget, Hok. cbn [negb]. rewrite Hjson, Hst.
    cbn [strict_eq_string String.eqb Ascii.eqb Bool.eqb negb andb].
    rewrite Hdata, Htd. cbn [negb]. rewrite Hc, Htc. cbn [negb].
    rewrite Hn, Htn. cbn [negb]. rewrite Ha, Hpos.
    cbn [and_then]. rewrite Hn, Hd, H1, H2, H3, H4, H5, H6, H7, H8, H9, Ht.
    cbn [and_then]. rewrite Hs.
    reflexivity.
  - reflexivity.
Qed.

End Fetcher.

(** C4, as amended.  Let the provider answer with an HTTP status in
    200..299 (200 in particular) and a JSON body.  If the body's [status]
    is not ['ok'], [fetchAQI] throws: at the status check, with the status
    in the message, when the status can be interpolated, as every value
    that is not an object or an array can; with the conversion [TypeError]
    otherwise.  If the body passes the checks that come before the index
    and the index is not a number or is negative, [fetchAQI] throws: at
    the index check when the index can be interpolated, as -1 and every
    other number can; with the conversion [TypeError] otherwise.  If the
    index is 0 and the body has the [iaqi] and [time] objects, [fetchAQI]
    returns a reading whose index is 0. *)
Theorem fetchAQI_validation (P : Platform) (cfg : Config) (env : Env)
  (tr : list event) (code : Z) (json : value) :
  answers P cfg env code json ->
  (forall st,
     get json "status" = Returned st -> st <> VStr "ok" ->
     (printable P st = true ->
      fst (fetchAQI P cfg env tr)
      = Thrown {| site := ApiStatusError;
                  message := "AQICN API returned error status: "
                             ++ shown P st |})
     /\ (printable P st = false ->
         fst (fetchAQI P cfg env tr) = Thrown cannot_convert))
  /\ (forall data a,
        schema_ok json data -> get data "aqi" = Returned a ->
        invalid_index a = true ->
        (printable P a = true ->
         fst (fetchAQI P cfg env tr)
         = Thrown {| site := InvalidIndexError;
                     message := "Invalid AQI value received: "
                                ++ shown P a |})
        /\ (printable P a = false ->
            fst (fetchAQI P cfg env tr) = Thrown cannot_convert))
  /\ (forall v, primitive v = true -> printable P v = true)
  /\ invalid_index (VNum (int (-1))) = true
  /\ (forall n, invalid_index (VNum n) = num_lt n (int 0))
  /\ (forall v, (forall n, v <> VNum n) -> invalid_index v = true)
  /\ (forall data,
        schema_ok json data -> get data "aqi" = Returned (VNum (int 0)) ->
        has_measurements data ->
        exists reading,
          fst (fetchAQI P cfg env tr) = Returned reading
          /\ aqi reading = int 0).
Proof.
  intros Hans. split; [|split; [|split; [|split; [|split; [|split]]]]].
  - intros st Hst Hne.
    rewrite (fetchAQI_status P cfg env tr code json st) by assumption.
    split; intros Hp.
    + now rewrite (printable_true P st Hp).
    + now rewrite (printable_false P st Hp).
  - intros data a Hs Ha Hinv.
    rewrite (fetchAQI_index P cfg env tr code json data a) by assumption.
    split; intros Hp.
    + now rewrite (printable_true P a Hp).
    + now rewrite (printable_false P a Hp).
  - intros v Hv. destruct v as [ | |b| | | | ]; try discriminate Hv;
      try reflexivity. now destruct b.
  - reflexivity.
  - reflexivity.
  - intros v Hv. destruct v; try reflexivity. now destruct (Hv n).
  - intros data Hs Ha Hm.
    destruct (fetchAQI_success P cfg env tr code json data (int 0))
      as (reading & E & Haqi); try assumption; [reflexivity|].
    exists reading. rewrite E. auto.
Qed.

Lemma fetchAQI_validation_witness :
  fails_with (fetchAQI (sample_platform (reply 200 error_json) (reply 200 VNull))
                CONFIG sample_env []) ApiStatusError
  /\ fst (fetchAQI (sample_platform (reply 200 unprintable_status_json)
                      (reply 200 VNull)) CONFIG sample_env [])
     = Thrown cannot_convert
  /\ fails_with (fetchAQI (platform_with_index (-1)) CONFIG sample_env [])
       InvalidIndexError
  /\ invalid_index (VStr "-") = true
  /\ exists reading,
       fst (fetchAQI (platform_with_index 0) CONFIG sample_env [])
       = Returned reading
       /\ aqi reading = int 0.
Proof.
  split; [|split; [|split; [|split]]].
  - eexists. split.
    + refine (proj1 (proj1 (fetchAQI_validation _ CONFIG sample_env [] 200
                              error_json _)
                       (VStr "error") eq_refl _) eq_refl).
      * eexists. repeat split; reflexivity.
      * discriminate.
    + reflexivity.
  - refine (proj2 (proj1 (fetchAQI_validation _ CONFIG sample_env [] 200
                            unprintable_status_json _)
                     unprintable eq_refl _) eq_refl).
    + eexists. repeat split; reflexivity.
    + discriminate.
  - eexists. split.
    + refine (proj1 (proj1 (proj2 (fetchAQI_validation _ CONFIG sample_env []
                              200 (sample_json (VNum (int (-1)))) _))
                (sample_data (VNum (int (-1)))) (VNum (int (-1))) _
                eq_refl eq_refl) eq_refl).
      * eexists. repeat split; reflexivity.
      * repeat split.
        exists (VObj [ ("name", VStr "Bangkok") ]), (VStr "Bangkok").
        repeat split.
    + reflexivity.
  - refine (proj1 (proj2 (proj2 (proj2 (proj2 (proj2
              (fetchAQI_validation (platform_with_index 0) CONFIG sample_env
                 [] 200 (sample_json (VNum (int 0))) _))))))
              (VStr "-") _).
    + eexists. repeat split; reflexivity.
    + discriminate.
  - refine (proj2 (proj2 (proj2 (proj2 (proj2 (proj2
              (fetchAQI_validation _ CONFIG sample_env [] 200
                 (sample_json (VNum (int 0))) _))))))
              (sample_data (VNum (int 0))) _ eq_refl _).
    + eexists. repeat split; reflexivity.
    + repeat split. exists (VObj [ ("name", VStr "Bangkok") ]), (VStr "Bangkok").
      repeat split.
    + eexists _, _. repeat split.
Defined.

(** A status that differs from ['ok'] does not always fail at the status
    check, nor an index that is not a number at the index check: when the
    value is an object with a [toString] key, building the message throws
    the conversion [TypeError] first. *)
Lemma fetchAQI_validation_counterexample :
  http_get unprintable_status_platform (feed_url CONFIG sample_env)
  = reply 200 unprintable_status_json
  /\ get unprintable_status_json "status" = Returned unprintable
  /\ unprintable <> VStr "ok"
  /\ fst (fetchAQI unprintable_status_platform CONFIG sample_env [])
     = Thrown cannot_convert
  /\ ~ fails_with (fetchAQI unprintable_status_platform CONFIG sample_env [])
        ApiStatusError
  /\ http_get unprintable_index_platform (feed_url CONFIG sample_env)
     = reply 200 (sample_json unprintable)
  /\ get (sample_data unprintable) "aqi" = Returned unprintable
  /\ invalid_index unprintable = true
  /\ fst (fetchAQI unprintable_index_platform CONFIG sample_env [])
     = Thrown cannot_convert
  /\ ~ fails_with (fetchAQI unprintable_index_platform CONFIG sample_env [])
        InvalidIndexError.
Proof.
  split; [reflexivity|]. split; [reflexivity|]. split; [discriminate|].
  split; [reflexivity|].
  split; [intros (e & He & Hs); vm_compute in He; injection He as <-;
          discriminate Hs|].
  split; [reflexivity|]. split; [reflexivity|]. split; [reflexivity|].
  split; [reflexivity|].
  intros (e & He & Hs). vm_compute in He. injection He as <-. discriminate Hs.
Qed.
(** ** The scheduled handler *)

Section Scheduled.

Variable P : Platform.
Variables (cfg : Config) (env : Env).

Lemma try_catch_thrown {A : Type} (body : M A) (handler : Error -> M A)
  (e : Error) (tr tr' : list event) :
  body tr = (Thrown e, tr') -> try_catch body handler tr = handler e tr'.
Proof. intros H. unfold try_catch. now rewrite H. Qed.

Lemma try_catch_returned {A : Type} (body : M A) (handler : Error -> M A)
  (a : A) (tr tr' : list event) :
  body tr = (Returned a, tr') -> try_catch body handler tr = (Returned a, tr').
Proof. intros H. unfold try_catch. now rewrite H. Qed.

(** Whatever the [try] block does, the handler returns. *)
Lemma scheduled_returns (controller : ScheduledController) (tr : list event) :
  fst (scheduled P cfg controller env tr) = Returned tt.
Proof.
  unfold scheduled, try_catch.
  destruct (scheduled_try P cfg _ env tr) as [[[]|e] tr']; reflexivity.
Qed.

(** An error of the [try] block is logged and nothing else happens. *)
Lemma scheduled_logs (controller : ScheduledController) (e : Error)
  (tr tr' : list event) :
  scheduled_try P cfg (String.eqb (cron controller) (DAILY_SUMMARY (CRON cfg)))
    env tr = (Thrown e, tr') ->
  scheduled P cfg controller env tr
  = (Returned tt, (tr' ++ [ConsoleError ("AQI check failed: " ++ message e)])%list).
Proof.
  intros H. unfold scheduled. now rewrite (try_catch_thrown _ _ _ _ _ H).
Qed.

Lemma scheduled_try_fetch_fails (daily : bool) (e : Error) (tr tr' : list event) :
  fetchAQI P cfg env tr = (Thrown e, tr') ->
  scheduled_try P cfg daily env tr = (Thrown e, tr').
Proof. intros H. unfold scheduled_try. now apply bind_thrown. Qed.

(** After a send, the handler logs one line, whether the send returned or
    failed; the messages sent are those of the send. *)
Lemma send_then_log_sent (message line : string) (tr : list event) :
  truthy_string (trim message) = true ->
  sent (snd (try_catch
               (bind (sendTelegram P env message) (fun _ => console_log line))
               scheduled_catch tr))
  = (sent tr ++ [message])%list.
Proof.
  intros H. pose proof (sendTelegram_sent P env message tr H) as Hs.
  unfold try_catch, bind, console_log, scheduled_catch, console_error, emit.
  destruct (sendTelegram P env message tr) as [[[]|e] tr']; simpl in *;
    rewrite sent_app, Hs; simpl; now rewrite app_nil_r.
Qed.

Lemma format_send_log_sent (o : outcome string) (line : string)
  (tr : list event) :
  (forall message, o = Returned message ->
                   truthy_string (trim message) = true) ->
  sent (snd (try_catch
               (bind (lift o) (fun message =>
                bind (sendTelegram P env message) (fun _ => console_log line)))
               scheduled_catch tr))
  = (sent tr ++ sent_text o)%list.
Proof.
  intros H. destruct o as [message|e].
  - exact (send_then_log_sent message line tr (H message eq_refl)).
  - unfold try_catch, bind, lift, scheduled_catch, console_error, emit.
    simpl. rewrite sent_app. simpl. now rewrite !app_nil_r.
Qed.

Lemma scheduled_daily_sent (controller : ScheduledController) (data : AQIData)
  (tr tr1 : list event) :
  fetchAQI P cfg env tr = (Returned data, tr1) ->
  cron controller = DAILY_SUMMARY (CRON cfg) ->
  sent (snd (scheduled P cfg controller env tr))
  = (sent tr ++ sent_text (formatDailySummary P data))%list.
Proof.
  intros Hf Hc. pose proof (fetchAQI_sent P cfg env tr) as Hs.
  rewrite Hf in Hs. simpl in Hs.
  unfold scheduled, scheduled_try. rewrite Hc, String.eqb_refl.
  unfold try_catch at 1. rewrite (bind_returned _ _ _ _ _ Hf).
  unfold bind at 1, console_log at 1, emit at 1.
  match goal with
  | |- context [bind (lift ?o) (fun message =>
                  bind (sendTelegram P env message) (fun _ => console_log ?l))
                  ?t] =>
      pose proof (format_send_log_sent o l t
                    (formatMessage_truthy P data summary_options)) as Hl
  end.
  unfold try_catch in Hl. rewrite Hl, sent_app, Hs. simpl.
  now rewrite app_nil_r.
Qed.

Lemma scheduled_hourly_sent (controller : ScheduledController) (data : AQIData)
  (tr tr1 : list event) :
  fetchAQI P cfg env tr = (Returned data, tr1) ->
  cron controller <> DAILY_SUMMARY (CRON cfg) ->
  sent (snd (scheduled P cfg controller env tr))
  = (sent tr ++ (if num_gt (aqi data) (ALERT_THRESHOLD cfg)
                 then sent_text (formatAlertMessage P data) else []))%list.
Proof.
  intros Hf Hc. pose proof (fetchAQI_sent P cfg env tr) as Hs.
  rewrite Hf in Hs. simpl in Hs.
  apply String.eqb_neq in Hc.
  unfold scheduled, scheduled_try. rewrite Hc.
  unfold try_catch at 1. rewrite (bind_returned _ _ _ _ _ Hf).
  unfold bind at 1, console_log at 1, emit at 1.
  destruct (num_gt (aqi data) (ALERT_THRESHOLD cfg)).
  - match goal with
    | |- context [bind (lift ?o) (fun message =>
                    bind (sendTelegram P env message) (fun _ => console_log ?l))
                    ?t] =>
        pose proof (format_send_log_sent o l t
                      (formatMessage_truthy P data alert_options)) as Hl
    end.
    unfold try_catch in Hl. rewrite Hl, sent_app, Hs. simpl.
    now rewrite app_nil_r.
  - simpl. rewrite sent_app, Hs. simpl. now rewrite !app_nil_r.
Qed.

(** On the daily tick the handler does the same for every threshold. *)
Lemma scheduled_daily_threshold (controller : ScheduledController)
  (threshold : number) (tr : list event) :
  cron controller = DAILY_SUMMARY (CRON cfg) ->
  scheduled P (with_threshold cfg threshold) controller env tr
  = scheduled P cfg controller env tr.
Proof.
  intros Hc. unfold scheduled. cbn [CRON with_threshold].
  rewrite Hc, String.eqb_refl. reflexivity.
Qed.

End Scheduled.

(** The two variants of the message differ: they open with different
    signs. *)
Lemma alert_is_not_summary (P : Platform) (data : AQIData)
  (alert summary : string) :
  formatAlertMessage P data = Returned alert ->
  formatDailySummary P data = Returned summary ->
  alert <> summary.
Proof.
  unfold formatAlertMessage, formatDailySummary. intros Ha Hs.
  destruct (formatMessage_returned _ _ _ _ Ha) as [_ ->].
  destruct (formatMessage_returned _ _ _ _ Hs) as [_ ->].
  unfold message_parts, initial_parts.
  cbn [app]. rewrite !join_cons. cbn [titleEmoji alert_options summary_options].
  discriminate.
Qed.

(** C2, as amended.  Let the fetch succeed with reading [data].  If the
    firing expression is the daily-summary one and the summary of [data]
    can be formatted, exactly one message is sent, that summary; if
    formatting it throws, none is sent; and the handler behaves the same
    under every threshold.  Otherwise, when the index is strictly above the
    threshold, exactly one message is sent, the alert for [data], if the
    alert can be formatted, and none if formatting it throws; when the
    index is not above the threshold none is sent.  Both texts can be
    formatted exactly when every displayed value of the reading can be
    interpolated, and then they are different texts.  With the threshold
    100 of [CONFIG], 100 is not above it and 101 is. *)
Theorem scheduled_dispatch (P : Platform) (cfg : Config)
  (controller : ScheduledController) (env : Env) (tr tr1 : list event)
  (data : AQIData) :
  fetchAQI P cfg env tr = (Returned data, tr1) ->
  (cron controller = DAILY_SUMMARY (CRON cfg) ->
   (forall message,
      formatDailySummary P data = Returned message ->
      sent (snd (scheduled P cfg controller env tr))
      = (sent tr ++ [message])%list)
   /\ (forall e,
         formatDailySummary P data = Thrown e ->
         sent (snd (scheduled P cfg controller env tr)) = sent tr)
   /\ forall threshold,
        scheduled P (with_threshold cfg threshold) controller env tr
        = scheduled P cfg controller env tr)
  /\ (cron controller <> DAILY_SUMMARY (CRON cfg) ->
      (num_gt (aqi data) (ALERT_THRESHOLD cfg) = true ->
       (forall message,
          formatAlertMessage P data = Returned message ->
          sent (snd (scheduled P cfg controller env tr))
          = (sent tr ++ [message])%list)
       /\ (forall e,
             formatAlertMessage P data = Thrown e ->
             sent (snd (scheduled P cfg controller env tr)) = sent tr))
      /\ (num_gt (aqi data) (ALERT_THRESHOLD cfg) = false ->
          sent (snd (scheduled P cfg controller env tr)) = sent tr))
  /\ (formattable P data = true ->
      exists alert summary,
        formatAlertMessage P data = Returned alert
        /\ formatDailySummary P data = Returned summary
        /\ alert <> summary)
  /\ (formattable P data = false ->
      formatAlertMessage P data = Thrown cannot_convert
      /\ formatDailySummary P data = Thrown cannot_convert)
  /\ ALERT_THRESHOLD CONFIG = int 100
  /\ num_gt (int 100) (int 100) = false
  /\ num_gt (int 101) (int 100) = true.
Proof.
  intros Hf. split; [|split; [|split; [|split; [|repeat split]]]].
  - intros Hc.
    pose proof (scheduled_daily_sent P cfg env controller data tr tr1 Hf Hc)
      as H.
    split; [|split].
    + intros message Hm. now rewrite Hm in H.
    + intros e He. rewrite He in H. simpl in H. now rewrite app_nil_r in H.
    + intros threshold. now apply scheduled_daily_threshold.
  - intros Hc.
    pose proof (scheduled_hourly_sent P cfg env controller data tr tr1 Hf Hc)
      as H.
    split; intros Hgt; rewrite Hgt in H.
    + split.
      * intros message Hm. now rewrite Hm in H.
      * intros e He. rewrite He in H. simpl in H. now rewrite app_nil_r in H.
    + now rewrite app_nil_r in H.
  - intros Hfm. unfold formatAlertMessage, formatDailySummary.
    rewrite !formatMessage_outcome, Hfm. eexists _, _.
    split; [reflexivity|]. split; [reflexivity|].
    apply (alert_is_not_summary P data);
      unfold formatAlertMessage, formatDailySummary;
      now rewrite formatMessage_outcome, Hfm.
  - intros Hfm. unfold formatAlertMessage, formatDailySummary.
    now rewrite !formatMessage_outcome, Hfm.
Qed.

Lemma scheduled_dispatch_witness :
  sent (snd (scheduled (platform_with_index 100) CONFIG hourly_tick sample_env []))
  = []
  /\ (exists alert,
        formatAlertMessage (platform_with_index 101) (sample_reading (int 101))
        = Returned alert
        /\ sent (snd (scheduled (platform_with_index 101) CONFIG hourly_tick
                        sample_env []))
           = [alert])
  /\ (exists summary,
        formatDailySummary (platform_with_index 7) (sample_reading (int 7))
        = Returned summary
        /\ sent (snd (scheduled (platform_with_index 7) CONFIG daily_tick
                        sample_env []))
           = [summary])
  /\ sent (snd (scheduled unformattable_platform CONFIG daily_tick
                  sample_env []))
     = [].
Proof.
  assert (Hf : forall index,
             In index [100; 101; 7]%Z ->
             fetchAQI (platform_with_index index) CONFIG sample_env []
             = (Returned (sample_reading (int index)),
                [HttpGet (feed_url CONFIG sample_env)])).
  { intros index [<-|[<-|[<-|[]]]]; reflexivity. }
  assert (Hu : fetchAQI unformattable_platform CONFIG sample_env []
               = (Returned unformattable_reading,
                  [HttpGet (feed_url CONFIG sample_env)])) by reflexivity.
  split; [|split; [|split]].
  - refine (proj2 (proj1 (proj2 (scheduled_dispatch _ CONFIG hourly_tick
              sample_env [] _ _ (Hf 100%Z _))) _) eq_refl);
      [simpl; auto | discriminate].
  - eexists. split; [reflexivity|].
    refine (proj1 (proj1 (proj1 (proj2 (scheduled_dispatch _ CONFIG hourly_tick
              sample_env [] _ _ (Hf 101%Z _))) _) eq_refl) _ eq_refl);
      [simpl; auto | discriminate].
  - eexists. split; [reflexivity|].
    refine (proj1 (proj1 (scheduled_dispatch _ CONFIG daily_tick
              sample_env [] _ _ (Hf 7%Z _)) eq_refl) _ eq_refl). simpl; auto.
  - exact (proj1 (proj2 (proj1 (scheduled_dispatch _ CONFIG daily_tick
              sample_env [] _ _ Hu) eq_refl)) cannot_convert eq_refl).
Defined.

(** A fetch that succeeds is not always followed by a message: the feed
    can report a time stamp that is an object with a [toString] key; the
    fetch returns that reading, formatting it throws the conversion
    [TypeError], and neither the daily tick nor an hourly tick above the
    threshold sends anything. *)
Lemma scheduled_dispatch_counterexample :
  fetchAQI unformattable_platform CONFIG sample_env []
  = (Returned unformattable_reading, [HttpGet (feed_url CONFIG sample_env)])
  /\ cron daily_tick = DAILY_SUMMARY (CRON CONFIG)
  /\ sent (snd (scheduled unformattable_platform CONFIG daily_tick
                  sample_env [])) = []
  /\ cron hourly_tick <> DAILY_SUMMARY (CRON CONFIG)
  /\ num_gt (aqi unformattable_reading) (ALERT_THRESHOLD CONFIG) = true
  /\ sent (snd (scheduled unformattable_platform CONFIG hourly_tick
                  sample_env [])) = []
  /\ scheduled unformattable_platform CONFIG daily_tick sample_env []
     = (Returned tt,
        [ HttpGet (feed_url CONFIG sample_env);
          ConsoleLog "AQI check at 2024-01-15T07:00:00.000Z: AQI = 156";
          ConsoleError
            "AQI check failed: Cannot convert object to primitive value" ]).
Proof.
  split; [reflexivity|]. split; [reflexivity|]. split; [reflexivity|].
  split; [discriminate|]. split; [reflexivity|]. split; reflexivity.
Qed.

(** C3.  The scheduled handler returns for every invocation: no error
    leaves it.  An error raised in its [try] block, by the fetch or by the
    delivery, ends the run with one line on the error console.  When the
    fetch fails, the run consists of the feed request and that line: no
    message is sent. *)
Theorem scheduled_swallows_errors (P : Platform) (cfg : Config)
  (controller : ScheduledController) (env : Env) (tr : list event) :
  fst (scheduled P cfg controller env tr) = Returned tt
  /\ (forall e tr',
        scheduled_try P cfg
          (String.eqb (cron controller) (DAILY_SUMMARY (CRON cfg))) env tr
        = (Thrown e, tr') ->
        scheduled P cfg controller env tr
        = (Returned tt,
           (tr' ++ [ConsoleError ("AQI check failed: " ++ message e)])%list))
  /\ (forall e tr',
        fetchAQI P cfg env tr = (Thrown e, tr') ->
        scheduled P cfg controller env tr
        = (Returned tt,
           (tr ++ [ HttpGet (feed_url cfg env);
                    ConsoleError ("AQI check failed: " ++ message e) ])%list)
        /\ sent (snd (scheduled P cfg controller env tr)) = sent tr).
Proof.
  split; [apply scheduled_returns|].
  split; [intros e tr'; apply scheduled_logs|].
  intros e tr' Hf.
  pose proof (fetchAQI_trace P cfg env tr) as Ht. rewrite Hf in Ht.
  simpl in Ht. subst tr'.
  assert (E : scheduled P cfg controller env tr
              = (Returned tt,
                 (tr ++ [ HttpGet (feed_url cfg env);
                          ConsoleError ("AQI check failed: " ++ message e) ])%list)).
  { rewrite (scheduled_logs P cfg env controller e tr _
               (scheduled_try_fetch_fails P cfg env _ e tr _ Hf)).
    now rewrite <- app_assoc. }
  split; [exact E|]. rewrite E. simpl. rewrite sent_app. simpl.
  apply app_nil_r.
Qed.

Lemma scheduled_swallows_errors_witness :
  scheduled offline_platform CONFIG hourly_tick sample_env []
  = (Returned tt,
     [ HttpGet (feed_url CONFIG sample_env);
       ConsoleError "AQI check failed: offline" ])
  /\ sent (snd (scheduled offline_platform CONFIG hourly_tick sample_env [])) = []
  /\ scheduled (sample_platform (reply 200 (sample_json (VNum (int 7))))
                 (reply 403 VNull)) CONFIG daily_tick sample_env []
     = (Returned tt,
        [ HttpGet (feed_url CONFIG sample_env);
          ConsoleLog "AQI check at 2024-01-15T07:00:00.000Z: AQI = 7";
          HttpPost "https://api.telegram.org/botbot/sendMessage"
            {| chat_id := "42";
               text := returned_text
                         (formatDailySummary offline_platform
                            (sample_reading (int 7)));
               parse_mode := "HTML";
               message_thread_id := None |};
          ConsoleError "AQI check failed: Telegram API error: 403 - {}" ]).
Proof.
  destruct (scheduled_swallows_errors offline_platform CONFIG hourly_tick
              sample_env []) as (_ & _ & Hfetch).
  destruct (scheduled_swallows_errors
              (sample_platform (reply 200 (sample_json (VNum (int 7))))
                 (reply 403 VNull)) CONFIG daily_tick sample_env [])
    as (_ & Hany & _).
  split; [|split].
  - exact (proj1 (Hfetch {| site := RuntimeError; message := "offline" |}
                    [HttpGet (feed_url CONFIG sample_env)] eq_refl)).
  - exact (proj2 (Hfetch {| site := RuntimeError; message := "offline" |}
                    [HttpGet (feed_url CONFIG sample_env)] eq_refl)).
  - exact (Hany {| site := DeliveryError;
                   message := "Telegram API error: 403 - {}" |} _ eq_refl).
Defined.

(** ** The diagnostic handler *)

Section Diagnostic.

Variable P : Platform.
Variables (cfg : Config) (env : Env).

Lemma handleWithError_thrown (operation : M Response) (errorStatus : Z)
  (e : Error) (tr tr' : list event) :
  operation tr = (Thrown e, tr') ->
  handleWithError operation errorStatus tr
  = (Returned {| body := Text ("Error: " ++ message e);
                 status_code := errorStatus |}, tr').
Proof.
  intros H. unfold handleWithError. now rewrite (try_catch_thrown _ _ _ _ _ H).
Qed.

Lemma handleWithError_returned (operation : M Response) (errorStatus : Z)
  (r : Response) (tr tr' : list event) :
  operation tr = (Returned r, tr') ->
  handleWithError operation errorStatus tr = (Returned r, tr').
Proof. intros H. unfold handleWithError. now apply try_catch_returned. Qed.

(** The handler is the wrapped operation on a core path. *)
Lemma fetch_core (req : Request) (op : M Response) :
  core_operation P cfg env (pathname req) = Some op ->
  fetch P cfg req env = handleWithError op 500.
Proof.
  unfold core_operation, fetch.
  destruct (String.eqb (pathname req) "/test-alert");
    [now intros [= <-]|].
  destruct (String.eqb (pathname req) "/test-summary");
    [now intros [= <-]|].
  destruct (String.eqb (pathname req) "/check");
    [now intros [= <-] | discriminate].
Qed.

(** An operation that returns, returns a response with status 200. *)
Lemma core_operation_status (path : string) (op : M Response) (r : Response)
  (tr tr' : list event) :
  core_operation P cfg env path = Some op ->
  op tr = (Returned r, tr') -> status_code r = 200%Z.
Proof.
  unfold core_operation.
  destruct (String.eqb path "/test-alert");
    [|destruct (String.eqb path "/test-summary");
      [|destruct (String.eqb path "/check"); [|discriminate]]];
    intros [= <-];
    unfold test_alert_operation, test_summary_operation, check_operation,
      bind, ret, lift;
    destruct (fetchAQI P cfg env tr) as [[data|e] tr1]; try discriminate.
  - destruct (formatAlertMessage P data) as [message|e]; [|discriminate].
    destruct (sendTelegram P env _ tr1) as [[[]|e] tr2]; [|discriminate].
    now intros [= <- _].
  - destruct (formatDailySummary P data) as [message|e]; [|discriminate].
    destruct (sendTelegram P env _ tr1) as [[[]|e] tr2]; [|discriminate].
    now intros [= <- _].
  - now intros [= <- _].
Qed.

(** An error of the fetch is an error of the operation. *)
Lemma core_operation_fetch_fails (path : string) (op : M Response) (e : Error)
  (tr tr' : list event) :
  core_operation P cfg env path = Some op ->
  fetchAQI P cfg env tr = (Thrown e, tr') -> op tr = (Thrown e, tr').
Proof.
  unfold core_operation. intros Hop Hf.
  destruct (String.eqb path "/test-alert");
    [|destruct (String.eqb path "/test-summary");
      [|destruct (String.eqb path "/check"); [|discriminate]]];
    injection Hop as <-; now apply bind_thrown.
Qed.

Lemma core_operation_defined (path : string) :
  In path ["/check"; "/test-alert"; "/test-summary"] ->
  exists op, core_operation P cfg env path = Some op.
Proof.
  intros [<-|[<-|[<-|[]]]]; eexists; reflexivity.
Qed.

End Diagnostic.

(** C5.  On the paths /check, /test-alert and /test-summary the [fetch]
    handler runs the operation of the path inside [handleWithError].  If
    the operation throws, in particular if the fetch throws, the handler
    returns a response of status 500 whose body is "Error: " followed by
    the message of the error.  If the operation returns, the handler
    returns its response, of status 200.  On every path the handler
    returns a response: nothing is thrown past it. *)
Theorem fetch_handler_boundary (P : Platform) (cfg : Config) (req : Request)
  (env : Env) (tr : list event) :
  (exists response tr',
     fetch P cfg req env tr = (Returned response, tr')
     /\ (status_code response = 200 \/ status_code response = 500)%Z)
  /\ (In (pathname req) ["/check"; "/test-alert"; "/test-summary"] ->
      exists op,
        core_operation P cfg env (pathname req) = Some op
        /\ (forall e tr',
              op tr = (Thrown e, tr') ->
              fetch P cfg req env tr
              = (Returned {| body := Text ("Error: " ++ message e);
                             status_code := 500 |}, tr'))
        /\ (forall e tr',
              fetchAQI P cfg env tr = (Thrown e, tr') ->
              fetch P cfg req env tr
              = (Returned {| body := Text ("Error: " ++ message e);
                             status_code := 500 |}, tr'))
        /\ (forall r tr',
              op tr = (Returned r, tr') ->
              fetch P cfg req env tr = (Returned r, tr')
              /\ status_code r = 200%Z)).
Proof.
  split.
  - destruct (core_operation P cfg env (pathname req)) as [op|] eqn:Hop.
    + rewrite (fetch_core P cfg env req op Hop).
      destruct (op tr) as [[r|e] tr'] eqn:E.
      * exists r, tr'. split; [now apply handleWithError_returned|].
        left. exact (core_operation_status P cfg env _ op r tr tr' Hop E).
      * eexists _, tr'. split; [apply handleWithError_thrown; exact E|].
        right. reflexivity.
    + unfold core_operation in Hop. unfold fetch.
      destruct (String.eqb (pathname req) "/test-alert"); [discriminate|].
      destruct (String.eqb (pathname req) "/test-summary"); [discriminate|].
      destruct (String.eqb (pathname req) "/check"); [discriminate|].
      eexists _, tr. split; [reflexivity | now left].
  - intros Hpath.
    destruct (core_operation_defined P cfg env _ Hpath) as [op Hop].
    exists op. split; [exact Hop|].
    rewrite (fetch_core P cfg env req op Hop).
    split; [|split].
    + intros e tr' E. now apply handleWithError_thrown.
    + intros e tr' E. apply handleWithError_thrown.
      exact (core_operation_fetch_fails P cfg env _ op e tr tr' Hop E).
    + intros r tr' E. split; [now apply handleWithError_returned|].
      exact (core_operation_status P cfg env _ op r tr tr' Hop E).
Qed.

Lemma fetch_handler_boundary_witness :
  fetch offline_platform CONFIG {| pathname := "/check" |} sample_env []
  = (Returned {| body := Text "Error: offline"; status_code := 500 |},
     [HttpGet (feed_url CONFIG sample_env)])
  /\ fetch (platform_with_index (-1)) CONFIG {| pathname := "/test-alert" |}
       sample_env []
     = (Returned {| body := Text "Error: Invalid AQI value received: -1";
                    status_code := 500 |},
        [HttpGet (feed_url CONFIG sample_env)])
  /\ fetch (platform_with_index 42) CONFIG {| pathname := "/check" |} sample_env []
     = (Returned {| body := Json (sample_reading (int 42)); status_code := 200 |},
        [HttpGet (feed_url CONFIG sample_env)]).
Proof.
  split; [|split].
  - destruct (proj2 (fetch_handler_boundary offline_platform CONFIG
                       {| pathname := "/check" |} sample_env [])
                (or_introl eq_refl)) as (op & _ & _ & H & _).
    exact (H {| site := RuntimeError; message := "offline" |}
             [HttpGet (feed_url CONFIG sample_env)] eq_refl).
  - destruct (proj2 (fetch_handler_boundary (platform_with_index (-1)) CONFIG
                       {| pathname := "/test-alert" |} sample_env [])
                (or_intror (or_introl eq_refl))) as (op & Hop & H & _).
    injection Hop as <-.
    exact (H {| site := InvalidIndexError;
                message := "Invalid AQI value received: -1" |}
             [HttpGet (feed_url CONFIG sample_env)] eq_refl).
  - destruct (proj2 (fetch_handler_boundary (platform_with_index 42) CONFIG
                       {| pathname := "/check" |} sample_env [])
                (or_introl eq_refl)) as (op & Hop & _ & _ & H).
    injection Hop as <-.
    exact (proj1 (H {| body := Json (sample_reading (int 42)); status_code := 200 |}
                    [HttpGet (feed_url CONFIG sample_env)] eq_refl)).
Defined.

(** ** More on the classifier *)

Lemma num_le_int_mono (v : number) (a b : Z) :
  (a <= b)%Z -> num_le v (int a) = true -> num_le v (int b) = true.
Proof.
  intros Hab. destruct v as [| |q|]; simpl; intros H; try congruence.
  apply Qle_bool_iff in H. apply Qle_bool_iff.
  eapply Qle_trans; [exact H|]. rewrite <- Zle_Qle. exact Hab.
Qed.

Lemma num_gt_le_int (v : number) (a : Z) :
  v <> NaN -> num_le v (int a) = false -> num_gt v (int a) = true.
Proof.
  intros Hv H. unfold num_gt. apply num_le_false_lt; [assumption|discriminate|assumption].
Qed.

Lemma num_gt_not_le (v : number) (a : Z) :
  num_gt v (int a) = true -> num_le v (int a) = false.
Proof.
  unfold num_gt. destruct v as [| |q|]; simpl; try congruence.
  intros H. apply negb_true_iff in H. exact H.
Qed.

(** The six cases of the scan. *)
Lemma getAQILevel_cases (v : number) :
  (num_le v (int 50) = true /\ getAQILevel v = tier_good)
  \/ (num_gt v (int 50) = true /\ num_le v (int 100) = true
      /\ getAQILevel v = tier_moderate)
  \/ (num_gt v (int 100) = true /\ num_le v (int 150) = true
      /\ getAQILevel v = tier_sensitive)
  \/ (num_gt v (int 150) = true /\ num_le v (int 200) = true
      /\ getAQILevel v = tier_unhealthy)
  \/ (num_gt v (int 200) = true /\ num_le v (int 300) = true
      /\ getAQILevel v = tier_very_unhealthy)
  \/ ((num_gt v (int 300) = true \/ v = NaN)
      /\ getAQILevel v = tier_hazardous).
Proof.
  destruct v as [| |q|] eqn:Ev.
  - do 5 right. split; [now right | reflexivity].
  - left. split; reflexivity.
  - rewrite <- Ev. assert (Hv : v <> NaN) by (rewrite Ev; discriminate).
    unfold getAQILevel, find_level, AQI_LEVELS. cbn [find].
    change (max tier_good) with (int 50).
    change (max tier_moderate) with (int 100).
    change (max tier_sensitive) with (int 150).
    change (max tier_unhealthy) with (int 200).
    change (max tier_very_unhealthy) with (int 300).
    destruct (num_le v (int 50)) eqn:E1; [left; auto|].
    right. destruct (num_le v (int 100)) eqn:E2;
      [left; auto using num_gt_le_int|].
    right. destruct (num_le v (int 150)) eqn:E3;
      [left; auto using num_gt_le_int|].
    right. destruct (num_le v (int 200)) eqn:E4;
      [left; auto using num_gt_le_int|].
    right. destruct (num_le v (int 300)) eqn:E5;
      [left; auto using num_gt_le_int|].
    right. change (max tier_hazardous) with PosInf.
    rewrite num_le_PosInf by assumption.
    split; [left; auto using num_gt_le_int | reflexivity].
  - do 5 right. split; [now left | reflexivity].
Qed.

Lemma num_le_trans (a b c : number) :
  num_le a b = true -> num_le b c = true -> num_le a c = true.
Proof.
  destruct a as [| |x|], b as [| |y|], c as [| |z|]; simpl;
    try congruence.
  intros H1 H2. apply Qle_bool_iff in H1, H2. apply Qle_bool_iff.
  eapply Qle_trans; eassumption.
Qed.

(** X10.  The tier does not go down when the index goes up: for
    [a <= b] the bound of the tier of [a] is at most that of [b]. *)
Theorem getAQILevel_monotone (a b : number) :
  num_le a b = true ->
  num_le (max (getAQILevel a)) (max (getAQILevel b)) = true.
Proof.
  intros Hab.
  assert (Hcut : forall x y : Z, (y <= x)%Z ->
            num_gt a (int x) = true -> num_le b (int y) = true -> False).
  { intros x y Hxy Hgt Hle.
    pose proof (num_le_int_mono a y x Hxy (num_le_trans _ _ _ Hab Hle)) as H.
    rewrite (num_gt_not_le a x Hgt) in H. discriminate H. }
  destruct (num_le_not_NaN _ _ Hab) as [Ha Hb].
  destruct (getAQILevel_cases a)
    as [[A1 ->]|[(A0 & A1 & ->)|[(A0 & A1 & ->)|[(A0 & A1 & ->)|[(A0 & A1 & ->)|[[A0|A0] ->]]]]]];
  destruct (getAQILevel_cases b)
    as [[B1 ->]|[(B0 & B1 & ->)|[(B0 & B1 & ->)|[(B0 & B1 & ->)|[(B0 & B1 & ->)|[[B0|B0] ->]]]]]];
    try reflexivity; try contradiction; exfalso;
    (eapply Hcut; [ | exact A0 | exact B1 ]; lia).
Qed.

Lemma getAQILevel_monotone_witness :
  num_le (int 75) (int 180) = true
  /\ num_le (max (getAQILevel (int 75))) (max (getAQILevel (int 180))) = true.
Proof.
  split; [reflexivity|]. apply getAQILevel_monotone. reflexivity.
Defined.

Ltac order_clash :=
  repeat match goal with
         | H : _ /\ _ |- _ => destruct H
         | H : _ \/ _ |- _ => destruct H
         end;
  match goal with
  | G : num_gt ?v (int ?x) = true, L : num_le ?v (int ?y) = true |- _ =>
      exfalso;
      let H := fresh in
      assert (H : num_le v (int x) = true)
        by (apply (num_le_int_mono v y x); [lia | exact L]);
      rewrite (num_gt_not_le v x G) in H; discriminate H
  | N : ?v = NaN, L : num_le ?v _ = true |- _ =>
      exfalso; rewrite N in L; discriminate L
  | N : ?v = NaN, G : num_gt ?v _ = true |- _ =>
      exfalso; rewrite N in G; discriminate G
  end.

(** X11.  The tier of an index is decided by closed intervals, also for
    an index that is not an integer: Good up to 50, Moderate above 50 up
    to 100, Unhealthy for Sensitive Groups above 100 up to 150, Unhealthy
    above 150 up to 200, Very Unhealthy above 200 up to 300, and Hazardous
    above 300 or when the index is NaN. *)
Theorem getAQILevel_intervals (v : number) :
  (getAQILevel v = tier_good <-> num_le v (int 50) = true)
  /\ (getAQILevel v = tier_moderate
      <-> num_gt v (int 50) = true /\ num_le v (int 100) = true)
  /\ (getAQILevel v = tier_sensitive
      <-> num_gt v (int 100) = true /\ num_le v (int 150) = true)
  /\ (getAQILevel v = tier_unhealthy
      <-> num_gt v (int 150) = true /\ num_le v (int 200) = true)
  /\ (getAQILevel v = tier_very_unhealthy
      <-> num_gt v (int 200) = true /\ num_le v (int 300) = true)
  /\ (getAQILevel v = tier_hazardous
      <-> num_gt v (int 300) = true \/ v = NaN).
Proof.
  repeat apply conj;
    (intros H;
     destruct (getAQILevel_cases v)
       as [[A1 E]|[(A0 & A1 & E)|[(A0 & A1 & E)|[(A0 & A1 & E)|[(A0 & A1 & E)|[A0 E]]]]]];
     first
       [ now auto
       | rewrite E in H; discriminate H
       | exact E
       | order_clash ]).
Qed.

Lemma getAQILevel_intervals_witness :
  getAQILevel (Fin (101 # 2)) = tier_moderate
  /\ num_le (int 50) (int 50) = true
  /\ (num_gt NaN (int 300) = true \/ NaN = NaN).
Proof.
  destruct (getAQILevel_intervals (Fin (101 # 2))) as (_ & Hm & _).
  destruct (getAQILevel_intervals (int 50)) as (Hg & _).
  destruct (getAQILevel_intervals NaN) as (_ & _ & _ & _ & _ & Hh).
  split; [exact (proj2 Hm (conj eq_refl eq_refl))|].
  split; [exact (proj1 Hg eq_refl) | exact (proj1 Hh eq_refl)].
Defined.


(** ** More on the fetcher *)

Section FetcherMore.

Variable P : Platform.
Variables (cfg : Config) (env : Env) (tr : list event).

Ltac run_fetch :=
  unfold fetchAQI, fetch_get, bind, emit, await, lift, ret, throw.

(** What a returned reading tells about the answer of the provider. *)
Lemma fetchAQI_inversion (reading : AQIData) (tr' : list event) :
  fetchAQI P cfg env tr = (Returned reading, tr') ->
  exists response json data c,
    http_get P (feed_url cfg env) = Fulfilled response
    /\ ok response = true
    /\ body_json response = Fulfilled json
    /\ schema_ok json data
    /\ get data "city" = Returned c
    /\ get c "name" = Returned (city reading)
    /\ truthy (city reading) = true
    /\ get data "aqi" = Returned (VNum (aqi reading))
    /\ num_lt (aqi reading) (int 0) = false
    /\ get data "dominentpol" = Returned (dominantPollutant reading)
    /\ (forall code x, reading_field reading code = Some x ->
                       iaqi_v data code = Returned x)
    /\ and_then (get data "time") (fun t => get t "s") = Returned (time reading).
Proof.
  run_fetch.
  destruct (http_get P (feed_url cfg env)) as [response|reason] eqn:Hget;
    [|discriminate].
  destruct (ok response) eqn:Hok; cbn [negb]; [|discriminate].
  destruct (body_json response) as [json|reason] eqn:Hjson; [|discriminate].
  destruct (get json "status") as [st|e] eqn:Hst; [|discriminate].
  destruct (strict_eq_string st "ok") eqn:Heq; cbn [negb];
    [|now destruct (ToString P st)].
  destruct (get json "data") as [data|e] eqn:Hdata; [|discriminate].
  destruct (truthy data) eqn:Htd; cbn [negb]; [|discriminate].
  destruct (get data "city") as [c|e] eqn:Hc; [|discriminate].
  destruct (truthy c) eqn:Htc; cbn [negb]; [|discriminate].
  destruct (get c "name") as [nm|e] eqn:Hn; [|discriminate].
  destruct (truthy nm) eqn:Htn; cbn [negb]; [|discriminate].
  destruct (get data "aqi") as [a|e] eqn:Ha; [|discriminate].
  destruct a as [ | |b|n|s|l|f];
    try (now destruct (ToString P _)).
  destruct (num_lt n (int 0)) eqn:Hneg; [now destruct (ToString P _)|].
  cbn [and_then]. rewrite Hn.
  destruct (get data "dominentpol") as [d|e] eqn:Hd; [|discriminate].
  destruct (iaqi_v data "pm25") as [x1|e] eqn:H1; [|discriminate].
  destruct (iaqi_v data "pm10") as [x2|e] eqn:H2; [|discriminate].
  destruct (iaqi_v data "o3") as [x3|e] eqn:H3; [|discriminate].
  destruct (iaqi_v data "no2") as [x4|e] eqn:H4; [|discriminate].
  destruct (iaqi_v data "so2") as [x5|e] eqn:H5; [|discriminate].
  destruct (iaqi_v data "co") as [x6|e] eqn:H6; [|discriminate].
  destruct (iaqi_v data "t") as [x7|e] eqn:H7; [|discriminate].
  destruct (iaqi_v data "h") as [x8|e] eqn:H8; [|discriminate].
  destruct (iaqi_v data "w") as [x9|e] eqn:H9; [|discriminate].
  destruct (and_then (get data "time") (fun t => get t "s")) as [s|e] eqn:Ht;
    [|discriminate].
  intros [= <- <-]. cbn [aqi city dominantPollutant time].
  assert (Est : st = VStr "ok").
  { destruct st; try discriminate Heq. simpl in Heq.
    apply String.eqb_eq in Heq. now subst. }
  subst st.
  exists response, json, data, c. unfold schema_ok.
  repeat match goal with |- _ /\ _ => split end;
    try reflexivity; try assumption.
  - exists c, nm. auto.
  - intros code x. unfold reading_field.
    cbn [pollutants weather pm25 pm10 o3 no2 so2 co temperature humidity wind].
    repeat match goal with
           | |- context [String.eqb code ?k] =>
               destruct (String.eqb_spec code k) as [->|_];
               [now intros [= <-]|]
           end.
    discriminate.
Qed.

Lemma iaqi_v_object (data : value) (fields : list (string * value))
  (code : string) :
  get data "iaqi" = Returned (VObj fields) ->
  iaqi_v data code = Returned (measurement fields code).
Proof.
  intros Hi. unfold iaqi_v, measurement. rewrite Hi. cbn [and_then get].
  destruct (lookup code fields) as [entry|]; [|reflexivity].
  destruct entry; reflexivity.
Qed.

End FetcherMore.

(** X4.  When the feed answers with an HTTP status outside 200..299,
    [fetchAQI] fails with the status and its text and does not read the
    body.  When the request itself is rejected, or the body of an accepted
    answer does not parse, the error of the platform is thrown as it is. *)
Theorem fetchAQI_http_failure (P : Platform) (cfg : Config) (env : Env)
  (tr : list event) :
  (forall response,
     http_get P (feed_url cfg env) = Fulfilled response ->
     ok response = false ->
     fetchAQI P cfg env tr
     = (Thrown {| site := FetchError;
                  message := "AQICN API error: "
                             ++ Number_toString P (int (status response))
                             ++ " " ++ statusText response |},
        (tr ++ [HttpGet (feed_url cfg env)])%list))
  /\ (forall reason,
        http_get P (feed_url cfg env) = RejectedWith reason ->
        fetchAQI P cfg env tr
        = (Thrown {| site := RuntimeError; message := reason |},
           (tr ++ [HttpGet (feed_url cfg env)])%list))
  /\ (forall response reason,
        http_get P (feed_url cfg env) = Fulfilled response ->
        ok response = true ->
        body_json response = RejectedWith reason ->
        fetchAQI P cfg env tr
        = (Thrown {| site := RuntimeError; message := reason |},
           (tr ++ [HttpGet (feed_url cfg env)])%list)).
Proof.
  split; [|split].
  - intros response Hget Hok.
    unfold fetchAQI, fetch_get, bind, emit, await, lift, ret, throw.
    now rewrite Hget, Hok.
  - intros reason Hget.
    unfold fetchAQI, fetch_get, bind, emit, await, lift, ret, throw.
    now rewrite Hget.
  - intros response reason Hget Hok Hjson.
    unfold fetchAQI, fetch_get, bind, emit, await, lift, ret, throw.
    now rewrite Hget, Hok, Hjson.
Qed.

Lemma fetchAQI_http_failure_witness :
  fetchAQI (sample_platform (reply 503 (sample_json (VNum (int 42))))
              (reply 200 VNull)) CONFIG sample_env []
  = (Thrown {| site := FetchError; message := "AQICN API error: 503 OK" |},
     [HttpGet (feed_url CONFIG sample_env)])
  /\ fetchAQI offline_platform CONFIG sample_env []
     = (Thrown {| site := RuntimeError; message := "offline" |},
        [HttpGet (feed_url CONFIG sample_env)])
  /\ fetchAQI (sample_platform
                 (Fulfilled {| status := 200; statusText := "OK";
                               body_json := RejectedWith "Unexpected token";
                               body_text := Fulfilled "<html>" |})
                 (reply 200 VNull)) CONFIG sample_env []
     = (Thrown {| site := RuntimeError; message := "Unexpected token" |},
        [HttpGet (feed_url CONFIG sample_env)]).
Proof.
  split; [|split].
  - match goal with
    | |- fetchAQI ?p _ _ _ = _ =>
        exact (proj1 (fetchAQI_http_failure p CONFIG sample_env [])
                 {| status := 503; statusText := "OK";
                    body_json := Fulfilled (sample_json (VNum (int 42)));
                    body_text := Fulfilled "{}" |} eq_refl eq_refl)
    end.
  - apply (proj1 (proj2 (fetchAQI_http_failure offline_platform CONFIG
                           sample_env []))).
    reflexivity.
  - match goal with
    | |- fetchAQI ?p _ _ _ = _ =>
        refine (proj2 (proj2 (fetchAQI_http_failure p CONFIG sample_env []))
                  {| status := 200; statusText := "OK";
                     body_json := RejectedWith "Unexpected token";
                     body_text := Fulfilled "<html>" |}
                  "Unexpected token" eq_refl eq_refl eq_refl)
    end.
Defined.

(** X5.  When the status is ['ok'] but [data], [data.city] or
    [data.city.name] is missing or falsy (an empty name, for one),
    [fetchAQI] fails with the incomplete-data error, whatever the index
    is: this check comes before the index check. *)
Theorem fetchAQI_incomplete (P : Platform) (cfg : Config) (env : Env)
  (tr : list event) (code : Z) (json data : value) :
  answers P cfg env code json ->
  get json "status" = Returned (VStr "ok") ->
  get json "data" = Returned data ->
  (truthy data = false
   \/ exists c,
        get data "city" = Returned c
        /\ (truthy c = false
            \/ exists name, get c "name" = Returned name /\ truthy name = false)) ->
  fetchAQI P cfg env tr
  = (Thrown {| site := SchemaError;
               message := "Incomplete data structure in API response" |},
     (tr ++ [HttpGet (feed_url cfg env)])%list).
Proof.
  intros (response & Hget & _ & Hok & Hjson) Hst Hdata Hbad.
  unfold fetchAQI, fetch_get, bind, emit, await, lift, ret, throw.
  rewrite Hget, Hok. cbn [negb]. rewrite Hjson, Hst.
  cbn [strict_eq_string String.eqb Ascii.eqb Bool.eqb negb andb].
  rewrite Hdata.
  destruct (truthy data) eqn:Htd; cbn [negb]; [|reflexivity].
  destruct Hbad as [Hbad|(c & Hc & Hbad)]; [discriminate|].
  rewrite Hc. destruct (truthy c) eqn:Htc; cbn [negb]; [|reflexivity].
  destruct Hbad as [Hbad|(name & Hn & Hname)]; [discriminate|].
  now rewrite Hn, Hname.
Qed.

Lemma fetchAQI_incomplete_witness :
  let nameless := VObj [ ("aqi", VNum (int (-1)));
                         ("city", VObj [ ("name", VStr EmptyString) ]) ] in
  let json := VObj [ ("status", VStr "ok"); ("data", nameless) ] in
  fetchAQI (sample_platform (reply 200 json) (reply 200 VNull))
    CONFIG sample_env []
  = (Thrown {| site := SchemaError;
               message := "Incomplete data structure in API response" |},
     [HttpGet (feed_url CONFIG sample_env)]).
Proof.
  intros nameless json.
  refine (fetchAQI_incomplete _ CONFIG sample_env [] 200 json nameless _
            eq_refl eq_refl _).
  - eexists. repeat split; reflexivity.
  - right. exists (VObj [ ("name", VStr EmptyString) ]). split; [reflexivity|].
    right. exists (VStr EmptyString). split; reflexivity.
Defined.

(** X6.  Whatever the feed answers, and whether [fetchAQI] returns or
    throws, it makes exactly one request, a GET of the feed address built
    from the configured city and the token, writes nothing to the console
    and posts nothing: there is no second attempt. *)
Theorem fetchAQI_one_request (P : Platform) (cfg : Config) (env : Env)
  (tr : list event) :
  snd (fetchAQI P cfg env tr)
  = (tr ++ [HttpGet ("https://api.waqi.info/feed/" ++ CITY cfg
                     ++ "/?token=" ++ AQICN_TOKEN env)])%list
  /\ requests (snd (fetchAQI P cfg env tr))
     = (requests tr ++ [HttpGet (feed_url cfg env)])%list
  /\ sent (snd (fetchAQI P cfg env tr)) = sent tr.
Proof.
  split; [apply fetchAQI_trace|]. split; [|apply fetchAQI_sent].
  rewrite fetchAQI_trace. unfold requests. now rewrite filter_app.
Qed.

(** X7.  A reading that [fetchAQI] returns comes from an answer with an
    HTTP status in 200..299 and the status ['ok']; its index is the number
    the answer gave and is not negative, and its city is the
    [data.city.name] of the answer, which is truthy. *)
Theorem fetchAQI_reading_invariant (P : Platform) (cfg : Config) (env : Env)
  (tr tr' : list event) (reading : AQIData) :
  fetchAQI P cfg env tr = (Returned reading, tr') ->
  num_lt (aqi reading) (int 0) = false
  /\ truthy (city reading) = true
  /\ exists response json data c,
       http_get P (feed_url cfg env) = Fulfilled response
       /\ ok response = true
       /\ body_json response = Fulfilled json
       /\ schema_ok json data
       /\ get data "aqi" = Returned (VNum (aqi reading))
       /\ get data "city" = Returned c
       /\ get c "name" = Returned (city reading).
Proof.
  intros H.
  destruct (fetchAQI_inversion P cfg env tr reading tr' H)
    as (response & json & data & c & Hget & Hok & Hjson & Hs & Hc & Hn & Ht
        & Ha & Hneg & _).
  split; [exact Hneg|]. split; [exact Ht|].
  exists response, json, data, c. auto 10.
Qed.

Lemma fetchAQI_reading_invariant_witness :
  num_lt (aqi (sample_reading (int 0))) (int 0) = false
  /\ truthy (city (sample_reading (int 0))) = true
  /\ exists c,
       get (sample_data (VNum (int 0))) "city" = Returned c
       /\ get c "name" = Returned (city (sample_reading (int 0))).
Proof.
  destruct (fetchAQI_reading_invariant (platform_with_index 0) CONFIG
              sample_env [] [HttpGet (feed_url CONFIG sample_env)]
              (sample_reading (int 0)) eq_refl)
    as (H1 & H2 & response & json & data & c & Hget & _ & Hjson & Hs & _
        & Hc & Hn).
  split; [exact H1|]. split; [exact H2|].
  injection Hget as <-. injection Hjson as <-.
  destruct Hs as (_ & Hd & _). injection Hd as <-.
  exists c. split; [exact Hc | exact Hn].
Defined.

(** X8.  Each pollutant and weather field of a returned reading is what
    the [iaqi] object of the answer holds for its code: the [v] of the
    entry, and [undefined] when the code has no entry, when the entry is
    [null] or when it has no [v]. *)
Theorem fetchAQI_projection (P : Platform) (cfg : Config) (env : Env)
  (tr tr' : list event) (code : Z) (json data : value)
  (fields : list (string * value)) (reading : AQIData) :
  answers P cfg env code json ->
  get json "data" = Returned data ->
  get data "iaqi" = Returned (VObj fields) ->
  fetchAQI P cfg env tr = (Returned reading, tr') ->
  forall name x,
    reading_field reading name = Some x -> x = measurement fields name.
Proof.
  intros (response & Hget & _ & _ & Hjson) Hdata Hi H name x Hx.
  destruct (fetchAQI_inversion P cfg env tr reading tr' H)
    as (response' & json' & data' & c & Hget' & _ & Hjson' & Hs & _ & _ & _
        & _ & _ & _ & Hf & _).
  rewrite Hget in Hget'. injection Hget' as <-.
  rewrite Hjson in Hjson'. injection Hjson' as <-.
  destruct Hs as (_ & Hdata' & _).
  rewrite Hdata in Hdata'. injection Hdata' as <-.
  specialize (Hf name x Hx).
  rewrite (iaqi_v_object data fields name Hi) in Hf.
  now injection Hf.
Qed.

Lemma fetchAQI_projection_witness :
  let fields := [ ("pm25", VObj [ ("v", VNum (int 89)) ]);
                  ("t", VObj [ ("v", VNum (int 28)) ]) ] in
  pm25 (pollutants (sample_reading (int 42))) = measurement fields "pm25"
  /\ o3 (pollutants (sample_reading (int 42))) = measurement fields "o3"
  /\ temperature (weather (sample_reading (int 42))) = measurement fields "t".
Proof.
  intros fields.
  assert (H : answers (platform_with_index 42) CONFIG sample_env 200
                (sample_json (VNum (int 42)))).
  { eexists. repeat split; reflexivity. }
  pose proof (fetchAQI_projection (platform_with_index 42) CONFIG sample_env []
                [HttpGet (feed_url CONFIG sample_env)] 200
                (sample_json (VNum (int 42))) (sample_data (VNum (int 42)))
                fields (sample_reading (int 42)) H eq_refl eq_refl eq_refl)
    as Hp.
  split; [exact (Hp "pm25" _ eq_refl)|].
  split; [exact (Hp "o3" _ eq_refl) | exact (Hp "t" _ eq_refl)].
Defined.

(** X9.  An answer that passes every check but has no [iaqi] object, or
    no [time] object, makes [fetchAQI] throw the platform's error for a
    property read on [undefined]; it is not reported as incomplete
    data. *)
Theorem fetchAQI_missing_objects (P : Platform) (cfg : Config) (env : Env)
  (tr : list event) (code : Z) (json data : value) (n : number) :
  answers P cfg env code json ->
  schema_ok json data ->
  get data "aqi" = Returned (VNum n) ->
  num_lt n (int 0) = false ->
  (get data "iaqi" = Returned VUndefined ->
   fetchAQI P cfg env tr
   = (Thrown {| site := RuntimeError;
                message := "Cannot read properties of undefined (reading 'pm25')" |},
      (tr ++ [HttpGet (feed_url cfg env)])%list))
  /\ (forall i,
        get data "iaqi" = Returned i -> is_nullish i = false ->
        get data "time" = Returned VUndefined ->
        fetchAQI P cfg env tr
        = (Thrown {| site := RuntimeError;
                     message := "Cannot read properties of undefined (reading 's')" |},
           (tr ++ [HttpGet (feed_url cfg env)])%list)).
Proof.
  intros (response & Hget & _ & Hok & Hjson)
         (Hst & Hdata & Htd & c & nm & Hc & Htc & Hn & Htn) Ha Hpos.
  destruct (get_total data "dominentpol" (truthy_not_nullish _ Htd)) as [d Hd].
  split.
  - intros Hi.
    unfold fetchAQI, fetch_get, bind, emit, await, lift, ret, throw.
    rewrite Hget, Hok. cbn [negb]. rewrite Hjson, Hst.
    cbn [strict_eq_string String.eqb Ascii.eqb Bool.eqb negb andb].
    rewrite Hdata, Htd. cbn [negb]. rewrite Hc, Htc. cbn [negb].
    rewrite Hn, Htn. cbn [negb]. rewrite Ha, Hpos.
    cbn [and_then]. rewrite Hn, Hd. unfold iaqi_v. rewrite Hi.
    reflexivity.
  - intros i Hi Hni Ht.
    destruct (iaqi_v_returns data i "pm25" Hi Hni) as [x1 H1].
    destruct (iaqi_v_returns data i "pm10" Hi Hni) as [x2 H2].
    destruct (iaqi_v_returns data i "o3" Hi Hni) as [x3 H3].
    destruct (iaqi_v_returns data i "no2" Hi Hni) as [x4 H4].
    destruct (iaqi_v_returns data i "so2" Hi Hni) as [x5 H5].
    destruct (iaqi_v_returns data i "co" Hi Hni) as [x6 H6].
    destruct (iaqi_v_returns data i "t" Hi Hni) as [x7 H7].
    destruct (iaqi_v_returns data i "h" Hi Hni) as [x8 H8].
    destruct (iaqi_v_returns data i "w" Hi Hni) as [x9 H9].
    unfold fetchAQI, fetch_get, bind, emit, await, lift, ret, throw.
    rewrite Hget, Hok. cbn [negb]. rewrite Hjson, Hst.
    cbn [strict_eq_string String.eqb Ascii.eqb Bool.eqb negb andb].
    rewrite Hdata, Htd. cbn [negb]. rewrite Hc, Htc. cbn [negb].
    rewrite Hn, Htn. cbn [negb]. rewrite Ha, Hpos.
    cbn [and_then]. rewrite Hn, Hd, H1, H2, H3, H4, H5, H6, H7, H8, H9, Ht.
    reflexivity.
Qed.

Lemma fetchAQI_missing_objects_witness :
  let no_iaqi := VObj [ ("aqi", VNum (int 42));
                        ("city", VObj [ ("name", VStr "Bangkok") ]) ] in
  let no_time := VObj [ ("aqi", VNum (int 42));
                        ("city", VObj [ ("name", VStr "Bangkok") ]);
                        ("iaqi", VObj []) ] in
  let feed data := reply 200 (VObj [ ("status", VStr "ok"); ("data", data) ]) in
  fetchAQI (sample_platform (feed no_iaqi) (reply 200 VNull)) CONFIG sample_env []
  = (Thrown {| site := RuntimeError;
               message := "Cannot read properties of undefined (reading 'pm25')" |},
     [HttpGet (feed_url CONFIG sample_env)])
  /\ fetchAQI (sample_platform (feed no_time) (reply 200 VNull)) CONFIG sample_env []
     = (Thrown {| site := RuntimeError;
                  message := "Cannot read properties of undefined (reading 's')" |},
        [HttpGet (feed_url CONFIG sample_env)]).
Proof.
  intros no_iaqi no_time feed.
  assert (Hs : forall data rest,
             data = VObj (("aqi", VNum (int 42))
                          :: ("city", VObj [ ("name", VStr "Bangkok") ]) :: rest) ->
             schema_ok (VObj [ ("status", VStr "ok"); ("data", data) ]) data).
  { intros data rest ->. repeat split.
    exists (VObj [ ("name", VStr "Bangkok") ]), (VStr "Bangkok"). repeat split. }
  split.
  - refine (proj1 (fetchAQI_missing_objects
                     (sample_platform (feed no_iaqi) (reply 200 VNull))
                     CONFIG sample_env [] 200
                     (VObj [ ("status", VStr "ok"); ("data", no_iaqi) ])
                     no_iaqi (int 42) _ (Hs _ _ eq_refl) eq_refl eq_refl)
              eq_refl).
    eexists. repeat split; reflexivity.
  - refine (proj2 (fetchAQI_missing_objects
                     (sample_platform (feed no_time) (reply 200 VNull))
                     CONFIG sample_env [] 200
                     (VObj [ ("status", VStr "ok"); ("data", no_time) ])
                     no_time (int 42) _ (Hs _ _ eq_refl) eq_refl eq_refl)
              (VObj []) eq_refl eq_refl eq_refl).
    eexists. repeat split; reflexivity.
Defined.

(** ** More on the notifier *)

Lemma strip_all_blank (n : nat) (l : list ascii) :
  forallb ascii_space l = true -> (length l <= n)%nat ->
  strip_all WHITESPACE n l = [].
Proof.
  revert l. induction n as [|n IH]; intros l Hl Hn.
  - destruct l; [reflexivity | simpl in Hn; lia].
  - destruct l as [|c l]; [reflexivity|].
    simpl in Hl. apply andb_true_iff in Hl as [Hc Hl].
    assert (E : strip_first WHITESPACE (c :: l) = Some l).
    { unfold ascii_space in Hc. apply existsb_exists in Hc as (x & Hin & Hx).
      apply Ascii.eqb_eq in Hx. subst x. simpl in Hin.
      repeat (destruct Hin as [<-|Hin]; [reflexivity|]). contradiction. }
    cbn [strip_all]. rewrite E. apply IH; [exact Hl | simpl in Hn; lia].
Qed.

Lemma trim_blank_empty (s : string) : blank s = true -> trim s = EmptyString.
Proof.
  intros H. unfold trim, trimStart_bytes.
  rewrite (strip_all_blank _ _ H) by lia. reflexivity.
Qed.

(** X1.  A message that is empty or made of ASCII white space only is
    refused with the empty-message error before anything else happens: no
    request is made and the trace is left as it was. *)
Theorem sendTelegram_refuses_blank (P : Platform) (env : Env)
  (message : string) (tr : list event) :
  blank message = true ->
  sendTelegram P env message tr
  = (Thrown {| site := EmptyMessageError;
               message := "Cannot send empty message to Telegram" |}, tr).
Proof.
  intros H. apply sendTelegram_blank. now rewrite (trim_blank_empty _ H).
Qed.

Lemma sendTelegram_refuses_blank_witness :
  sendTelegram (platform_with_index 42) sample_env
    (" " ++ nl ++ String (Ascii.ascii_of_nat 9) " ") []
  = (Thrown {| site := EmptyMessageError;
               message := "Cannot send empty message to Telegram" |}, [])
  /\ sendTelegram (platform_with_index 42) sample_env EmptyString []
     = (Thrown {| site := EmptyMessageError;
                  message := "Cannot send empty message to Telegram" |}, []).
Proof.
  split; apply sendTelegram_refuses_blank; reflexivity.
Defined.

(** X2.  A message that does not trim to the empty string is posted once,
    to the [sendMessage] address of the bot, with the configured chat, the
    message itself as text (it is not trimmed) and the HTML parse mode.
    The thread id is left out when none is configured or when it is the
    empty string; otherwise it is the configured string parsed as an
    integer. *)
Theorem sendTelegram_request (P : Platform) (env : Env) (message : string)
  (tr : list event) :
  truthy_string (trim message) = true ->
  exists payload,
    snd (sendTelegram P env message tr)
    = (tr ++ [HttpPost ("https://api.telegram.org/bot"
                        ++ TELEGRAM_BOT_TOKEN env ++ "/sendMessage")
                       payload])%list
    /\ chat_id payload = TELEGRAM_CHAT_ID env
    /\ text payload = message
    /\ parse_mode payload = "HTML"
    /\ (TELEGRAM_THREAD_ID env = None
        \/ TELEGRAM_THREAD_ID env = Some EmptyString ->
        message_thread_id payload = None)
    /\ (forall id,
          TELEGRAM_THREAD_ID env = Some id -> id <> EmptyString ->
          message_thread_id payload = Some (parseInt P id)).
Proof.
  intros H. unfold sendTelegram. rewrite H. cbn [negb]. cbv zeta.
  match goal with
  | |- context [fetch_post P _ ?b] => exists b
  end.
  split.
  - unfold fetch_post, bind, emit, await, ret, throw.
    destruct (http_post P _ _) as [r|reason]; simpl; [|reflexivity].
    destruct (ok r); simpl; [reflexivity|].
    destruct (body_text r); reflexivity.
  - cbn [chat_id text parse_mode message_thread_id].
    repeat split.
    + intros [E|E]; rewrite E; reflexivity.
    + intros id E Hid. rewrite E. destruct id; [congruence | reflexivity].
Qed.

Lemma sendTelegram_request_witness :
  snd (sendTelegram (telegram_platform 200 "{}") (threaded_env "7") " hi " [])
  = [ HttpPost "https://api.telegram.org/botbot/sendMessage"
        {| chat_id := "42"; text := " hi "; parse_mode := "HTML";
           message_thread_id := Some (int 7) |} ]
  /\ snd (sendTelegram (telegram_platform 200 "{}") (threaded_env EmptyString)
            " hi " [])
     = [ HttpPost "https://api.telegram.org/botbot/sendMessage"
           {| chat_id := "42"; text := " hi "; parse_mode := "HTML";
              message_thread_id := None |} ].
Proof.
  split.
  - destruct (sendTelegram_request (telegram_platform 200 "{}")
                (threaded_env "7") " hi " [] eq_refl)
      as ([c t m th] & -> & Hc & Ht & Hm & _ & Hth).
    simpl in Hc, Ht, Hm. subst c t m.
    specialize (Hth "7" eq_refl ltac:(discriminate)).
    cbn [message_thread_id] in Hth. subst th. reflexivity.
  - destruct (sendTelegram_request (telegram_platform 200 "{}")
                (threaded_env EmptyString) " hi " [] eq_refl)
      as ([c t m th] & -> & Hc & Ht & Hm & Hth & _).
    simpl in Hc, Ht, Hm. subst c t m.
    specialize (Hth (or_intror eq_refl)). cbn [message_thread_id] in Hth.
    subst th. reflexivity.
Defined.

(** X3.  Once the message is posted the call returns exactly when the
    answer has an HTTP status in 200..299, and then the body of the answer
    is not read.  For any other status it fails with the status and the
    text of the body.  A rejected request, or a body that cannot be read,
    throws the platform's error. *)
Theorem sendTelegram_outcome (P : Platform) (env : Env) (message : string)
  (tr : list event) (url : string) (payload : TelegramBody) :
  truthy_string (trim message) = true ->
  snd (sendTelegram P env message tr) = (tr ++ [HttpPost url payload])%list ->
  (forall reason,
     http_post P url payload = RejectedWith reason ->
     fst (sendTelegram P env message tr)
     = Thrown {| site := RuntimeError; message := reason |})
  /\ (forall r,
        http_post P url payload = Fulfilled r -> ok r = true ->
        fst (sendTelegram P env message tr) = Returned tt)
  /\ (forall r t,
        http_post P url payload = Fulfilled r -> ok r = false ->
        body_text r = Fulfilled t ->
        fst (sendTelegram P env message tr)
        = Thrown {| site := DeliveryError;
                    message := "Telegram API error: "
                               ++ Number_toString P (int (status r))
                               ++ " - " ++ t |})
  /\ (forall r reason,
        http_post P url payload = Fulfilled r -> ok r = false ->
        body_text r = RejectedWith reason ->
        fst (sendTelegram P env message tr)
        = Thrown {| site := RuntimeError; message := reason |}).
Proof.
  intros H. unfold sendTelegram. rewrite H. cbn [negb]. cbv zeta.
  match goal with
  | |- context [fetch_post P ?u ?b] => set (u0 := u); set (b0 := b)
  end.
  intros Htr.
  assert (E : HttpPost u0 b0 = HttpPost url payload).
  { revert Htr. unfold fetch_post, bind, emit, await, ret, throw.
    destruct (http_post P u0 b0) as [r|reason]; simpl;
      [destruct (ok r); simpl; [|destruct (body_text r); simpl]|];
      intros Htr; apply app_inv_head in Htr; now injection Htr as -> ->. }
  injection E as Eu Eb. clearbody u0 b0. subst u0 b0.
  unfold fetch_post, bind, emit, await, ret, throw.
  repeat split.
  - intros reason E. now rewrite E.
  - intros r E Hok. rewrite E. simpl. now rewrite Hok.
  - intros r t E Hok Ht. rewrite E. simpl. now rewrite Hok, Ht.
  - intros r reason E Hok Ht. rewrite E. simpl. now rewrite Hok, Ht.
Qed.

Lemma sendTelegram_outcome_witness :
  let url := "https://api.telegram.org/botbot/sendMessage" in
  let payload := {| chat_id := "42"; text := "hi"; parse_mode := "HTML";
                    message_thread_id := None |} in
  fst (sendTelegram (telegram_platform 403 "Forbidden") sample_env "hi" [])
  = Thrown {| site := DeliveryError;
              message := "Telegram API error: 403 - Forbidden" |}
  /\ fst (sendTelegram (telegram_platform 204 "") sample_env "hi" [])
     = Returned tt
  /\ fst (sendTelegram offline_platform sample_env "hi" [])
     = Thrown {| site := RuntimeError; message := "offline" |}
  /\ fst (sendTelegram
            (sample_platform (RejectedWith "offline")
               (Fulfilled {| status := 500; statusText := "";
                             body_json := RejectedWith "not read";
                             body_text := RejectedWith "stream closed" |}))
            sample_env "hi" [])
     = Thrown {| site := RuntimeError; message := "stream closed" |}.
Proof.
  intros url payload.
  split; [|split; [|split]].
  - exact (proj1 (proj2 (proj2
             (sendTelegram_outcome (telegram_platform 403 "Forbidden")
                sample_env "hi" [] url payload eq_refl eq_refl)))
             _ "Forbidden" eq_refl eq_refl eq_refl).
  - exact (proj1 (proj2
             (sendTelegram_outcome (telegram_platform 204 "")
                sample_env "hi" [] url payload eq_refl eq_refl))
             _ eq_refl eq_refl).
  - exact (proj1
             (sendTelegram_outcome offline_platform
                sample_env "hi" [] url payload eq_refl eq_refl)
             "offline" eq_refl).
  - match goal with
    | |- fst (sendTelegram ?p _ _ _) = _ =>
        exact (proj2 (proj2 (proj2
                 (sendTelegram_outcome p sample_env "hi" [] url payload
                    eq_refl eq_refl)))
                 _ "stream closed" eq_refl eq_refl eq_refl)
    end.
Defined.

(** ** More on the formatter *)

Lemma lines_join_flat (l : list string) :
  l <> [] -> lines (join nl l) = flat_map lines l.
Proof.
  induction l as [|a l IH]; [congruence|]. intros _.
  destruct l as [|b l].
  - simpl. now rewrite app_nil_r.
  - rewrite join_cons, lines_app, IH by discriminate. reflexivity.
Qed.

Lemma flat_map_lines_single (l : list string) :
  Forall (fun s => single_line s = true) l -> flat_map lines l = l.
Proof.
  induction 1 as [|a l Ha _ IH]; [reflexivity|].
  simpl. now rewrite (lines_single a Ha), IH.
Qed.

Lemma tier_single_line (v : number) :
  single_line (level (getAQILevel v)) = true
  /\ single_line (emoji (getAQILevel v)) = true
  /\ single_line (advisory (getAQILevel v)) = true.
Proof.
  destruct (getAQILevel_cases v)
    as [[_ ->]|[(_ & _ & ->)|[(_ & _ & ->)|[(_ & _ & ->)|[(_ & _ & ->)|[_ ->]]]]]];
    repeat split; reflexivity.
Qed.

Section FormatterMore.

Variable P : Platform.

Lemma pollutant_section_as_lines (p : Pollutants) :
  (forall n, single_line (Number_toString P n) = true) ->
  pollutants_typed p = true ->
  lines (pollutant_section P p) = pollutant_lines P p.
Proof.
  intros Hn Hp. unfold pollutant_section, pollutant_lines.
  destruct (pollutants_absent p) eqn:E; [reflexivity|].
  apply lines_join; [|now apply bullets_single_line].
  intros Eb. apply bullets_nil in Eb. congruence.
Qed.

Lemma weather_typed_printable (w : Weather) :
  weather_typed w = true -> weather_printable P w = true.
Proof.
  unfold weather_typed, weather_printable. intros Hw.
  repeat (apply andb_true_iff in Hw as [Hw ?]).
  repeat (rewrite number_or_absent_printable by assumption).
  reflexivity.
Qed.

Lemma weather_parts_single_line (w : Weather) :
  (forall n, single_line (Number_toString P n) = true) ->
  weather_typed w = true ->
  Forall (fun s => single_line s = true) (weather_parts P w).
Proof.
  intros Hn Hw. pose proof (present_weather_single_line P _ Hn Hw) as Hp.
  unfold weather_parts.
  destruct (present_weather P w) as [|x xs]; [constructor|].
  constructor; [reflexivity|]. constructor; [|constructor].
  rewrite single_line_app, (single_line_join " | " _ eq_refl Hp).
  reflexivity.
Qed.

Lemma footer_parts_single_line (options : MessageOptions) :
  options_single_line options = true ->
  Forall (fun s => single_line s = true) (footer_parts options).
Proof.
  unfold options_single_line, footer_parts. intros H.
  apply andb_true_iff in H as [_ H].
  destruct (footer options) as [f|]; [|constructor].
  destruct (truthy_string f); repeat constructor. exact H.
Qed.

End FormatterMore.

(** X13.  For a reading whose pollutant and weather fields are numbers or
    absent and whose time stamp can be interpolated, with numbers, time
    stamp and template strings free of line feeds, the formatter returns a
    text that, read line by line, is: the title, a blank line, the index
    line, a blank line, the pollutant header, the placeholder or one line
    per present pollutant, a blank line, the advisory header and the
    advisory, then the weather, footer and time sections, each led by a
    blank line. *)
Theorem formatMessage_as_lines (P : Platform) (data : AQIData)
  (options : MessageOptions) (stamp : string) :
  (forall n, single_line (Number_toString P n) = true) ->
  options_single_line options = true ->
  pollutants_typed (pollutants data) = true ->
  weather_typed (weather data) = true ->
  ToString P (time data) = Returned stamp ->
  single_line stamp = true ->
  exists text,
    formatMessage P data options = Returned text
    /\ lines text = message_lines P data options
    /\ final_line text = "⏰ " ++ stamp.
Proof.
  intros Hn Ho Hp Hw Hstamp Ht.
  destruct (ToString_returned P _ _ Hstamp) as [Hpt Hshown].
  assert (Hf : formattable P data = true).
  { unfold formattable.
    now rewrite (pollutants_typed_printable P _ Hp),
      (weather_typed_printable P _ Hw), Hpt. }
  exists (join nl (message_parts P data options)).
  split; [now rewrite formatMessage_outcome, Hf|].
  split.
  - unfold message_lines.
    rewrite lines_join_flat
      by (unfold message_parts, initial_parts; discriminate).
    unfold message_parts. rewrite !flat_map_app.
    rewrite (flat_map_lines_single _ (weather_parts_single_line P _ Hn Hw)).
    rewrite (flat_map_lines_single _ (footer_parts_single_line _ Ho)).
    rewrite (flat_map_lines_single (time_parts P data)).
    2:{ unfold time_parts, time_line. repeat constructor.
        now rewrite single_line_app, Hshown, Ht. }
    rewrite !app_assoc. do 3 f_equal. rewrite <- !app_assoc.
    destruct (tier_single_line (aqi data)) as (Hl & He & Ha).
    unfold options_single_line in Ho.
    apply andb_true_iff in Ho as [Ho _]. apply andb_true_iff in Ho as [Ho H3].
    apply andb_true_iff in Ho as [H1 H2].
    unfold initial_parts. cbn [flat_map firstn skipn app].
    rewrite (pollutant_section_as_lines P _ Hn Hp).
    rewrite !lines_single; [reflexivity|..];
      rewrite ?single_line_app, ?H1, ?H2, ?H3, ?Hl, ?He, ?Ha, ?Hn; reflexivity.
  - destruct (message_ends P data options) as [before ->].
    unfold time_line. rewrite Hshown.
    apply final_line_app. now rewrite single_line_app, Ht.
Qed.

Lemma formatMessage_as_lines_witness :
  exists text,
    formatDailySummary offline_platform readme_reading = Returned text
    /\ lines text
       = [ "📋 <b>Bangkok Daily Air Quality Summary</b>";
           EmptyString;
           "<b>Current AQI: 156</b> - Unhealthy 🔴";
           EmptyString;
           "📊 <b>Pollutants:</b>";
           "• PM2.5: 89";
           "• PM10: 45";
           "• O₃: 32";
           EmptyString;
           "🏥 <b>Health Advisory:</b>";
           "Everyone may begin to experience health effects. Sensitive groups may experience more serious effects. Consider wearing a mask outdoors.";
           EmptyString;
           "🌡️ 28°C | 65% humidity | Wind: 2 m/s";
           EmptyString;
           "Have a good day! 🌅";
           EmptyString;
           "⏰ 2024-01-15 14:00:00" ].
Proof.
  destruct (formatMessage_as_lines offline_platform readme_reading
              summary_options "2024-01-15 14:00:00"
              sample_Number_toString_single_line eq_refl eq_refl eq_refl
              eq_refl eq_refl) as (text & Htext & Hlines & _).
  exists text. split; [exact Htext | exact Hlines].
Defined.

Lemma startsWith_join_first (x y : string) (l : list string) :
  startsWith (join nl (x :: y :: l)) (x ++ nl) = true.
Proof.
  rewrite join_cons, <- append_assoc. apply startsWith_app.
Qed.

(** X14.  The messages name Bangkok whatever was fetched: every alert
    that the formatter returns opens with the line
    [⚠️ <b>Bangkok Air Quality Alert</b>] and every summary with
    [📋 <b>Bangkok Daily Air Quality Summary</b>], both are returned when
    every displayed value can be interpolated, and the city and the
    dominant pollutant of the reading play no part: two readings that
    differ in these fields only give the same outcome. *)
Theorem formatMessage_fixed_title (P : Platform) (data : AQIData) :
  (forall text,
     formatAlertMessage P data = Returned text ->
     startsWith text ("⚠️ <b>Bangkok Air Quality Alert</b>" ++ nl) = true)
  /\ (forall text,
        formatDailySummary P data = Returned text ->
        startsWith text
          ("📋 <b>Bangkok Daily Air Quality Summary</b>" ++ nl) = true)
  /\ (formattable P data = true ->
      exists alert summary,
        formatAlertMessage P data = Returned alert
        /\ formatDailySummary P data = Returned summary)
  /\ (forall (options : MessageOptions) (other : AQIData),
        aqi other = aqi data -> pollutants other = pollutants data ->
        weather other = weather data -> time other = time data ->
        formatMessage P other options = formatMessage P data options).
Proof.
  split; [|split; [|split]].
  - intros text H. unfold formatAlertMessage in H.
    destruct (formatMessage_returned _ _ _ _ H) as [_ ->].
    unfold message_parts, initial_parts. cbn [app].
    apply startsWith_join_first.
  - intros text H. unfold formatDailySummary in H.
    destruct (formatMessage_returned _ _ _ _ H) as [_ ->].
    unfold message_parts, initial_parts. cbn [app].
    apply startsWith_join_first.
  - intros Hf. unfold formatAlertMessage, formatDailySummary.
    rewrite !formatMessage_outcome, Hf. eauto.
  - intros options other Ha Hp Hw Ht.
    unfold formatMessage, formatMessage_parts, initial_parts.
    now rewrite Ha, Hp, Hw, Ht.
Qed.

Lemma formatMessage_fixed_title_witness :
  let elsewhere := {| aqi := int 156; city := VStr "Shanghai";
                      dominantPollutant := VStr "o3";
                      pollutants := pollutants readme_reading;
                      weather := weather readme_reading;
                      time := time readme_reading |} in
  formatAlertMessage offline_platform elsewhere
  = formatAlertMessage offline_platform readme_reading
  /\ exists alert,
       formatAlertMessage offline_platform elsewhere = Returned alert
       /\ startsWith alert ("⚠️ <b>Bangkok Air Quality Alert</b>" ++ nl) = true.
Proof.
  intros elsewhere.
  destruct (formatMessage_fixed_title offline_platform readme_reading)
    as (_ & _ & _ & Hsame).
  destruct (formatMessage_fixed_title offline_platform elsewhere)
    as (Halert & _ & Hret & _).
  split; [exact (Hsame alert_options elsewhere eq_refl eq_refl eq_refl eq_refl)|].
  destruct (Hret eq_refl) as (alert & _ & Ha & _).
  exists alert. split; [exact Ha | exact (Halert alert Ha)].
Defined.
(** ** More on the handlers *)

(** X15.  A request for any path other than /check, /test-alert and
    /test-summary (the comparison is exact) gets the usage text with
    status 200, and nothing else happens: no request is made and nothing
    is logged. *)
Theorem fetch_usage_fallback (P : Platform) (cfg : Config) (req : Request)
  (env : Env) (tr : list event) :
  ~ In (pathname req) ["/check"; "/test-alert"; "/test-summary"] ->
  fetch P cfg req env tr
  = (Returned {| body := Text (usage P cfg); status_code := 200 |}, tr).
Proof.
  intros H. unfold fetch.
  destruct (String.eqb_spec (pathname req) "/test-alert") as [E|_];
    [destruct H; rewrite E; simpl; auto|].
  destruct (String.eqb_spec (pathname req) "/test-summary") as [E|_];
    [destruct H; rewrite E; simpl; auto|].
  destruct (String.eqb_spec (pathname req) "/check") as [E|_];
    [destruct H; rewrite E; simpl; auto|].
  reflexivity.
Qed.

Lemma fetch_usage_fallback_witness :
  fetch offline_platform CONFIG {| pathname := "/check/" |} sample_env []
  = (Returned {| body := Text (usage offline_platform CONFIG);
                 status_code := 200 |}, [])
  /\ fetch offline_platform CONFIG {| pathname := "/Check" |} sample_env []
     = (Returned {| body := Text (usage offline_platform CONFIG);
                    status_code := 200 |}, []).
Proof.
  split; apply fetch_usage_fallback; simpl;
    intros [H|[H|[H|[]]]]; discriminate H.
Defined.

(** X16.  The test paths do not look at the threshold.  When the fetch
    succeeds and the message can be formatted, /test-alert posts the alert
    for the reading and /test-summary the summary, whatever the index; on
    /test-alert the answer is ["Alert sent! AQI: "] and the index when the
    delivery returns, and the error response of status 500 when it throws.
    When formatting the message throws, nothing is posted and the answer
    is the error response of status 500.  /check posts nothing and answers
    with the reading as JSON. *)
Theorem fetch_test_paths (P : Platform) (cfg : Config) (env : Env)
  (tr tr1 : list event) (data : AQIData) :
  fetchAQI P cfg env tr = (Returned data, tr1) ->
  (forall alert,
     formatAlertMessage P data = Returned alert ->
     sent (snd (fetch P cfg {| pathname := "/test-alert" |} env tr))
     = (sent tr ++ [alert])%list
     /\ (forall tr2,
           sendTelegram P env alert tr1 = (Returned tt, tr2) ->
           fetch P cfg {| pathname := "/test-alert" |} env tr
           = (Returned {| body := Text ("Alert sent! AQI: "
                                         ++ Number_toString P (aqi data));
                          status_code := 200 |}, tr2))
     /\ (forall e tr2,
           sendTelegram P env alert tr1 = (Thrown e, tr2) ->
           fetch P cfg {| pathname := "/test-alert" |} env tr
           = (Returned {| body := Text ("Error: " ++ message e);
                          status_code := 500 |}, tr2)))
  /\ (forall summary,
        formatDailySummary P data = Returned summary ->
        sent (snd (fetch P cfg {| pathname := "/test-summary" |} env tr))
        = (sent tr ++ [summary])%list)
  /\ (forall e,
        formatAlertMessage P data = Thrown e ->
        fetch P cfg {| pathname := "/test-alert" |} env tr
        = (Returned {| body := Text ("Error: " ++ message e);
                       status_code := 500 |}, tr1))
  /\ (forall e,
        formatDailySummary P data = Thrown e ->
        fetch P cfg {| pathname := "/test-summary" |} env tr
        = (Returned {| body := Text ("Error: " ++ message e);
                       status_code := 500 |}, tr1))
  /\ fetch P cfg {| pathname := "/check" |} env tr
     = (Returned {| body := Json data; status_code := 200 |}, tr1)
  /\ sent tr1 = sent tr.
Proof.
  intros Hf. pose proof (fetchAQI_sent P cfg env tr) as Hs.
  rewrite Hf in Hs. simpl in Hs.
  assert (Hsend : forall (format : AQIData -> outcome string)
                         (k : AQIData -> unit -> M Response) (posted : string),
            (forall d u t, snd (k d u t) = t) ->
            format data = Returned posted ->
            truthy_string (trim posted) = true ->
            sent (snd (handleWithError
                         (bind (fetchAQI P cfg env)
                            (fun d => bind (lift (format d))
                               (fun m => bind (sendTelegram P env m) (k d))))
                         500 tr))
            = (sent tr ++ [posted])%list).
  { intros format k posted Hk Hm Ht.
    unfold handleWithError, try_catch. rewrite (bind_returned _ _ _ _ _ Hf).
    pose proof (sendTelegram_sent P env _ tr1 Ht) as Hp.
    unfold bind, lift. rewrite Hm.
    destruct (sendTelegram P env posted tr1)
      as [[[]|e] tr2]; simpl in Hp |- *.
    - pose proof (Hk data tt tr2) as Hk2.
      destruct (k data tt tr2) as [[r|e] tr3]; simpl in Hk2 |- *; subst tr3;
        now rewrite Hp, Hs.
    - now rewrite Hp, Hs. }
  split; [|split; [|split; [|split; [|split]]]].
  - intros alert Hm. split; [|split].
    + exact (Hsend (formatAlertMessage P)
               (fun d _ =>
                  ret {| body := Text ("Alert sent! AQI: "
                                        ++ Number_toString P (aqi d));
                         status_code := 200 |})
               alert (fun _ _ _ => eq_refl) Hm
               (formatMessage_truthy P data alert_options alert Hm)).
    + intros tr2 Hsent. cbn.
      unfold handleWithError, try_catch, test_alert_operation.
      rewrite (bind_returned _ _ _ _ _ Hf), Hm.
      unfold bind at 1, lift at 1.
      now rewrite (bind_returned _ _ _ _ _ Hsent).
    + intros e tr2 Hsent. cbn.
      unfold handleWithError, try_catch, test_alert_operation.
      rewrite (bind_returned _ _ _ _ _ Hf), Hm.
      unfold bind at 1, lift at 1.
      now rewrite (bind_thrown _ _ _ _ _ Hsent).
  - intros summary Hm.
    exact (Hsend (formatDailySummary P)
             (fun d _ =>
                ret {| body := Text ("Summary sent! AQI: "
                                      ++ Number_toString P (aqi d));
                       status_code := 200 |})
             summary (fun _ _ _ => eq_refl) Hm
             (formatMessage_truthy P data summary_options summary Hm)).
  - intros e He. cbn.
    unfold handleWithError, try_catch, test_alert_operation.
    rewrite (bind_returned _ _ _ _ _ Hf), He. reflexivity.
  - intros e He. cbn.
    unfold handleWithError, try_catch, test_summary_operation.
    rewrite (bind_returned _ _ _ _ _ Hf), He. reflexivity.
  - cbn. unfold handleWithError, try_catch, check_operation.
    now rewrite (bind_returned _ _ _ _ _ Hf).
  - exact Hs.
Qed.

Lemma fetch_test_paths_witness :
  (exists alert,
     formatAlertMessage (platform_with_index 7) (sample_reading (int 7))
     = Returned alert
     /\ sent (snd (fetch (platform_with_index 7) CONFIG
                     {| pathname := "/test-alert" |} sample_env []))
        = [alert]
     /\ fetch (platform_with_index 7) CONFIG {| pathname := "/test-alert" |}
          sample_env []
        = (Returned {| body := Text "Alert sent! AQI: 7"; status_code := 200 |},
           [ HttpGet (feed_url CONFIG sample_env);
             HttpPost "https://api.telegram.org/botbot/sendMessage"
               {| chat_id := "42";
                  text := alert;
                  parse_mode := "HTML";
                  message_thread_id := None |} ]))
  /\ (exists alert,
        formatAlertMessage (telegram_platform 403 "Forbidden")
          (sample_reading (int 42)) = Returned alert
        /\ fetch (telegram_platform 403 "Forbidden") CONFIG
             {| pathname := "/test-alert" |} sample_env []
           = (Returned {| body := Text "Error: Telegram API error: 403 - Forbidden";
                          status_code := 500 |},
              [ HttpGet (feed_url CONFIG sample_env);
                HttpPost "https://api.telegram.org/botbot/sendMessage"
                  {| chat_id := "42";
                     text := alert;
                     parse_mode := "HTML";
                     message_thread_id := None |} ]))
  /\ fetch unformattable_platform CONFIG {| pathname := "/test-summary" |}
       sample_env []
     = (Returned {| body := Text "Error: Cannot convert object to primitive value";
                    status_code := 500 |},
        [ HttpGet (feed_url CONFIG sample_env) ]).
Proof.
  destruct (fetch_test_paths (platform_with_index 7) CONFIG sample_env []
              [HttpGet (feed_url CONFIG sample_env)]
              (sample_reading (int 7)) eq_refl) as (Halert & _).
  destruct (fetch_test_paths (telegram_platform 403 "Forbidden") CONFIG
              sample_env [] [HttpGet (feed_url CONFIG sample_env)]
              (sample_reading (int 42)) eq_refl) as (Hfail & _).
  destruct (fetch_test_paths unformattable_platform CONFIG
              sample_env [] [HttpGet (feed_url CONFIG sample_env)]
              unformattable_reading eq_refl) as (_ & _ & _ & Hthrow & _).
  split; [|split].
  - eexists. split; [reflexivity|].
    destruct (Halert _ eq_refl) as (Hsent & Hok & _).
    split; [exact Hsent | exact (Hok _ eq_refl)].
  - eexists. split; [reflexivity|].
    destruct (Hfail _ eq_refl) as (_ & _ & Herr).
    exact (Herr {| site := DeliveryError;
                   message := "Telegram API error: 403 - Forbidden" |}
             _ eq_refl).
  - exact (Hthrow cannot_convert eq_refl).
Defined.

(** X17.  The handler only asks whether the firing expression is the
    daily-summary one.  Two ticks with any expressions other than that one
    run identically, and the configured hourly expression is never
    read. *)
Theorem scheduled_permissive (P : Platform) (cfg : Config) (env : Env)
  (tr : list event) (first second : ScheduledController) :
  cron first <> DAILY_SUMMARY (CRON cfg) ->
  cron second <> DAILY_SUMMARY (CRON cfg) ->
  scheduled P cfg first env tr = scheduled P cfg second env tr
  /\ forall expression,
       scheduled P (with_hourly cfg expression) first env tr
       = scheduled P cfg first env tr.
Proof.
  intros H1 H2. apply String.eqb_neq in H1, H2.
  unfold scheduled. cbn [CRON with_hourly DAILY_SUMMARY].
  rewrite H1, H2. split; reflexivity.
Qed.

Lemma scheduled_permissive_witness :
  scheduled (platform_with_index 101) CONFIG {| cron := "*/5 * * * *" |}
    sample_env []
  = scheduled (platform_with_index 101) CONFIG hourly_tick sample_env [].
Proof.
  apply scheduled_permissive; discriminate.
Defined.

Lemma requests_app (a b : list event) :
  requests (a ++ b) = (requests a ++ requests b)%list.
Proof. apply filter_app. Qed.

Section Budget.

Variable P : Platform.
Variables (cfg : Config) (env : Env).

(** The requests of a send: none for a blank message, one otherwise. *)
Lemma sendTelegram_requests (message : string) (tr : list event) :
  exists posts,
    requests (snd (sendTelegram P env message tr))
    = (requests tr ++ posts)%list
    /\ (posts = [] \/ exists url payload, posts = [HttpPost url payload]).
Proof.
  destruct (truthy_string (trim message)) eqn:E.
  - destruct (sendTelegram_posts P env message tr E)
      as (url & payload & _ & -> & _).
    exists [HttpPost url payload]. rewrite requests_app. eauto.
  - rewrite (sendTelegram_blank P env message tr E). exists []. simpl.
    now rewrite app_nil_r; auto.
Qed.

Lemma quiet_emit_log (line : string) : quiet (console_log line).
Proof.
  intros tr. unfold console_log, emit. simpl.
  rewrite requests_app. simpl. apply app_nil_r.
Qed.

Lemma quiet_emit_error (e : Error) : quiet (scheduled_catch e).
Proof.
  intros tr. unfold scheduled_catch, console_error, emit. simpl.
  rewrite requests_app. simpl. apply app_nil_r.
Qed.

Lemma quiet_ret {A : Type} (a : A) : quiet (ret a).
Proof. intros tr. reflexivity. Qed.

(** After the feed request, a handler that sends at most one message and
    is otherwise quiet makes at most one further request. *)
Lemma fetch_then_send_budget {A : Type} (after : AQIData -> M A)
  (handler : Error -> M A) (tr : list event) :
  (forall e, quiet (handler e)) ->
  (forall data t,
      exists posts,
        requests (snd (try_catch (after data) handler t))
        = (requests t ++ posts)%list
        /\ (length posts <= 1)%nat) ->
  exists posts,
    requests (snd (try_catch (bind (fetchAQI P cfg env) after) handler tr))
    = (requests tr ++ HttpGet (feed_url cfg env) :: posts)%list
    /\ (length posts <= 1)%nat.
Proof.
  intros Hh Ha. pose proof (fetchAQI_trace P cfg env tr) as Ht.
  destruct (fetchAQI P cfg env tr) as [[data|e] tr1] eqn:Hf;
    simpl in Ht; subst tr1.
  - destruct (Ha data (tr ++ [HttpGet (feed_url cfg env)])%list)
      as (posts & Hp & Hlen).
    exists posts. split; [|exact Hlen].
    unfold try_catch in *. rewrite (bind_returned _ _ _ _ _ Hf).
    rewrite Hp, requests_app. simpl. now rewrite <- app_assoc.
  - exists []. split; [|simpl; lia].
    rewrite (try_catch_thrown _ _ _ _ _ (bind_thrown _ _ _ _ _ Hf)).
    rewrite Hh, requests_app. reflexivity.
Qed.

(** A send followed by quiet steps, inside [try], posts at most once. *)
Lemma send_budget {A : Type} (message : string) (next : unit -> M A)
  (handler : Error -> M A) (t : list event) :
  (forall u, quiet (next u)) -> (forall e, quiet (handler e)) ->
  exists posts,
    requests (snd (try_catch (bind (sendTelegram P env message) next) handler t))
    = (requests t ++ posts)%list
    /\ (length posts <= 1)%nat.
Proof.
  intros Hn Hh.
  destruct (sendTelegram_requests message t) as (posts & Hp & Hshape).
  exists posts. split.
  - unfold try_catch, bind.
    destruct (sendTelegram P env message t) as [[[]|e] t1]; simpl in Hp.
    + pose proof (Hn tt t1) as Hq.
      destruct (next tt t1) as [[a|e] t2]; simpl in Hq |- *.
      * now rewrite Hq.
      * now rewrite Hh, Hq.
    + now rewrite Hh.
  - destruct Hshape as [->|(url & payload & ->)]; simpl; lia.
Qed.

(** Formatting, then a send followed by quiet steps, inside [try], posts
    at most once, and not at all when the formatter throws. *)
Lemma format_send_budget {A : Type} (o : outcome string) (next : unit -> M A)
  (handler : Error -> M A) (t : list event) :
  (forall u, quiet (next u)) -> (forall e, quiet (handler e)) ->
  exists posts,
    requests (snd (try_catch
                     (bind (lift o) (fun message =>
                      bind (sendTelegram P env message) next))
                     handler t))
    = (requests t ++ posts)%list
    /\ (length posts <= 1)%nat.
Proof.
  intros Hn Hh. destruct o as [message|e].
  - exact (send_budget message next handler t Hn Hh).
  - exists []. split; [|simpl; lia].
    unfold try_catch, bind, lift. rewrite Hh. now rewrite app_nil_r.
Qed.

End Budget.

(** X18.  A run of the scheduled handler makes the feed request and then
    at most one more request; a call of the [fetch] handler makes no
    request at all or the feed request and then at most one more.  No
    request is repeated. *)
Theorem handlers_request_budget (P : Platform) (cfg : Config) (env : Env)
  (tr : list event) :
  (forall controller,
     exists posts,
       requests (snd (scheduled P cfg controller env tr))
       = (requests tr ++ HttpGet (feed_url cfg env) :: posts)%list
       /\ (length posts <= 1)%nat)
  /\ (forall req,
        requests (snd (fetch P cfg req env tr)) = requests tr
        \/ exists posts,
             requests (snd (fetch P cfg req env tr))
             = (requests tr ++ HttpGet (feed_url cfg env) :: posts)%list
             /\ (length posts <= 1)%nat).
Proof.
  split.
  - intros controller. unfold scheduled, scheduled_try.
    apply fetch_then_send_budget; [apply quiet_emit_error|].
    intros data t. unfold try_catch at 1, bind at 1.
    unfold console_log at 1, emit at 1.
    set (t1 := (t ++ [ConsoleLog _])%list).
    assert (Ht1 : requests t1 = requests t).
    { unfold t1. rewrite requests_app. simpl. apply app_nil_r. }
    rewrite <- Ht1.
    destruct (String.eqb (cron controller) (DAILY_SUMMARY (CRON cfg))).
    + apply (format_send_budget P env); [intros u; apply quiet_emit_log
                                 | apply quiet_emit_error].
    + destruct (num_gt (aqi data) (ALERT_THRESHOLD cfg)).
      * apply (format_send_budget P env); [intros u; apply quiet_emit_log
                                   | apply quiet_emit_error].
      * exists []. simpl. rewrite app_nil_r. split; [reflexivity | lia].
  - intros req.
    assert (Hq : forall status e,
               quiet (fun t => (Returned {| body := Text ("Error: " ++ getErrorMessage e);
                                            status_code := status |}, t))).
    { intros status e t. reflexivity. }
    unfold fetch.
    destruct (String.eqb (pathname req) "/test-alert");
      [|destruct (String.eqb (pathname req) "/test-summary");
        [|destruct (String.eqb (pathname req) "/check")]].
    + right. unfold handleWithError, test_alert_operation.
      apply fetch_then_send_budget; [intros e; apply Hq|].
      intros data t. apply (format_send_budget P env);
        [intros u; apply quiet_ret | intros e; apply Hq].
    + right. unfold handleWithError, test_summary_operation.
      apply fetch_then_send_budget; [intros e; apply Hq|].
      intros data t. apply (format_send_budget P env);
        [intros u; apply quiet_ret | intros e; apply Hq].
    + right. unfold handleWithError, check_operation.
      apply fetch_then_send_budget; [intros e; apply Hq|].
      intros data t. exists []. simpl. rewrite app_nil_r.
      split; [reflexivity | lia].
    + left. reflexivity.
Qed.

Lemma num_gt_100_tier (v : number) :
  num_gt v (int 100) = true -> In (getAQILevel v) alerting_tiers.
Proof.
  intros H. unfold alerting_tiers.
  destruct (getAQILevel_cases v)
    as [[A1 E]|[(A0 & A1 & E)|[(A0 & A1 & E)|[(A0 & A1 & E)|[(A0 & A1 & E)|[A0 E]]]]]];
    rewrite E; simpl; auto; order_clash.
Qed.

Lemma tier_num_gt_100 (v : number) :
  v <> NaN -> In (getAQILevel v) alerting_tiers -> num_gt v (int 100) = true.
Proof.
  intros Hv H. destruct (num_le v (int 100)) eqn:E;
    [|now apply num_gt_le_int].
  exfalso. unfold alerting_tiers in H.
  destruct (getAQILevel_cases v)
    as [[A1 E']|[(A0 & A1 & E')|[(A0 & A1 & E')|[(A0 & A1 & E')|[(A0 & A1 & E')|[A0 E']]]]]];
    rewrite E' in H; simpl in H;
    try (repeat (destruct H as [H|H]; [discriminate H|]); contradiction);
    try order_clash.
Qed.

(** X12.  With the threshold of [CONFIG], the hourly tick alerts by tier:
    when it sends anything, the tier of the reading is above Moderate, and
    for every reading whose index is a number other than NaN with a tier
    above Moderate it sends the alert, if the alert can be formatted, and
    nothing if formatting it throws. *)
Theorem scheduled_alerts_by_tier (P : Platform)
  (controller : ScheduledController) (env : Env) (tr tr1 : list event)
  (data : AQIData) :
  fetchAQI P CONFIG env tr = (Returned data, tr1) ->
  cron controller <> DAILY_SUMMARY (CRON CONFIG) ->
  (sent (snd (scheduled P CONFIG controller env tr)) <> sent tr ->
   In (getAQILevel (aqi data)) alerting_tiers)
  /\ (aqi data <> NaN ->
      In (getAQILevel (aqi data)) alerting_tiers ->
      (forall message,
         formatAlertMessage P data = Returned message ->
         sent (snd (scheduled P CONFIG controller env tr))
         = (sent tr ++ [message])%list)
      /\ (forall e,
            formatAlertMessage P data = Thrown e ->
            sent (snd (scheduled P CONFIG controller env tr)) = sent tr)).
Proof.
  intros Hf Hc.
  pose proof (scheduled_hourly_sent P CONFIG env controller data tr tr1 Hf Hc)
    as H.
  change (ALERT_THRESHOLD CONFIG) with (int 100) in H.
  split.
  - intros Hsent. apply num_gt_100_tier.
    destruct (num_gt (aqi data) (int 100)); [reflexivity|].
    rewrite app_nil_r in H. contradiction.
  - intros Hn Ht. rewrite (tier_num_gt_100 _ Hn Ht) in H. split.
    + intros message Hm. now rewrite Hm in H.
    + intros e He. rewrite He in H. simpl in H. now rewrite app_nil_r in H.
Qed.

Lemma scheduled_alerts_by_tier_witness :
  In (getAQILevel (aqi (sample_reading (int 101)))) alerting_tiers
  /\ exists alert,
       formatAlertMessage (platform_with_index 101) (sample_reading (int 101))
       = Returned alert
       /\ sent (snd (scheduled (platform_with_index 101) CONFIG hourly_tick
                       sample_env []))
          = [alert].
Proof.
  destruct (scheduled_alerts_by_tier (platform_with_index 101) hourly_tick
              sample_env [] [HttpGet (feed_url CONFIG sample_env)]
              (sample_reading (int 101)) eq_refl ltac:(discriminate))
    as [Hfirst Hsecond].
  assert (Htier : In (getAQILevel (aqi (sample_reading (int 101)))) alerting_tiers).
  { apply Hfirst. discriminate. }
  split; [exact Htier|].
  eexists. split; [reflexivity|].
  apply Hsecond; [discriminate | exact Htier | reflexivity].
Defined.
